(** * RTAPI realtime task runtime: shallow embedding and verified properties

    Embeds the task lifecycle and periodic-wait code of
    [src/rtapi/linux_rtapi.c] and [src/rtapi/rt-preempt.c].

    C data is modelled as the code has it: [int], [unsigned int], [long]
    and [unsigned long] values are integers in [Z] with the conversions
    between the C types written out (LP64: 32-bit [int], 64-bit [long]);
    the slot tables are lists indexed by slot number; calls into libc and
    the kernel take their answers as explicit arguments and leave a record
    in an event log. *)

From Stdlib Require Import ZArith Lia Ascii String List.
From stdpp Require Import base option list gmap pretty.
Import ListNotations.

Local Open Scope Z_scope.

(** ** C integer types *)

Definition INT_MIN : Z := -2147483648.
Definition INT_MAX : Z := 2147483647.

(** Conversion to [int] (what gcc does on narrowing: reduce modulo 2^32). *)
Definition to_int (z : Z) : Z := (z + 2147483648) mod 4294967296 - 2147483648.
(** Conversion to [unsigned int]. *)
Definition to_uint (z : Z) : Z := z mod 4294967296.
(** Conversion to [long] and [time_t]. *)
Definition to_long (z : Z) : Z :=
  (z + 9223372036854775808) mod 18446744073709551616 - 9223372036854775808.
(** Conversion to [unsigned long]. *)
Definition to_ulong (z : Z) : Z := z mod 18446744073709551616.

(** ** errno values (Linux <errno.h>) *)

Definition ENOENT : Z := 2.
Definition ENOMEM : Z := 12.
Definition EINVAL : Z := 22.
Definition EMFILE : Z := 24.
Definition ENOSYS : Z := 38.

(** ** Constants of linux_rtapi.c *)

Definition MODULE_MAGIC : Z := 30812.
Definition TASK_MAGIC : Z := 21979.
Definition MAX_TASKS : Z := 64.
Definition MAX_MODULES : Z := 64.
Definition MODULE_OFFSET : Z := 32768.

(** The null pointer. *)
Definition NULL : Z := 0.

(** ** struct timespec *)

Record timespec : Type := { tv_sec : Z; tv_nsec : Z }.

(** The number of nanoseconds a timespec denotes. *)
Definition timespec_ns (tv : timespec) : Z := tv_sec tv * 1000000000 + tv_nsec tv.

(** The comparison both wait functions write out:
    [a.tv_sec > b.tv_sec || (a.tv_sec == b.tv_sec && a.tv_nsec > b.tv_nsec)]. *)
Definition timespec_after (a b : timespec) : bool :=
  (tv_sec a >? tv_sec b) || ((tv_sec a =? tv_sec b) && (tv_nsec a >? tv_nsec b)).

(** ** rtapi_advance_time / _rtapi_advance_time

    The two files carry the same function body.
<<
    ns += tv->tv_nsec;
    while (ns > 1000000000) { s++; ns -= 1000000000; }
    tv->tv_nsec = ns;
    tv->tv_sec += s;
>>
    The loop is run on fuel; [advance_fuel] is the number of iterations the
    loop can take at most, so the loop never runs dry
    (see [advance_loop_enough_fuel]). *)

Fixpoint advance_loop (fuel : nat) (ns s : Z) : option (Z * Z) :=
  match fuel with
  | O => if ns >? 1000000000 then None else Some (ns, s)
  | S fuel' =>
      if ns >? 1000000000
      then advance_loop fuel' (ns - 1000000000) (to_ulong (s + 1))
      else Some (ns, s)
  end.

Definition advance_fuel (ns : Z) : nat := Z.to_nat (ns / 1000000000).

Definition advance_time (tv : timespec) (ns s : Z) : option timespec :=
  let ns := to_ulong (ns + to_ulong (tv_nsec tv)) in
  match advance_loop (advance_fuel ns) ns s with
  | Some (ns, s) =>
      Some {| tv_sec := to_long (to_ulong (tv_sec tv) + s); tv_nsec := to_long ns |}
  | None => None
  end.

(** ** Outcomes of running C code

    A function either returns a value in a new state, ends the calling
    thread ([pthread_exit]), or runs into undefined behaviour. *)

Inductive fault : Type :=
| NullPointerDereference
| DivisionByZero
| OutOfBounds
| InvalidFree
| LoopOutOfFuel.

Inductive outcome (S A : Type) : Type :=
| Returns (a : A) (s : S)
| ThreadExits (s : S)
| Faults (f : fault).
Arguments Returns {S A} a s.
Arguments ThreadExits {S A} s.
Arguments Faults {S A} f.

Definition M (S A : Type) : Type := S -> outcome S A.

#[global] Instance M_ret {S} : MRet (M S) := fun A a s => Returns a s.
#[global] Instance M_bind {S} : MBind (M S) := fun A B k m s =>
  match m s with
  | Returns a s' => k a s'
  | ThreadExits s' => ThreadExits s'
  | Faults f => Faults f
  end.

Definition get_state {S} : M S S := fun s => Returns s s.
Definition put_state {S} (s : S) : M S unit := fun _ => Returns tt s.
Definition raise {S A} (f : fault) : M S A := fun _ => Faults f.
Definition pthread_exit {S A} : M S A := fun s => ThreadExits s.

(** The value a call returns, if it returns. *)
Definition returned {S A} (o : outcome S A) : option A :=
  match o with Returns a _ => Some a | _ => None end.
(** The state a call leaves, if it returns. *)
Definition state_after {S A} (o : outcome S A) : option S :=
  match o with Returns _ s => Some s | _ => None end.

(** The call returns, and the value and the state it returns satisfy [Q]. *)
Definition returns_with {S A} (o : outcome S A) (Q : A -> S -> Prop) : Prop :=
  match o with Returns a s => Q a s | _ => False end.

(** ** Slot scan

    The three allocation loops walk a table upwards from a start index
    while the index is below a bound and the slot is in use. [scan] gives
    the index at which such a loop stops; it is [None] if the table is
    shorter than the bound. *)
Fixpoint scan {A} (in_use : A -> bool) (arr : list A) (fuel : nat) (n bound : Z)
  : option Z :=
  match fuel with
  | O => None
  | S fuel' =>
      if n <? bound then
        match arr !! Z.to_nat n with
        | Some a => if in_use a then scan in_use arr fuel' (n + 1) bound else Some n
        | None => None
        end
      else Some n
  end.

(** Message levels of rtapi_print_msg. *)
Inductive msg_level : Type :=
| RTAPI_MSG_NONE | RTAPI_MSG_ERR | RTAPI_MSG_WARN | RTAPI_MSG_INFO | RTAPI_MSG_DBG.

(** Calls that leave the process, as they are logged. *)
Inductive event : Type :=
| Msg (level : msg_level) (text : string)
| Join (thread : Z)
| Create (thread stackaddr stacksize : Z)
| SetAffinity (thread cpu : Z)
| SetScheduler (prio : Z)
| Sleep (deadline_policy : bool) (until : timespec)
| RunTask (taskcode arg : Z)
| ExceptionHandler (task : Z).

(** What the host answers to the queries whose result does not change
    while the program runs, and the constants that rt-preempt.c takes from
    headers outside src. *)
Record host : Type := {
  sched_priority_max : Z;   (* sched_get_priority_max(SCHED_FIFO) *)
  sched_priority_min : Z;   (* sched_get_priority_min(SCHED_FIFO) *)
  CPU_SETSIZE : nat;        (* <sched.h> *)
  RTAPI_NAME_LEN : nat;     (* rtapi.h; sizeof(task->name) *)
  RTAPI_MAX_MODULES : Z;    (* rtapi.h *)
  RTAPI_MAX_TASKS : Z;      (* rtapi.h *)
  RTAPI_POSIX : bool        (* build flag: the simulator flavor *)
}.

(** What the host answers while a task is started: the calls made by
    rtapi_task_start and by the new thread up to the init barrier. *)
Record start_env : Type := {
  create_retval : Z;           (* pthread_create *)
  created_thread : Z;          (* the pthread_t it stores *)
  worker_minflt : Z;           (* getrusage in the new thread *)
  worker_majflt : Z;
  affinity : Z -> bool;        (* pthread_getaffinity_np, read with CPU_ISSET *)
  setaffinity_err : Z;         (* pthread_setaffinity_np *)
  setscheduler_err : Z         (* sched_setscheduler *)
}.

(** * linux_rtapi.c *)

Module LinuxRtapi.

(** ** Data

    [task_data] is declared in rtapi_common.h; the fields are those
    linux_rtapi.c reads and writes, typed as the code uses them ([int]
    where they are printed with percent-d, and as [extra_task_data_t] of
    rt-preempt.c declares the runtime fields). Pointers are addresses. *)
Record task_data : Type := {
  task_magic : Z;
  task_name : string;
  task_owner : Z;
  task_taskcode : Z;
  task_arg : Z;
  task_prio : Z;
  task_cpu : Z;
  task_stacksize : Z;
  task_uses_fp : Z;
  task_period : Z;
  task_ratio : Z;
  task_deleted : Z;
  task_destroyed : Z;
  task_next_time : timespec;
  task_thread : Z;
  task_stackaddr : Z;
  task_deadline_scheduling : Z;
  task_minfault_base : Z;
  task_majfault_base : Z;
  task_failures : Z
}.

Definition set_magic (v : Z) (t : task_data) : task_data :=
  {| task_magic := v; task_name := task_name t; task_owner := task_owner t; task_taskcode :=
     task_taskcode t; task_arg := task_arg t; task_prio := task_prio t; task_cpu := task_cpu t;
     task_stacksize := task_stacksize t; task_uses_fp := task_uses_fp t; task_period :=
     task_period t; task_ratio := task_ratio t; task_deleted := task_deleted t; task_destroyed
     := task_destroyed t; task_next_time := task_next_time t; task_thread := task_thread t;
     task_stackaddr := task_stackaddr t; task_deadline_scheduling := task_deadline_scheduling t;
     task_minfault_base := task_minfault_base t; task_majfault_base := task_majfault_base t;
     task_failures := task_failures t |}.
Definition set_name (v : string) (t : task_data) : task_data :=
  {| task_magic := task_magic t; task_name := v; task_owner := task_owner t; task_taskcode :=
     task_taskcode t; task_arg := task_arg t; task_prio := task_prio t; task_cpu := task_cpu t;
     task_stacksize := task_stacksize t; task_uses_fp := task_uses_fp t; task_period :=
     task_period t; task_ratio := task_ratio t; task_deleted := task_deleted t; task_destroyed
     := task_destroyed t; task_next_time := task_next_time t; task_thread := task_thread t;
     task_stackaddr := task_stackaddr t; task_deadline_scheduling := task_deadline_scheduling t;
     task_minfault_base := task_minfault_base t; task_majfault_base := task_majfault_base t;
     task_failures := task_failures t |}.
Definition set_owner (v : Z) (t : task_data) : task_data :=
  {| task_magic := task_magic t; task_name := task_name t; task_owner := v; task_taskcode :=
     task_taskcode t; task_arg := task_arg t; task_prio := task_prio t; task_cpu := task_cpu t;
     task_stacksize := task_stacksize t; task_uses_fp := task_uses_fp t; task_period :=
     task_period t; task_ratio := task_ratio t; task_deleted := task_deleted t; task_destroyed
     := task_destroyed t; task_next_time := task_next_time t; task_thread := task_thread t;
     task_stackaddr := task_stackaddr t; task_deadline_scheduling := task_deadline_scheduling t;
     task_minfault_base := task_minfault_base t; task_majfault_base := task_majfault_base t;
     task_failures := task_failures t |}.
Definition set_taskcode (v : Z) (t : task_data) : task_data :=
  {| task_magic := task_magic t; task_name := task_name t; task_owner := task_owner t;
     task_taskcode := v; task_arg := task_arg t; task_prio := task_prio t; task_cpu := task_cpu
     t; task_stacksize := task_stacksize t; task_uses_fp := task_uses_fp t; task_period :=
     task_period t; task_ratio := task_ratio t; task_deleted := task_deleted t; task_destroyed
     := task_destroyed t; task_next_time := task_next_time t; task_thread := task_thread t;
     task_stackaddr := task_stackaddr t; task_deadline_scheduling := task_deadline_scheduling t;
     task_minfault_base := task_minfault_base t; task_majfault_base := task_majfault_base t;
     task_failures := task_failures t |}.
Definition set_arg (v : Z) (t : task_data) : task_data :=
  {| task_magic := task_magic t; task_name := task_name t; task_owner := task_owner t;
     task_taskcode := task_taskcode t; task_arg := v; task_prio := task_prio t; task_cpu :=
     task_cpu t; task_stacksize := task_stacksize t; task_uses_fp := task_uses_fp t; task_period
     := task_period t; task_ratio := task_ratio t; task_deleted := task_deleted t;
     task_destroyed := task_destroyed t; task_next_time := task_next_time t; task_thread :=
     task_thread t; task_stackaddr := task_stackaddr t; task_deadline_scheduling :=
     task_deadline_scheduling t; task_minfault_base := task_minfault_base t; task_majfault_base
     := task_majfault_base t; task_failures := task_failures t |}.
Definition set_prio (v : Z) (t : task_data) : task_data :=
  {| task_magic := task_magic t; task_name := task_name t; task_owner := task_owner t;
     task_taskcode := task_taskcode t; task_arg := task_arg t; task_prio := v; task_cpu :=
     task_cpu t; task_stacksize := task_stacksize t; task_uses_fp := task_uses_fp t; task_period
     := task_period t; task_ratio := task_ratio t; task_deleted := task_deleted t;
     task_destroyed := task_destroyed t; task_next_time := task_next_time t; task_thread :=
     task_thread t; task_stackaddr := task_stackaddr t; task_deadline_scheduling :=
     task_deadline_scheduling t; task_minfault_base := task_minfault_base t; task_majfault_base
     := task_majfault_base t; task_failures := task_failures t |}.
Definition set_cpu (v : Z) (t : task_data) : task_data :=
  {| task_magic := task_magic t; task_name := task_name t; task_owner := task_owner t;
     task_taskcode := task_taskcode t; task_arg := task_arg t; task_prio := task_prio t;
     task_cpu := v; task_stacksize := task_stacksize t; task_uses_fp := task_uses_fp t;
     task_period := task_period t; task_ratio := task_ratio t; task_deleted := task_deleted t;
     task_destroyed := task_destroyed t; task_next_time := task_next_time t; task_thread :=
     task_thread t; task_stackaddr := task_stackaddr t; task_deadline_scheduling :=
     task_deadline_scheduling t; task_minfault_base := task_minfault_base t; task_majfault_base
     := task_majfault_base t; task_failures := task_failures t |}.
Definition set_stacksize (v : Z) (t : task_data) : task_data :=
  {| task_magic := task_magic t; task_name := task_name t; task_owner := task_owner t;
     task_taskcode := task_taskcode t; task_arg := task_arg t; task_prio := task_prio t;
     task_cpu := task_cpu t; task_stacksize := v; task_uses_fp := task_uses_fp t; task_period :=
     task_period t; task_ratio := task_ratio t; task_deleted := task_deleted t; task_destroyed
     := task_destroyed t; task_next_time := task_next_time t; task_thread := task_thread t;
     task_stackaddr := task_stackaddr t; task_deadline_scheduling := task_deadline_scheduling t;
     task_minfault_base := task_minfault_base t; task_majfault_base := task_majfault_base t;
     task_failures := task_failures t |}.
Definition set_uses_fp (v : Z) (t : task_data) : task_data :=
  {| task_magic := task_magic t; task_name := task_name t; task_owner := task_owner t;
     task_taskcode := task_taskcode t; task_arg := task_arg t; task_prio := task_prio t;
     task_cpu := task_cpu t; task_stacksize := task_stacksize t; task_uses_fp := v; task_period
     := task_period t; task_ratio := task_ratio t; task_deleted := task_deleted t;
     task_destroyed := task_destroyed t; task_next_time := task_next_time t; task_thread :=
     task_thread t; task_stackaddr := task_stackaddr t; task_deadline_scheduling :=
     task_deadline_scheduling t; task_minfault_base := task_minfault_base t; task_majfault_base
     := task_majfault_base t; task_failures := task_failures t |}.
Definition set_period (v : Z) (t : task_data) : task_data :=
  {| task_magic := task_magic t; task_name := task_name t; task_owner := task_owner t;
     task_taskcode := task_taskcode t; task_arg := task_arg t; task_prio := task_prio t;
     task_cpu := task_cpu t; task_stacksize := task_stacksize t; task_uses_fp := task_uses_fp t;
     task_period := v; task_ratio := task_ratio t; task_deleted := task_deleted t;
     task_destroyed := task_destroyed t; task_next_time := task_next_time t; task_thread :=
     task_thread t; task_stackaddr := task_stackaddr t; task_deadline_scheduling :=
     task_deadline_scheduling t; task_minfault_base := task_minfault_base t; task_majfault_base
     := task_majfault_base t; task_failures := task_failures t |}.
Definition set_ratio (v : Z) (t : task_data) : task_data :=
  {| task_magic := task_magic t; task_name := task_name t; task_owner := task_owner t;
     task_taskcode := task_taskcode t; task_arg := task_arg t; task_prio := task_prio t;
     task_cpu := task_cpu t; task_stacksize := task_stacksize t; task_uses_fp := task_uses_fp t;
     task_period := task_period t; task_ratio := v; task_deleted := task_deleted t;
     task_destroyed := task_destroyed t; task_next_time := task_next_time t; task_thread :=
     task_thread t; task_stackaddr := task_stackaddr t; task_deadline_scheduling :=
     task_deadline_scheduling t; task_minfault_base := task_minfault_base t; task_majfault_base
     := task_majfault_base t; task_failures := task_failures t |}.
Definition set_deleted (v : Z) (t : task_data) : task_data :=
  {| task_magic := task_magic t; task_name := task_name t; task_owner := task_owner t;
     task_taskcode := task_taskcode t; task_arg := task_arg t; task_prio := task_prio t;
     task_cpu := task_cpu t; task_stacksize := task_stacksize t; task_uses_fp := task_uses_fp t;
     task_period := task_period t; task_ratio := task_ratio t; task_deleted := v; task_destroyed
     := task_destroyed t; task_next_time := task_next_time t; task_thread := task_thread t;
     task_stackaddr := task_stackaddr t; task_deadline_scheduling := task_deadline_scheduling t;
     task_minfault_base := task_minfault_base t; task_majfault_base := task_majfault_base t;
     task_failures := task_failures t |}.
Definition set_destroyed (v : Z) (t : task_data) : task_data :=
  {| task_magic := task_magic t; task_name := task_name t; task_owner := task_owner t;
     task_taskcode := task_taskcode t; task_arg := task_arg t; task_prio := task_prio t;
     task_cpu := task_cpu t; task_stacksize := task_stacksize t; task_uses_fp := task_uses_fp t;
     task_period := task_period t; task_ratio := task_ratio t; task_deleted := task_deleted t;
     task_destroyed := v; task_next_time := task_next_time t; task_thread := task_thread t;
     task_stackaddr := task_stackaddr t; task_deadline_scheduling := task_deadline_scheduling t;
     task_minfault_base := task_minfault_base t; task_majfault_base := task_majfault_base t;
     task_failures := task_failures t |}.
Definition set_next_time (v : timespec) (t : task_data) : task_data :=
  {| task_magic := task_magic t; task_name := task_name t; task_owner := task_owner t;
     task_taskcode := task_taskcode t; task_arg := task_arg t; task_prio := task_prio t;
     task_cpu := task_cpu t; task_stacksize := task_stacksize t; task_uses_fp := task_uses_fp t;
     task_period := task_period t; task_ratio := task_ratio t; task_deleted := task_deleted t;
     task_destroyed := task_destroyed t; task_next_time := v; task_thread := task_thread t;
     task_stackaddr := task_stackaddr t; task_deadline_scheduling := task_deadline_scheduling t;
     task_minfault_base := task_minfault_base t; task_majfault_base := task_majfault_base t;
     task_failures := task_failures t |}.
Definition set_thread (v : Z) (t : task_data) : task_data :=
  {| task_magic := task_magic t; task_name := task_name t; task_owner := task_owner t;
     task_taskcode := task_taskcode t; task_arg := task_arg t; task_prio := task_prio t;
     task_cpu := task_cpu t; task_stacksize := task_stacksize t; task_uses_fp := task_uses_fp t;
     task_period := task_period t; task_ratio := task_ratio t; task_deleted := task_deleted t;
     task_destroyed := task_destroyed t; task_next_time := task_next_time t; task_thread := v;
     task_stackaddr := task_stackaddr t; task_deadline_scheduling := task_deadline_scheduling t;
     task_minfault_base := task_minfault_base t; task_majfault_base := task_majfault_base t;
     task_failures := task_failures t |}.
Definition set_stackaddr (v : Z) (t : task_data) : task_data :=
  {| task_magic := task_magic t; task_name := task_name t; task_owner := task_owner t;
     task_taskcode := task_taskcode t; task_arg := task_arg t; task_prio := task_prio t;
     task_cpu := task_cpu t; task_stacksize := task_stacksize t; task_uses_fp := task_uses_fp t;
     task_period := task_period t; task_ratio := task_ratio t; task_deleted := task_deleted t;
     task_destroyed := task_destroyed t; task_next_time := task_next_time t; task_thread :=
     task_thread t; task_stackaddr := v; task_deadline_scheduling := task_deadline_scheduling t;
     task_minfault_base := task_minfault_base t; task_majfault_base := task_majfault_base t;
     task_failures := task_failures t |}.
Definition set_deadline_scheduling (v : Z) (t : task_data) : task_data :=
  {| task_magic := task_magic t; task_name := task_name t; task_owner := task_owner t;
     task_taskcode := task_taskcode t; task_arg := task_arg t; task_prio := task_prio t;
     task_cpu := task_cpu t; task_stacksize := task_stacksize t; task_uses_fp := task_uses_fp t;
     task_period := task_period t; task_ratio := task_ratio t; task_deleted := task_deleted t;
     task_destroyed := task_destroyed t; task_next_time := task_next_time t; task_thread :=
     task_thread t; task_stackaddr := task_stackaddr t; task_deadline_scheduling := v;
     task_minfault_base := task_minfault_base t; task_majfault_base := task_majfault_base t;
     task_failures := task_failures t |}.
Definition set_minfault_base (v : Z) (t : task_data) : task_data :=
  {| task_magic := task_magic t; task_name := task_name t; task_owner := task_owner t;
     task_taskcode := task_taskcode t; task_arg := task_arg t; task_prio := task_prio t;
     task_cpu := task_cpu t; task_stacksize := task_stacksize t; task_uses_fp := task_uses_fp t;
     task_period := task_period t; task_ratio := task_ratio t; task_deleted := task_deleted t;
     task_destroyed := task_destroyed t; task_next_time := task_next_time t; task_thread :=
     task_thread t; task_stackaddr := task_stackaddr t; task_deadline_scheduling :=
     task_deadline_scheduling t; task_minfault_base := v; task_majfault_base :=
     task_majfault_base t; task_failures := task_failures t |}.
Definition set_majfault_base (v : Z) (t : task_data) : task_data :=
  {| task_magic := task_magic t; task_name := task_name t; task_owner := task_owner t;
     task_taskcode := task_taskcode t; task_arg := task_arg t; task_prio := task_prio t;
     task_cpu := task_cpu t; task_stacksize := task_stacksize t; task_uses_fp := task_uses_fp t;
     task_period := task_period t; task_ratio := task_ratio t; task_deleted := task_deleted t;
     task_destroyed := task_destroyed t; task_next_time := task_next_time t; task_thread :=
     task_thread t; task_stackaddr := task_stackaddr t; task_deadline_scheduling :=
     task_deadline_scheduling t; task_minfault_base := task_minfault_base t; task_majfault_base
     := v; task_failures := task_failures t |}.
Definition set_failures (v : Z) (t : task_data) : task_data :=
  {| task_magic := task_magic t; task_name := task_name t; task_owner := task_owner t;
     task_taskcode := task_taskcode t; task_arg := task_arg t; task_prio := task_prio t;
     task_cpu := task_cpu t; task_stacksize := task_stacksize t; task_uses_fp := task_uses_fp t;
     task_period := task_period t; task_ratio := task_ratio t; task_deleted := task_deleted t;
     task_destroyed := task_destroyed t; task_next_time := task_next_time t; task_thread :=
     task_thread t; task_stackaddr := task_stackaddr t; task_deadline_scheduling :=
     task_deadline_scheduling t; task_minfault_base := task_minfault_base t; task_majfault_base
     := task_majfault_base t; task_failures := v |}.

Record module_data : Type := { module_magic : Z }.

(** The static data of the file, the thread-specific values of [task_key]
    (thread id to slot of the bound task; no entry is the null pointer),
    the live malloc blocks, and the event log, most recent first. *)
Record rtapi_state : Type := {
  task_array : list task_data;
  module_array : list module_data;
  period : Z;
  task_key : gmap Z Z;
  heap : gset Z;
  log : list event
}.

Definition set_task_array (v : list task_data) (s : rtapi_state) : rtapi_state :=
  {| task_array := v; module_array := module_array s; period := period s;
     task_key := task_key s; heap := heap s; log := log s |}.
Definition set_module_array (v : list module_data) (s : rtapi_state) : rtapi_state :=
  {| task_array := task_array s; module_array := v; period := period s;
     task_key := task_key s; heap := heap s; log := log s |}.
Definition set_clock_period (v : Z) (s : rtapi_state) : rtapi_state :=
  {| task_array := task_array s; module_array := module_array s; period := v;
     task_key := task_key s; heap := heap s; log := log s |}.
Definition set_task_key (v : gmap Z Z) (s : rtapi_state) : rtapi_state :=
  {| task_array := task_array s; module_array := module_array s; period := period s;
     task_key := v; heap := heap s; log := log s |}.
Definition set_heap (v : gset Z) (s : rtapi_state) : rtapi_state :=
  {| task_array := task_array s; module_array := module_array s; period := period s;
     task_key := task_key s; heap := v; log := log s |}.
Definition set_log (v : list event) (s : rtapi_state) : rtapi_state :=
  {| task_array := task_array s; module_array := module_array s; period := period s;
     task_key := task_key s; heap := heap s; log := v |}.

(** Static storage starts out zeroed. *)
Definition zero_task : task_data :=
  {| task_magic := 0; task_name := EmptyString; task_owner := 0; task_taskcode := NULL;
     task_arg := NULL; task_prio := 0; task_cpu := 0; task_stacksize := 0;
     task_uses_fp := 0; task_period := 0; task_ratio := 0; task_deleted := 0;
     task_destroyed := 0; task_next_time := {| tv_sec := 0; tv_nsec := 0 |};
     task_thread := 0; task_stackaddr := NULL; task_deadline_scheduling := 0;
     task_minfault_base := 0; task_majfault_base := 0; task_failures := 0 |}.

Definition initial_state : rtapi_state :=
  {| task_array := replicate (Z.to_nat MAX_TASKS) zero_task;
     module_array := replicate (Z.to_nat MAX_MODULES) {| module_magic := 0 |};
     period := 0; task_key := ∅; heap := ∅; log := [] |}.

(** The tables have their declared sizes. *)
Definition wf_state (s : rtapi_state) : Prop :=
  length (task_array s) = Z.to_nat MAX_TASKS /\
  length (module_array s) = Z.to_nat MAX_MODULES.

Abbreviation R := (M rtapi_state).

(** ** Memory and table access *)

Definition load_task (n : Z) : R task_data := fun s =>
  if n <? 0 then Faults OutOfBounds else
  match task_array s !! Z.to_nat n with
  | Some t => Returns t s
  | None => Faults OutOfBounds
  end.

(** [task->field = v] on [task = &task_array[n]]. *)
Definition store_task (n : Z) (f : task_data -> task_data) : R unit := fun s =>
  if n <? 0 then Faults OutOfBounds else
  match task_array s !! Z.to_nat n with
  | Some t => Returns tt (set_task_array (<[Z.to_nat n := f t]> (task_array s)) s)
  | None => Faults OutOfBounds
  end.

Definition store_module (n : Z) (m : module_data) : R unit := fun s =>
  if n <? 0 then Faults OutOfBounds else
  match module_array s !! Z.to_nat n with
  | Some _ => Returns tt (set_module_array (<[Z.to_nat n := m]> (module_array s)) s)
  | None => Faults OutOfBounds
  end.

Definition emit (e : event) : R unit := fun s => Returns tt (set_log (e :: log s) s).

Definition rtapi_print_msg (level : msg_level) (text : string) : R unit :=
  emit (Msg level text).

(** [malloc]: [answer] is the block the allocator hands out, [NULL] when it
    has none. *)
Definition malloc (answer : Z) (size : Z) : R Z := fun s =>
  if answer =? NULL then Returns NULL s
  else Returns answer (set_heap ({[answer]} ∪ heap s) s).

(** [free]: nothing on [NULL]; freeing what is not a live block is
    undefined. *)
Definition free (p : Z) : R unit := fun s =>
  if p =? NULL then Returns tt s
  else if decide (p ∈ heap s) then Returns tt (set_heap (heap s ∖ {[p]}) s)
  else Faults InvalidFree.

Definition scan_result (r : option Z) : R Z :=
  match r with Some n => mret n | None => raise OutOfBounds end.

(** ** Helpers *)

Definition rtapi_advance_time (tv : timespec) (ns s : Z) : R timespec :=
  match advance_time tv ns s with
  | Some tv' => mret tv'
  | None => raise LoopOutOfFuel
  end.

(** [minflt], [majflt]: what getrusage reports in ru_minflt and ru_majflt
    (long).  The code copies them into unsigned long locals before it
    compares them with the unsigned long baselines of the task. *)
Definition rtapi_get_pagefault_count (n : Z) (minflt majflt : Z) : R Z :=
  task ← load_task n;
  let minor := to_ulong minflt in
  let major := to_ulong majflt in
  if (minor <? task_minfault_base task) || (major <? task_majfault_base task) then
    rtapi_print_msg RTAPI_MSG_ERR "Got invalid fault counts";;
    mret 0
  else
    let minor := to_ulong (minor - task_minfault_base task) in
    let major := to_ulong (major - task_majfault_base task) in
    mret (to_ulong (minor + major)).

(** The baselines are unsigned long: the samples are converted for the
    comparison and for the assignment. *)
Definition rtapi_reset_pagefault_count (n : Z) (minflt majflt : Z) : R unit :=
  task ← load_task n;
  if negb (task_minfault_base task =? to_ulong minflt)
     || negb (task_majfault_base task =? to_ulong majflt)
  then
    store_task n (set_minfault_base (to_ulong minflt));;
    store_task n (set_majfault_base (to_ulong majflt));;
    rtapi_print_msg RTAPI_MSG_DBG "Reset pagefault counter"
  else mret tt.

(** [self] is the calling thread. *)
Definition rtapi_set_task (self : Z) (n : Z) : R unit := fun s =>
  Returns tt (set_task_key (<[self := n]> (task_key s)) s).

Definition rtapi_this_task (self : Z) : R (option Z) := fun s =>
  Returns (task_key s !! self) s.

Definition rtapi_prio_highest (h : host) : Z := sched_priority_max h.
Definition rtapi_prio_lowest (h : host) : Z := sched_priority_min h.

Definition rtapi_prio_next_higher (h : host) (prio : Z) : Z :=
  if prio >=? rtapi_prio_highest h then rtapi_prio_highest h
  else if prio <? rtapi_prio_lowest h then rtapi_prio_lowest h
  else prio + 1.

Definition rtapi_prio_next_lower (h : host) (prio : Z) : Z :=
  if prio <=? rtapi_prio_lowest h then rtapi_prio_lowest h
  else if prio >? rtapi_prio_highest h then rtapi_prio_highest h
  else prio - 1.

(** ** Module registry *)

Definition module_in_use (m : module_data) : bool := module_magic m =? MODULE_MAGIC.

Definition rtapi_init (modname : option string) : R Z :=
  s ← get_state;
  n ← scan_result
        (scan module_in_use (module_array s) (S (Z.to_nat MAX_MODULES)) 0 MAX_MODULES);
  if n <? MAX_MODULES then
    store_module n {| module_magic := MODULE_MAGIC |};;
    mret (n + MODULE_OFFSET)
  else mret (- ENOMEM).

Definition rtapi_exit (id : Z) : R Z :=
  let n := id - MODULE_OFFSET in
  if (n <? 0) || (n >=? MAX_MODULES) then mret (-1)
  else
    store_module n {| module_magic := 0 |};;
    mret 0.

(** ** Clock period

    [res] is what clock_getres(CLOCK_MONOTONIC) writes (it leaves the
    zero-initialised [res] as it is when it fails). The arithmetic is in
    [unsigned long]; the result is stored in the [int] [period]. *)
Definition rtapi_clock_set_period (res : timespec) (nsecs : Z) : R Z :=
  s ← get_state;
  if nsecs =? 0 then mret (period s)
  else if negb (period s =? 0) then
    rtapi_print_msg RTAPI_MSG_ERR "attempt to set period twice";;
    mret (- EINVAL)
  else
    let r := to_ulong (tv_nsec res) in
    if r =? 0 then raise DivisionByZero
    else
      let p := to_int (to_ulong ((nsecs / r) * r)) in
      let p := if p <? 1 then to_int (tv_nsec res) else p in
      s ← get_state;
      put_state (set_clock_period p s);;
      rtapi_print_msg RTAPI_MSG_DBG "rtapi_clock_set_period";;
      mret p.

(** ** Task admission *)

Definition task_in_use (t : task_data) : bool := task_magic t =? TASK_MAGIC.

(** strncpy into [task->name] followed by the terminating NUL. *)
Definition copy_name (h : host) (name : string) : string :=
  substring 0 (RTAPI_NAME_LEN h - 1) name.

(** [malloc_answer]: see [malloc]. *)
Definition rtapi_task_new (h : host) (malloc_answer : Z)
    (taskcode arg prio owner stacksize uses_fp : Z) (name : string) (cpu_id : Z) : R Z :=
  let stacksize := if stacksize >? 16384 then stacksize else 16384 in
  stackaddr ← malloc malloc_answer stacksize;
  if stackaddr =? NULL then
    rtapi_print_msg RTAPI_MSG_ERR "Failed to allocate realtime thread stack";;
    mret (- ENOMEM)
  else
    s ← get_state;
    n ← scan_result
          (scan task_in_use (task_array s) (S (Z.to_nat MAX_TASKS)) 0 MAX_TASKS);
    if n =? MAX_TASKS then
      free stackaddr;;
      mret (- ENOMEM)
    else
      store_task n (set_magic TASK_MAGIC);;
      let highest := rtapi_prio_highest h in
      let lowest := rtapi_prio_lowest h in
      if (prio <? lowest) || (prio >? highest) then
        rtapi_print_msg RTAPI_MSG_ERR "New task: invalid priority";;
        free stackaddr;;
        mret (- EINVAL)
      else
        rtapi_print_msg RTAPI_MSG_DBG "Creating new task";;
        store_task n (set_owner owner);;
        store_task n (set_arg arg);;
        store_task n (set_stacksize stacksize);;
        store_task n (set_stackaddr stackaddr);;
        store_task n (set_destroyed 0);;
        store_task n (set_taskcode taskcode);;
        store_task n (set_prio prio);;
        store_task n (set_uses_fp uses_fp);;
        store_task n (set_cpu cpu_id);;
        store_task n (set_name (copy_name h name));;
        mret n.

(** [join_err]: what pthread_join returns, if it is called. *)
Definition pthread_join (thread : Z) (join_err : Z) : R Z :=
  emit (Join thread);; mret join_err.

Definition rtapi_task_delete (join_err : Z) (id : Z) : R Z :=
  if (id <? 0) || (id >=? MAX_TASKS) then mret (- EINVAL)
  else
    task ← load_task id;
    if negb (task_magic task =? TASK_MAGIC) then mret (- EINVAL)
    else
      (if task_deleted task =? 0 then
         store_task id (set_deleted 1);;
         err ← pthread_join (task_thread task) join_err;
         if negb (err =? 0)
         then rtapi_print_msg RTAPI_MSG_ERR "pthread_join() on realtime thread failed"
         else mret tt
       else mret tt);;
      free (task_stackaddr task);;
      store_task id (set_stackaddr NULL);;
      store_task id (set_magic 0);;
      mret 0.

(** ** The realtime thread *)

(** The loop [for (cpu_nr = CPU_SETSIZE - 1; cpu_nr >= 0; cpu_nr--)] of
    realtime_set_affinity; [-1] when no CPU is in the set. *)
Fixpoint last_cpu (isset : Z -> bool) (n : nat) : Z :=
  match n with
  | O => -1
  | S n' => if isset (Z.of_nat n') then Z.of_nat n' else last_cpu isset n'
  end.

Definition CPU_ISSET (h : host) (cpu : Z) (set : Z -> bool) : bool :=
  (0 <=? cpu) && (cpu <? Z.of_nat (CPU_SETSIZE h)) && set cpu.

Definition realtime_set_affinity (h : host) (e : start_env) (n : Z) : R Z :=
  task ← load_task n;
  let set := affinity e in
  use_cpu ←
    (if task_cpu task >? -1 then
       if negb (CPU_ISSET h (task_cpu task) set) then
         rtapi_print_msg RTAPI_MSG_ERR "realtime_set_affinity: CPU not available";;
         mret None
       else mret (Some (task_cpu task))
     else
       let use_cpu := last_cpu set (CPU_SETSIZE h) in
       if use_cpu <? 0 then
         rtapi_print_msg RTAPI_MSG_ERR "Unable to get ID of the last CPU";;
         mret None
       else
         rtapi_print_msg RTAPI_MSG_DBG "using default CPU";;
         mret (Some use_cpu));
  match use_cpu with
  | None => mret (- EINVAL)
  | Some use_cpu =>
      emit (SetAffinity (task_thread task) use_cpu);;
      if negb (setaffinity_err e =? 0) then
        rtapi_print_msg RTAPI_MSG_ERR "Failed to set CPU affinity";;
        mret (- EINVAL)
      else
        rtapi_print_msg RTAPI_MSG_DBG "realtime_set_affinity(): task assigned to CPU";;
        mret 0
  end.

(** ENABLE_SCHED_DEADLINE is 0: the deadline branch is compiled out. *)
Definition realtime_set_priority (e : start_env) (n : Z) : R Z :=
  store_task n (set_deadline_scheduling 0);;
  task ← load_task n;
  emit (SetScheduler (task_prio task));;
  if negb (setscheduler_err e =? 0) then
    rtapi_print_msg RTAPI_MSG_ERR "Unable to set FIFO scheduling policy";;
    mret 1
  else mret 0.

(** [int] division; by zero and [INT_MIN / -1] are undefined. *)
Definition int_div (a b : Z) : R Z :=
  if b =? 0 then raise DivisionByZero
  else if (a =? INT_MIN) && (b =? -1) then raise DivisionByZero
  else mret (Z.quot a b).

(** realtime_thread from its entry to the init barrier. The result tells
    whether the thread goes on to run the task ([true]) or took the error
    exit ([false]). *)
Definition realtime_thread_init (h : host) (e : start_env) (self : Z) (n : Z) : R bool :=
  rtapi_set_task self n;;
  rtapi_reset_pagefault_count n (worker_minflt e) (worker_majflt e);;
  s ← get_state;
  task ← load_task n;
  (if task_period task <? period s then store_task n (set_period (period s)) else mret tt);;
  task ← load_task n;
  ratio ← int_div (task_period task) (period s);
  store_task n (set_ratio ratio);;
  rtapi_print_msg RTAPI_MSG_DBG "task period ratio";;
  r ← realtime_set_affinity h e n;
  if negb (r =? 0) then store_task n (set_deleted 1);; mret false
  else
    r ← realtime_set_priority e n;
    if negb (r =? 0) then store_task n (set_deleted 1);; mret false
    else mret true.

(** realtime_thread from the barrier to the call of the task function:
    [now] is what clock_gettime reads. *)
Definition realtime_thread_run (now : timespec) (n : Z) : R unit :=
  store_task n (set_next_time now);;
  task ← load_task n;
  next ← rtapi_advance_time (task_next_time task) (to_ulong (task_period task)) 0;
  store_task n (set_next_time next);;
  emit (RunTask (task_taskcode task) (task_arg task)).

(** realtime_thread after the task function has returned. *)
Definition realtime_thread_end (n : Z) : R unit :=
  rtapi_print_msg RTAPI_MSG_ERR "ERROR: reached end of realtime thread";;
  store_task n (set_deleted 1).

(** The new thread runs up to the barrier while the starter waits there, so
    its init phase is placed between pthread_create and the test of
    [deleted]. *)
Definition rtapi_task_start (h : host) (e : start_env) (task_id period_nsec : Z) : R Z :=
  if (task_id <? 0) || (task_id >=? MAX_TASKS) then mret (- EINVAL)
  else
    task ← load_task task_id;
    if negb (task_magic task =? TASK_MAGIC) then mret (- EINVAL)
    else
      s ← get_state;
      let period_nsec :=
        if period_nsec <? to_ulong (period s) then to_ulong (period s) else period_nsec in
      store_task task_id (set_period (to_int period_nsec));;
      (if to_ulong (period s) =? 0 then raise DivisionByZero
       else store_task task_id (set_ratio (to_int (period_nsec / to_ulong (period s)))));;
      store_task task_id (set_deleted 0);;
      rtapi_print_msg RTAPI_MSG_DBG "About to pthread_create task";;
      (if create_retval e =? 0 then
         store_task task_id (set_thread (created_thread e));;
         emit (Create (created_thread e) (task_stackaddr task) (task_stacksize task))
       else mret tt);;
      rtapi_print_msg RTAPI_MSG_DBG "Created task";;
      if negb (create_retval e =? 0) then
        rtapi_print_msg RTAPI_MSG_ERR "Failed to create realtime thread";;
        mret (- ENOMEM)
      else
        realtime_thread_init h e (created_thread e) task_id;;
        task ← load_task task_id;
        if negb (task_deleted task =? 0) then
          rtapi_print_msg RTAPI_MSG_ERR "Realtime thread initialization failed";;
          mret (- ENOMEM)
        else
          rtapi_print_msg RTAPI_MSG_DBG "Task finished its basic init";;
          mret 0.

Definition rtapi_task_stop (task_id : Z) : R Z :=
  if (task_id <? 0) || (task_id >=? MAX_TASKS) then mret (- EINVAL)
  else
    task ← load_task task_id;
    if negb (task_magic task =? TASK_MAGIC) then mret (- EINVAL)
    else
      store_task task_id (set_destroyed 1);;
      mret 0.

Definition rtapi_task_pause (task_id : Z) : R Z :=
  if (task_id <? 0) || (task_id >=? MAX_TASKS) then mret (- EINVAL)
  else
    task ← load_task task_id;
    if negb (task_magic task =? TASK_MAGIC) then mret (- EINVAL)
    else mret (- ENOSYS).

Definition rtapi_task_resume (task_id : Z) : R Z :=
  if (task_id <? 0) || (task_id >=? MAX_TASKS) then mret (- EINVAL)
  else
    task ← load_task task_id;
    if negb (task_magic task =? TASK_MAGIC) then mret (- EINVAL)
    else mret (- ENOSYS).

Definition rtapi_task_set_period (task_id period_nsec : Z) : R Z :=
  if (task_id <? 0) || (task_id >=? MAX_TASKS) then mret (- EINVAL)
  else
    task ← load_task task_id;
    if negb (task_magic task =? TASK_MAGIC) then mret (- EINVAL)
    else
      store_task task_id (set_period (to_int period_nsec));;
      mret 0.

(** ** Periodic wait

    [self] is the calling thread, [now] what clock_gettime reads after the
    sleep, [minflt] and [majflt] what getrusage reports. *)
Definition rtapi_wait (self : Z) (now : timespec) (minflt majflt : Z) : R Z :=
  this ← rtapi_this_task self;
  match this with
  | None => raise NullPointerDereference
  | Some n =>
      task ← load_task n;
      if negb (task_deleted task =? 0) then pthread_exit
      else
        emit (Sleep (negb (task_deadline_scheduling task =? 0)) (task_next_time task));;
        next ← rtapi_advance_time (task_next_time task) (to_ulong (task_period task)) 0;
        store_task n (set_next_time next);;
        let ts := now in
        (if timespec_after ts next then
           let failures := to_uint (task_failures task + 1) in
           store_task n (set_failures failures);;
           let msg_level :=
             if failures =? 1 then RTAPI_MSG_ERR
             else if failures <? 10 then RTAPI_MSG_WARN
             else RTAPI_MSG_NONE in
           match msg_level with
           | RTAPI_MSG_NONE => mret tt
           | _ =>
               rtapi_get_pagefault_count n minflt majflt;;
               rtapi_print_msg msg_level "ERROR: Missed scheduling deadline for task"
           end
         else mret tt);;
        mret 0
  end.

(** ** Handles *)

(** Slot [n] of the task table carries TASK_MAGIC. *)
Definition task_valid (n : Z) (s : rtapi_state) : Prop :=
  0 <= n < MAX_TASKS /\
  exists t, task_array s !! Z.to_nat n = Some t /\ task_magic t = TASK_MAGIC.

(** ** Steps of a program

    The calls a program can make into linux_rtapi.c, each with what the
    host answers during the call, and the two stretches of realtime_thread
    that run after the init barrier. *)
Inductive step : Type :=
| CallInit (modname : option string)
| CallExit (id : Z)
| CallClockSetPeriod (res : timespec) (nsecs : Z)
| CallTaskNew (malloc_answer taskcode arg prio owner stacksize uses_fp : Z)
    (name : string) (cpu_id : Z)
| CallTaskDelete (join_err id : Z)
| CallTaskStart (e : start_env) (task_id period_nsec : Z)
| CallTaskStop (task_id : Z)
| CallTaskPause (task_id : Z)
| CallTaskResume (task_id : Z)
| CallTaskSetPeriod (task_id period_nsec : Z)
| CallWait (self : Z) (now : timespec) (minflt majflt : Z)
| ThreadRun (now : timespec) (n : Z)
| ThreadEnd (n : Z).

Definition run (h : host) (c : step) : R Z :=
  match c with
  | CallInit modname => rtapi_init modname
  | CallExit id => rtapi_exit id
  | CallClockSetPeriod res nsecs => rtapi_clock_set_period res nsecs
  | CallTaskNew malloc_answer taskcode arg prio owner stacksize uses_fp name cpu_id =>
      rtapi_task_new h malloc_answer taskcode arg prio owner stacksize uses_fp name cpu_id
  | CallTaskDelete join_err id => rtapi_task_delete join_err id
  | CallTaskStart e task_id period_nsec => rtapi_task_start h e task_id period_nsec
  | CallTaskStop task_id => rtapi_task_stop task_id
  | CallTaskPause task_id => rtapi_task_pause task_id
  | CallTaskResume task_id => rtapi_task_resume task_id
  | CallTaskSetPeriod task_id period_nsec => rtapi_task_set_period task_id period_nsec
  | CallWait self now minflt majflt => rtapi_wait self now minflt majflt
  | ThreadRun now n => realtime_thread_run now n;; mret 0
  | ThreadEnd n => realtime_thread_end n;; mret 0
  end.

(** [I] holds in the state a call leaves (when it returns or ends the
    thread). *)
Definition holds_after {A} (o : outcome rtapi_state A) (I : rtapi_state -> Prop) : Prop :=
  match o with
  | Returns _ s' => I s'
  | ThreadExits s' => I s'
  | Faults _ => True
  end.

Definition preserves {A} (I : rtapi_state -> Prop) (m : R A) : Prop :=
  forall s, I s -> holds_after (m s) I.

(** The state after a sequence of steps, each taken by some thread; [None]
    once a step has run into undefined behaviour. *)
Fixpoint run_steps (h : host) (cs : list step) (s : rtapi_state) : option rtapi_state :=
  match cs with
  | [] => Some s
  | c :: cs' =>
      match run h c s with
      | Returns _ s' => run_steps h cs' s'
      | ThreadExits s' => run_steps h cs' s'
      | Faults _ => None
      end
  end.

(** Whatever [m] returns satisfies [P]. *)
Definition returns_in {A} (m : R A) (P : A -> Prop) : Prop :=
  forall s r s', m s = Returns r s' -> P r.

(** A returning call takes a state to one that [Rel] relates it to. *)
Definition relates {A} (Rel : rtapi_state -> rtapi_state -> Prop) (m : R A) : Prop :=
  forall s r s', m s = Returns r s' -> Rel s s'.

(** The [deleted] flags of the task table, slot by slot. *)
Definition deleted_flags (s : rtapi_state) : list Z := task_deleted <$> task_array s.

(** Every task operation takes the id [n]: none answers -EINVAL. *)
Definition accepted (h : host) (n : Z) (s : rtapi_state) : Prop :=
  (forall e p, returned (rtapi_task_start h e n p s) <> Some (- EINVAL)) /\
  returned (rtapi_task_stop n s) = Some 0 /\
  returned (rtapi_task_pause n s) = Some (- ENOSYS) /\
  returned (rtapi_task_resume n s) = Some (- ENOSYS) /\
  (forall p, returned (rtapi_task_set_period n p s) = Some 0) /\
  (forall join_err, returned (rtapi_task_delete join_err n s) <> Some (- EINVAL)).

(** Every task operation answers -EINVAL to the id [n] and leaves the
    state as it is. *)
Definition rejected (h : host) (n : Z) (s : rtapi_state) : Prop :=
  (forall e p, rtapi_task_start h e n p s = Returns (- EINVAL) s) /\
  rtapi_task_stop n s = Returns (- EINVAL) s /\
  rtapi_task_pause n s = Returns (- EINVAL) s /\
  rtapi_task_resume n s = Returns (- EINVAL) s /\
  (forall p, rtapi_task_set_period n p s = Returns (- EINVAL) s) /\
  (forall join_err, rtapi_task_delete join_err n s = Returns (- EINVAL) s).

End LinuxRtapi.

(** * rt-preempt.c (the RTAPI half) *)

Module RtPreempt.

(** ** Data

    [module_data], [task_data] and the thread status block are declared in
    headers outside src; the fields are those rt-preempt.c uses. *)
Inductive mod_state : Type := NO_MODULE | REALTIME.

Record module_data : Type := { module_state : mod_state; module_name : string }.

Record task_data : Type := {
  task_name : string;
  task_stacksize : Z;
  task_period : Z;
  task_ratio : Z;
  task_prio : Z;
  task_cpu : Z;
  task_taskcode : Z;
  task_arg : Z
}.

Record extra_task_data_t : Type := {
  deleted : Z;
  destroyed : Z;
  next_time : timespec;
  thread : Z;
  stackaddr : Z;
  tid : Z;
  minfault_base : Z;
  majfault_base : Z;
  failures : Z
}.

Definition set_deleted (v : Z) (x : extra_task_data_t) : extra_task_data_t :=
  {| deleted := v; destroyed := destroyed x; next_time := next_time x; thread := thread x;
     stackaddr := stackaddr x; tid := tid x; minfault_base := minfault_base x;
     majfault_base := majfault_base x; failures := failures x |}.
Definition set_destroyed (v : Z) (x : extra_task_data_t) : extra_task_data_t :=
  {| deleted := deleted x; destroyed := v; next_time := next_time x; thread := thread x;
     stackaddr := stackaddr x; tid := tid x; minfault_base := minfault_base x;
     majfault_base := majfault_base x; failures := failures x |}.
Definition set_next_time (v : timespec) (x : extra_task_data_t) : extra_task_data_t :=
  {| deleted := deleted x; destroyed := destroyed x; next_time := v; thread := thread x;
     stackaddr := stackaddr x; tid := tid x; minfault_base := minfault_base x;
     majfault_base := majfault_base x; failures := failures x |}.
Definition set_stackaddr (v : Z) (x : extra_task_data_t) : extra_task_data_t :=
  {| deleted := deleted x; destroyed := destroyed x; next_time := next_time x;
     thread := thread x; stackaddr := v; tid := tid x; minfault_base := minfault_base x;
     majfault_base := majfault_base x; failures := failures x |}.

(** What getrusage(RUSAGE_THREAD) fills in. *)
Record rusage : Type := {
  ru_utime : Z * Z;   (* tv_sec, tv_usec *)
  ru_stime : Z * Z;
  ru_minflt : Z;
  ru_majflt : Z;
  ru_nsignals : Z;
  ru_nivcsw : Z
}.

(** The fields of [rtapi_threadstatus_t] that the hooks modelled here
    write. *)
Record threadstatus : Type := {
  utime_sec : Z; utime_usec : Z;
  stime_sec : Z; stime_usec : Z;
  st_minflt : Z; st_majflt : Z;
  st_nsignals : Z; st_nivcsw : Z;
  wait_errors : Z;
  num_updates : Z
}.

(** [++] on the counters of the status block, taken as [int]s. *)
Definition incr (x : Z) : Z := to_int (x + 1).

Record rtapi_state : Type := {
  module_array : list module_data;      (* RTAPI_MAX_MODULES + 1 entries *)
  task_array : list task_data;          (* RTAPI_MAX_TASKS + 1 entries *)
  extra_task_data : list extra_task_data_t;
  thread_status : list threadstatus;    (* global_data->thread_status *)
  ul_module_count : Z;                  (* rtapi_data->ul_module_count *)
  task_key : gmap Z Z;
  rt_exception_handler : Z;             (* a function pointer, or NULL *)
  heap : gset Z;
  log : list event
}.

Definition set_module_array (v : list module_data) (s : rtapi_state) : rtapi_state :=
  {| module_array := v; task_array := task_array s; extra_task_data := extra_task_data s;
     thread_status := thread_status s; ul_module_count := ul_module_count s;
     task_key := task_key s; rt_exception_handler := rt_exception_handler s;
     heap := heap s; log := log s |}.
Definition set_extra_task_data (v : list extra_task_data_t) (s : rtapi_state)
  : rtapi_state :=
  {| module_array := module_array s; task_array := task_array s; extra_task_data := v;
     thread_status := thread_status s; ul_module_count := ul_module_count s;
     task_key := task_key s; rt_exception_handler := rt_exception_handler s;
     heap := heap s; log := log s |}.
Definition set_thread_status (v : list threadstatus) (s : rtapi_state) : rtapi_state :=
  {| module_array := module_array s; task_array := task_array s;
     extra_task_data := extra_task_data s; thread_status := v;
     ul_module_count := ul_module_count s; task_key := task_key s;
     rt_exception_handler := rt_exception_handler s; heap := heap s; log := log s |}.
Definition set_ul_module_count (v : Z) (s : rtapi_state) : rtapi_state :=
  {| module_array := module_array s; task_array := task_array s;
     extra_task_data := extra_task_data s; thread_status := thread_status s;
     ul_module_count := v; task_key := task_key s;
     rt_exception_handler := rt_exception_handler s; heap := heap s; log := log s |}.
Definition set_heap (v : gset Z) (s : rtapi_state) : rtapi_state :=
  {| module_array := module_array s; task_array := task_array s;
     extra_task_data := extra_task_data s; thread_status := thread_status s;
     ul_module_count := ul_module_count s; task_key := task_key s;
     rt_exception_handler := rt_exception_handler s; heap := v; log := log s |}.
Definition set_log (v : list event) (s : rtapi_state) : rtapi_state :=
  {| module_array := module_array s; task_array := task_array s;
     extra_task_data := extra_task_data s; thread_status := thread_status s;
     ul_module_count := ul_module_count s; task_key := task_key s;
     rt_exception_handler := rt_exception_handler s; heap := heap s; log := v |}.

Abbreviation R := (M rtapi_state).

(** ** Memory and table access *)

Definition load {A} (arr : rtapi_state -> list A) (n : Z) : R A := fun s =>
  if n <? 0 then Faults OutOfBounds else
  match arr s !! Z.to_nat n with
  | Some a => Returns a s
  | None => Faults OutOfBounds
  end.

Definition store {A} (arr : rtapi_state -> list A)
    (set : list A -> rtapi_state -> rtapi_state) (n : Z) (f : A -> A) : R unit := fun s =>
  if n <? 0 then Faults OutOfBounds else
  match arr s !! Z.to_nat n with
  | Some a => Returns tt (set (<[Z.to_nat n := f a]> (arr s)) s)
  | None => Faults OutOfBounds
  end.

Definition load_extra := load extra_task_data.
Definition store_extra := store extra_task_data set_extra_task_data.
Definition load_status := load thread_status.
Definition store_status := store thread_status set_thread_status.
Definition store_module := store module_array set_module_array.

Definition emit (e : event) : R unit := fun s => Returns tt (set_log (e :: log s) s).

Definition rtapi_print_msg (level : msg_level) (text : string) : R unit :=
  emit (Msg level text).

Definition malloc (answer : Z) (size : Z) : R Z := fun s =>
  if answer =? NULL then Returns NULL s
  else Returns answer (set_heap ({[answer]} ∪ heap s) s).

Definition free (p : Z) : R unit := fun s =>
  if p =? NULL then Returns tt s
  else if decide (p ∈ heap s) then Returns tt (set_heap (heap s ∖ {[p]}) s)
  else Faults InvalidFree.

Definition scan_result (r : option Z) : R Z :=
  match r with Some n => mret n | None => raise OutOfBounds end.

(** ** Module registry *)

Definition module_in_use (m : module_data) : bool :=
  match module_state m with NO_MODULE => false | _ => true end.

(** rtapi_snprintf(buf, RTAPI_NAME_LEN, ...): at most RTAPI_NAME_LEN - 1
    characters are kept. *)
Definition truncate_name (h : host) (name : string) : string :=
  substring 0 (RTAPI_NAME_LEN h - 1) name.

Fixpoint zeros (n : nat) : string :=
  match n with O => EmptyString | S n' => String "0"%char (zeros n') end.

(** The conversion percent-03d. *)
Definition format_03d (z : Z) : string :=
  if z <? 0 then
    let d := pretty (- z) in String "-"%char (zeros (2 - String.length d) +:+ d)
  else
    let d := pretty z in zeros (3 - String.length d) +:+ d.

Definition _rtapi_init (h : host) (modname : option string) : R Z :=
  rtapi_print_msg RTAPI_MSG_DBG "RTAPI: initing module";;
  s ← get_state;
  n ← scan_result
        (scan module_in_use (module_array s) (S (Z.to_nat (RTAPI_MAX_MODULES h)))
           1 (RTAPI_MAX_MODULES h + 1));
  if n >? RTAPI_MAX_MODULES h then
    rtapi_print_msg RTAPI_MSG_ERR "RTAPI: ERROR: reached module limit";;
    mret (- EMFILE)
  else
    let module_id := n + MODULE_OFFSET in
    let name :=
      match modname with
      | Some modname => truncate_name h modname
      | None => truncate_name h ("ULMOD" +:+ format_03d module_id)
      end in
    store_module n (fun _ => {| module_state := REALTIME; module_name := name |});;
    s ← get_state;
    put_state (set_ul_module_count (incr (ul_module_count s)) s);;
    rtapi_print_msg RTAPI_MSG_DBG "RTAPI: module loaded";;
    mret module_id.

Definition _rtapi_exit (h : host) (module_id : Z) : R Z :=
  let module_id := module_id - MODULE_OFFSET in
  if (module_id <? 0) || (module_id >=? RTAPI_MAX_MODULES h) then mret (-1)
  else
    store_module module_id
      (fun m => {| module_state := NO_MODULE; module_name := module_name m |});;
    rtapi_print_msg RTAPI_MSG_DBG "rtapi_exit: freed module slot";;
    mret 0.

(** ** Statistics *)

Definition _rtapi_task_self_hook (h : host) (self : Z) : R Z :=
  s ← get_state;
  n ← scan_result
        (scan (fun x => negb (thread x =? self)) (extra_task_data s)
           (S (Z.to_nat (RTAPI_MAX_TASKS h))) 1 (RTAPI_MAX_TASKS h + 1));
  if n <=? RTAPI_MAX_TASKS h then mret n else mret (- EINVAL).

(** [ru]: what getrusage(RUSAGE_THREAD) fills in, or errno when it
    fails. *)
Definition _rtapi_task_update_stats_hook (h : host) (self : Z) (ru : rusage + Z) : R Z :=
  task_id ← _rtapi_task_self_hook h self;
  if (task_id <? 0) || (task_id >? RTAPI_MAX_TASKS h) then
    rtapi_print_msg RTAPI_MSG_ERR "_rtapi_task_update_stats_hook: BUG";;
    mret (- ENOENT)
  else
    match ru with
    | inr errno =>
        rtapi_print_msg RTAPI_MSG_ERR "getrusage()";;
        mret errno
    | inl ru =>
        store_status task_id (fun ts =>
          {| utime_sec := fst (ru_utime ru); utime_usec := snd (ru_utime ru);
             stime_sec := fst (ru_stime ru); stime_usec := snd (ru_stime ru);
             st_minflt := ru_minflt ru; st_majflt := ru_majflt ru;
             st_nsignals := ru_nsignals ru; st_nivcsw := ru_nivcsw ru;
             wait_errors := wait_errors ts;
             num_updates := incr (num_updates ts) |});;
        mret task_id
    end.

(** ** Helpers *)

Definition _rtapi_advance_time (tv : timespec) (ns s : Z) : R timespec :=
  match advance_time tv ns s with
  | Some tv' => mret tv'
  | None => raise LoopOutOfFuel
  end.

Definition rtapi_this_task (self : Z) : R (option Z) := fun s =>
  Returns (task_key s !! self) s.

(** ** Task hooks *)

Definition _rtapi_task_new_hook (malloc_answer : Z) (task_id : Z) : R Z :=
  task ← load task_array task_id;
  stackaddr ← malloc malloc_answer (task_stacksize task);
  if stackaddr =? NULL then
    rtapi_print_msg RTAPI_MSG_ERR "Failed to allocate realtime thread stack";;
    mret (- ENOMEM)
  else
    store_extra task_id (set_stackaddr stackaddr);;
    store_extra task_id (set_destroyed 0);;
    mret task_id.

Definition _rtapi_task_delete_hook (join_err : Z) (task_id : Z) : R unit :=
  x ← load_extra task_id;
  (if deleted x =? 0 then
     store_extra task_id (set_deleted 1);;
     emit (Join (thread x));;
     if negb (join_err =? 0)
     then rtapi_print_msg RTAPI_MSG_ERR "pthread_join() on realtime thread failed"
     else mret tt
   else mret tt);;
  free (stackaddr x);;
  store_extra task_id (set_stackaddr NULL).

Definition _rtapi_task_stop_hook (task_id : Z) : R unit :=
  store_extra task_id (set_destroyed 1).

(** ** Periodic wait

    [task_id(task)] on a null [task] is arithmetic on the null pointer, and
    [task->period] reads through it. *)
Definition _rtapi_wait_hook (h : host) (self : Z) (now : timespec) (ru : rusage + Z)
  : R Z :=
  this ← rtapi_this_task self;
  match this with
  | None => raise NullPointerDereference
  | Some n =>
      x ← load_extra n;
      if negb (deleted x =? 0) then pthread_exit
      else
        emit (Sleep false (next_time x));;
        task ← load task_array n;
        next ← _rtapi_advance_time (next_time x) (to_ulong (task_period task)) 0;
        store_extra n (set_next_time next);;
        let ts := now in
        (if timespec_after ts next then
           _rtapi_task_update_stats_hook h self ru;;
           store_status n (fun ts =>
             {| utime_sec := utime_sec ts; utime_usec := utime_usec ts;
                stime_sec := stime_sec ts; stime_usec := stime_usec ts;
                st_minflt := st_minflt ts; st_majflt := st_majflt ts;
                st_nsignals := st_nsignals ts; st_nivcsw := st_nivcsw ts;
                wait_errors := incr (wait_errors ts);
                num_updates := num_updates ts |});;
           if RTAPI_POSIX h then mret tt
           else
             s ← get_state;
             if negb (rt_exception_handler s =? NULL)
             then emit (ExceptionHandler n)
             else mret tt
         else mret tt);;
        mret 0
  end.

(** Static storage starts out zeroed (NO_MODULE is 0). *)
Definition zero_extra : extra_task_data_t :=
  {| deleted := 0; destroyed := 0; next_time := {| tv_sec := 0; tv_nsec := 0 |};
     thread := 0; stackaddr := NULL; tid := 0; minfault_base := 0; majfault_base := 0;
     failures := 0 |}.

Definition zero_task : task_data :=
  {| task_name := EmptyString; task_stacksize := 0; task_period := 0; task_ratio := 0;
     task_prio := 0; task_cpu := 0; task_taskcode := NULL; task_arg := NULL |}.

Definition zero_status : threadstatus :=
  {| utime_sec := 0; utime_usec := 0; stime_sec := 0; stime_usec := 0; st_minflt := 0;
     st_majflt := 0; st_nsignals := 0; st_nivcsw := 0; wait_errors := 0;
     num_updates := 0 |}.

Definition initial_state (h : host) : rtapi_state :=
  {| module_array :=
       replicate (S (Z.to_nat (RTAPI_MAX_MODULES h)))
         {| module_state := NO_MODULE; module_name := EmptyString |};
     task_array := replicate (S (Z.to_nat (RTAPI_MAX_TASKS h))) zero_task;
     extra_task_data := replicate (S (Z.to_nat (RTAPI_MAX_TASKS h))) zero_extra;
     thread_status := replicate (S (Z.to_nat (RTAPI_MAX_TASKS h))) zero_status;
     ul_module_count := 0; task_key := ∅; rt_exception_handler := NULL;
     heap := ∅; log := [] |}.

(** The tables have their declared sizes. *)
Definition wf_state (h : host) (s : rtapi_state) : Prop :=
  0 <= RTAPI_MAX_MODULES h /\ 0 <= RTAPI_MAX_TASKS h /\
  length (module_array s) = S (Z.to_nat (RTAPI_MAX_MODULES h)) /\
  length (task_array s) = S (Z.to_nat (RTAPI_MAX_TASKS h)) /\
  length (extra_task_data s) = S (Z.to_nat (RTAPI_MAX_TASKS h)) /\
  length (thread_status s) = S (Z.to_nat (RTAPI_MAX_TASKS h)).

End RtPreempt.

(** A host to run examples on: Linux SCHED_FIFO priorities 1..99, glibc's
    CPU_SETSIZE, 32-byte names, 64 modules and tasks, realtime flavor. *)
Definition example_host : host :=
  {| sched_priority_max := 99; sched_priority_min := 1; CPU_SETSIZE := 1024;
     RTAPI_NAME_LEN := 32; RTAPI_MAX_MODULES := 64; RTAPI_MAX_TASKS := 64;
     RTAPI_POSIX := false |}.

(** ** States to run examples on *)

(** linux_rtapi.c: task 0 is live, bound to thread 7, with a period of
    1 ms and its next wake-up at 10 s. *)
Definition linux_waiting : LinuxRtapi.rtapi_state :=
  let t :=
    LinuxRtapi.set_next_time {| tv_sec := 10; tv_nsec := 0 |}
      (LinuxRtapi.set_period 1000000
         (LinuxRtapi.set_magic TASK_MAGIC LinuxRtapi.zero_task)) in
  LinuxRtapi.set_task_key {[ 7 := 0 ]}
    (LinuxRtapi.set_task_array
       (<[0%nat := t]> (LinuxRtapi.task_array LinuxRtapi.initial_state))
       LinuxRtapi.initial_state).

(** rt-preempt.c: the same for task 1. *)
Definition preempt_waiting : RtPreempt.rtapi_state :=
  let p := RtPreempt.initial_state example_host in
  {| RtPreempt.module_array := RtPreempt.module_array p;
     RtPreempt.task_array :=
       <[1%nat := {| RtPreempt.task_name := "servo"; RtPreempt.task_stacksize := 16384;
                     RtPreempt.task_period := 1000000; RtPreempt.task_ratio := 1;
                     RtPreempt.task_prio := 50; RtPreempt.task_cpu := -1;
                     RtPreempt.task_taskcode := 0; RtPreempt.task_arg := 0 |}]>
         (RtPreempt.task_array p);
     RtPreempt.extra_task_data :=
       <[1%nat := RtPreempt.set_next_time {| tv_sec := 10; tv_nsec := 0 |}
                    RtPreempt.zero_extra]>
         (RtPreempt.extra_task_data p);
     RtPreempt.thread_status := RtPreempt.thread_status p;
     RtPreempt.ul_module_count := 0;
     RtPreempt.task_key := {[ 7 := 1 ]};
     RtPreempt.rt_exception_handler := NULL;
     RtPreempt.heap := ∅; RtPreempt.log := [] |}.

(** linux_rtapi.c: every module slot is taken. *)
Definition linux_modules_full : LinuxRtapi.rtapi_state :=
  LinuxRtapi.set_module_array
    (replicate (Z.to_nat MAX_MODULES) {| LinuxRtapi.module_magic := MODULE_MAGIC |})
    LinuxRtapi.initial_state.

(** rt-preempt.c: every module slot from 1 on is taken. *)
Definition preempt_modules_full : RtPreempt.rtapi_state :=
  RtPreempt.set_module_array
    (replicate (S (Z.to_nat (RTAPI_MAX_MODULES example_host)))
       {| RtPreempt.module_state := RtPreempt.REALTIME;
          RtPreempt.module_name := "m" |})
    (RtPreempt.initial_state example_host).

(** What the host answers when a start goes well: the thread is created
    as thread 1001, CPUs 0..3 are allowed, and both the affinity and the
    scheduler call succeed. *)
Definition example_start_env : start_env :=
  {| create_retval := 0; created_thread := 1001; worker_minflt := 10; worker_majflt := 0;
     affinity := fun cpu => cpu <? 4; setaffinity_err := 0; setscheduler_err := 0 |}.

(** linux_rtapi.c: the clock period is set to 1 ms on a clock of 1 ns
    resolution, one task is created and started with a requested period
    of 0.5 ms. *)
Definition linux_start_steps : list LinuxRtapi.step :=
  [ LinuxRtapi.CallClockSetPeriod {| tv_sec := 0; tv_nsec := 1 |} 1000000;
    LinuxRtapi.CallTaskNew 4096 7 0 50 32768 16384 0 "servo" (-1);
    LinuxRtapi.CallTaskStart example_start_env 0 500000 ].

Definition linux_started : option LinuxRtapi.rtapi_state :=
  LinuxRtapi.run_steps example_host linux_start_steps LinuxRtapi.initial_state.

(** * More of linux_rtapi.c *)

(** [k] wait cycles in a row, as they act on next_time: each is one call
    of rtapi_advance_time with the task period. *)
Fixpoint advance_cycles (k : nat) (tv : timespec) (period : Z) : option timespec :=
  match k with
  | O => Some tv
  | S k' =>
      match advance_time tv period 0 with
      | Some tv' => advance_cycles k' tv' period
      | None => None
      end
  end.

(** ** The SIGXCPU handler

    deadline_exception and its static [error_printed] stand apart from the
    rest of the file: realtime_set_priority installs the handler only
    where ENABLE_SCHED_DEADLINE is set. Its state is the counter and the
    messages printed. *)
Definition SIGXCPU : Z := 24.

Record handler_state : Type := {
  error_printed : Z;
  handler_log : list event
}.

(** [error_printed++] on an [int]: undefined at INT_MAX. *)
Definition deadline_exception (signr : Z) (st : handler_state) : option handler_state :=
  if negb (signr =? SIGXCPU) then
    Some {| error_printed := error_printed st;
            handler_log := Msg RTAPI_MSG_ERR "Received unknown signal" :: handler_log st |}
  else if error_printed st =? INT_MAX then None
  else
    Some {| error_printed := error_printed st + 1;
            handler_log :=
              if error_printed st =? 0
              then Msg RTAPI_MSG_ERR
                     "Missed scheduling deadline or overran scheduling runtime!"
                   :: handler_log st
              else handler_log st |}.

(** The handler run on a sequence of signals. *)
Fixpoint deliver (signals : list Z) (st : handler_state) : option handler_state :=
  match signals with
  | [] => Some st
  | signr :: rest =>
      match deadline_exception signr st with
      | Some st' => deliver rest st'
      | None => None
      end
  end.

(** The overrun messages among the events of a log. *)
Definition overrun_reports (l : list event) : list event :=
  List.filter
    (fun ev =>
       match ev with
       | Msg RTAPI_MSG_ERR text =>
           String.eqb text "Missed scheduling deadline or overran scheduling runtime!"
       | _ => false
       end) l.

(** The SIGXCPU signals among those delivered. *)
Definition overruns (signals : list Z) : Z :=
  Z.of_nat (length (List.filter (Z.eqb SIGXCPU) signals)).

(** ** rtapi_get_time

    [ts.tv_sec * 1000 * 1000 * 1000 + ts.tv_nsec], computed in [long] from
    left to right; [now] is what clock_gettime reads. A result outside
    [long] is a signed overflow. *)
Definition long_value (z : Z) : option Z :=
  if (-9223372036854775808 <=? z) && (z <=? 9223372036854775807) then Some z else None.

Definition rtapi_get_time (now : timespec) : option Z :=
  a ← long_value (tv_sec now * 1000);
  b ← long_value (a * 1000);
  c ← long_value (b * 1000);
  long_value (c + tv_nsec now).

(** * More of rt-preempt.c *)

(** The calls of rt_exception_handler among the events of a log. *)
Definition handler_calls (l : list event) : list event :=
  List.filter (fun ev => match ev with ExceptionHandler _ => true | _ => false end) l.

(** ** More states to run examples on *)

(** linux_rtapi.c: every task slot is taken. *)
Definition linux_tasks_full : LinuxRtapi.rtapi_state :=
  LinuxRtapi.set_task_array
    (replicate (Z.to_nat MAX_TASKS)
       (LinuxRtapi.set_magic TASK_MAGIC LinuxRtapi.zero_task))
    LinuxRtapi.initial_state.

(** linux_rtapi.c: task 0 is live as in [linux_waiting], and the clock
    period is 1 ms. *)
Definition linux_clocked : LinuxRtapi.rtapi_state :=
  LinuxRtapi.set_clock_period 1000000 linux_waiting.

(** rt-preempt.c: every module slot but the last is taken. *)
Definition preempt_last_module_free : RtPreempt.rtapi_state :=
  RtPreempt.set_module_array
    (<[Z.to_nat (RTAPI_MAX_MODULES example_host) :=
         {| RtPreempt.module_state := RtPreempt.NO_MODULE;
            RtPreempt.module_name := EmptyString |}]>
       (RtPreempt.module_array preempt_modules_full))
    preempt_modules_full.

(** linux_rtapi.c: task 0 is live as in [linux_waiting], with the
    page-fault baselines of an earlier reset: 100 minor and 2 major
    faults. *)
Definition linux_accounted : LinuxRtapi.rtapi_state :=
  let t :=
    LinuxRtapi.set_majfault_base 2
      (LinuxRtapi.set_minfault_base 100
         (LinuxRtapi.set_next_time {| tv_sec := 10; tv_nsec := 0 |}
            (LinuxRtapi.set_period 1000000
               (LinuxRtapi.set_magic TASK_MAGIC LinuxRtapi.zero_task)))) in
  LinuxRtapi.set_task_array
    (<[0%nat := t]> (LinuxRtapi.task_array linux_waiting))
    linux_waiting.

(** rt-preempt.c: module 1 is loaded and has two started tasks, task 1
    on thread 7 and task 2 on thread 9, each with its stack, a period of
    1 ms and its next wake-up at 10 s; an exception handler is
    installed. *)
Definition preempt_running_task (name : string) : RtPreempt.task_data :=
  {| RtPreempt.task_name := name; RtPreempt.task_stacksize := 16384;
     RtPreempt.task_period := 1000000; RtPreempt.task_ratio := 1;
     RtPreempt.task_prio := 50; RtPreempt.task_cpu := -1;
     RtPreempt.task_taskcode := 0; RtPreempt.task_arg := 0 |}.

Definition preempt_running_extra (thread stack tid : Z) : RtPreempt.extra_task_data_t :=
  {| RtPreempt.deleted := 0; RtPreempt.destroyed := 0;
     RtPreempt.next_time := {| tv_sec := 10; tv_nsec := 0 |};
     RtPreempt.thread := thread; RtPreempt.stackaddr := stack; RtPreempt.tid := tid;
     RtPreempt.minfault_base := 0; RtPreempt.majfault_base := 0;
     RtPreempt.failures := 0 |}.

Definition preempt_running : RtPreempt.rtapi_state :=
  let p := RtPreempt.initial_state example_host in
  {| RtPreempt.module_array :=
       <[1%nat := {| RtPreempt.module_state := RtPreempt.REALTIME;
                     RtPreempt.module_name := "motmod" |}]>
         (RtPreempt.module_array p);
     RtPreempt.task_array :=
       <[2%nat := preempt_running_task "spindle"]>
         (<[1%nat := preempt_running_task "servo"]> (RtPreempt.task_array p));
     RtPreempt.extra_task_data :=
       <[2%nat := preempt_running_extra 9 24576 1209]>
         (<[1%nat := preempt_running_extra 7 4096 1207]> (RtPreempt.extra_task_data p));
     RtPreempt.thread_status := RtPreempt.thread_status p;
     RtPreempt.ul_module_count := 1;
     RtPreempt.task_key := {[ 7 := 1; 9 := 2 ]};
     RtPreempt.rt_exception_handler := 4660;
     RtPreempt.heap := {[ 4096; 24576 ]}; RtPreempt.log := [] |}.

(** A getrusage sample. *)
Definition example_rusage : RtPreempt.rusage :=
  {| RtPreempt.ru_utime := (3, 250000); RtPreempt.ru_stime := (1, 500);
     RtPreempt.ru_minflt := 42; RtPreempt.ru_majflt := 1;
     RtPreempt.ru_nsignals := 0; RtPreempt.ru_nivcsw := 6 |}.

(** linux_rtapi.c: beside task 0 of [linux_waiting], task 1 is started on
    thread 7 with priority 50 and no CPU chosen, as task 1 of
    [preempt_running] is. *)
Definition linux_running_task : LinuxRtapi.task_data :=
  LinuxRtapi.set_thread 7
    (LinuxRtapi.set_cpu (-1)
       (LinuxRtapi.set_prio 50
          (LinuxRtapi.set_next_time {| tv_sec := 10; tv_nsec := 0 |}
             (LinuxRtapi.set_period 1000000
                (LinuxRtapi.set_magic TASK_MAGIC LinuxRtapi.zero_task))))).

Definition linux_running : LinuxRtapi.rtapi_state :=
  LinuxRtapi.set_task_array
    (<[1%nat := linux_running_task]> (LinuxRtapi.task_array linux_waiting))
    linux_waiting.

(** ** What a call does to one task *)

(** [s] is [s0] with slot [n] of the task table holding [t] and with the
    thread bindings [k]; the log may have grown; nothing else differs. *)
Definition slot_update (s0 : LinuxRtapi.rtapi_state) (n : Z) (t : LinuxRtapi.task_data)
    (k : gmap Z Z) (s : LinuxRtapi.rtapi_state) : Prop :=
  LinuxRtapi.task_array s = <[Z.to_nat n := t]> (LinuxRtapi.task_array s0) /\
  LinuxRtapi.task_key s = k /\
  LinuxRtapi.module_array s = LinuxRtapi.module_array s0 /\
  LinuxRtapi.period s = LinuxRtapi.period s0 /\
  LinuxRtapi.heap s = LinuxRtapi.heap s0 /\
  exists l, LinuxRtapi.log s = l ++ LinuxRtapi.log s0.

(** The CPU realtime_set_affinity settles on before it asks for it: the
    CPU of the task if one is set and the thread may run there, the last
    CPU the thread may run on if none is set. *)
Definition chosen_cpu (h : host) (e : start_env) (t : LinuxRtapi.task_data) : option Z :=
  if LinuxRtapi.task_cpu t >? -1 then
    if LinuxRtapi.CPU_ISSET h (LinuxRtapi.task_cpu t) (affinity e)
    then Some (LinuxRtapi.task_cpu t) else None
  else
    let use_cpu := LinuxRtapi.last_cpu (affinity e) (CPU_SETSIZE h) in
    if use_cpu <? 0 then None else Some use_cpu.

(** The two assignments of rtapi_reset_pagefault_count, made when a
    baseline differs from the sample; the samples are converted to the
    unsigned long of the baselines. *)
Definition reset_baselines (minflt majflt : Z) (t : LinuxRtapi.task_data)
  : LinuxRtapi.task_data :=
  if negb (LinuxRtapi.task_minfault_base t =? to_ulong minflt)
     || negb (LinuxRtapi.task_majfault_base t =? to_ulong majflt)
  then LinuxRtapi.set_majfault_base (to_ulong majflt)
         (LinuxRtapi.set_minfault_base (to_ulong minflt) t)
  else t.

(** [if (task->period < period) task->period = period;] and
    [task->ratio = task->period / period;] of realtime_thread, for a
    clock period above 0. *)
Definition clamp_to_clock (clock : Z) (t : LinuxRtapi.task_data) : LinuxRtapi.task_data :=
  let t := if LinuxRtapi.task_period t <? clock then LinuxRtapi.set_period clock t else t in
  LinuxRtapi.set_ratio (Z.quot (LinuxRtapi.task_period t) clock) t.

(** Whether the init phase of realtime_thread gets to the barrier without
    taking its error exit: a CPU was chosen, and pthread_setaffinity_np and
    sched_setscheduler both succeeded. *)
Definition thread_comes_up (h : host) (e : start_env) (t : LinuxRtapi.task_data) : bool :=
  match chosen_cpu h e t with
  | Some _ => (setaffinity_err e =? 0) && (setscheduler_err e =? 0)
  | None => false
  end.

(** ** What holds in every state a program reaches *)

(** Every thread with a bound task is bound to a slot of the table. *)
Definition bindings_in_range (s : LinuxRtapi.rtapi_state) : Prop :=
  forall self n, LinuxRtapi.task_key s !! self = Some n -> 0 <= n < MAX_TASKS.

(** clock_getres reports a resolution between 1 ns and INT_MAX ns whenever
    the step is a call of rtapi_clock_set_period. *)
Definition clock_sane (c : LinuxRtapi.step) : Prop :=
  match c with
  | LinuxRtapi.CallClockSetPeriod res _ => 0 < tv_nsec res <= INT_MAX
  | _ => True
  end.

(** The tables have their sizes, the clock period is unset (0) or a
    positive int, and the bindings are in range. *)
Definition reachable_inv (s : LinuxRtapi.rtapi_state) : Prop :=
  LinuxRtapi.wf_state s /\ 0 <= LinuxRtapi.period s <= INT_MAX /\ bindings_in_range s.

(** ** Thread stacks *)

(** The stack addresses recorded in the task table, slot by slot. *)
Definition stack_addrs (s : LinuxRtapi.rtapi_state) : list Z :=
  LinuxRtapi.task_stackaddr <$> LinuxRtapi.task_array s.

(** Every recorded stack address is NULL or a live block, and no live
    block is recorded in two slots. *)
Definition stacks_owned (s : LinuxRtapi.rtapi_state) : Prop :=
  (forall i a, stack_addrs s !! i = Some a -> a = NULL \/ a ∈ LinuxRtapi.heap s) /\
  (forall i j a, i <> j -> stack_addrs s !! i = Some a -> stack_addrs s !! j = Some a ->
                 a = NULL).

(** What malloc answers to a call of rtapi_task_new in state [s]: NULL or
    a block that is not live. *)
Definition fresh_alloc (c : LinuxRtapi.step) (s : LinuxRtapi.rtapi_state) : Prop :=
  match c with
  | LinuxRtapi.CallTaskNew ma _ _ _ _ _ _ _ _ => ma = NULL \/ ma ∉ LinuxRtapi.heap s
  | _ => True
  end.

(** The same at every step of a run. *)
Fixpoint fresh_allocs (h : host) (cs : list LinuxRtapi.step) (s : LinuxRtapi.rtapi_state)
  : Prop :=
  match cs with
  | [] => True
  | c :: cs' =>
      fresh_alloc c s /\
      match LinuxRtapi.run h c s with
      | Returns _ s' => fresh_allocs h cs' s'
      | ThreadExits s' => fresh_allocs h cs' s'
      | Faults _ => True
      end
  end.

(** * rt-preempt.c: thread setup

    The two helpers realtime_thread calls before the init barrier. They
    read the task and the runtime data of slot [n]; the affinity set, and
    what pthread_setaffinity_np and sched_setscheduler return, come from
    the host. *)

Module RtPreemptThread.

Definition realtime_set_affinity (h : host) (e : start_env) (n : Z) : RtPreempt.R Z :=
  x ← RtPreempt.load_extra n;
  task ← RtPreempt.load RtPreempt.task_array n;
  let set := affinity e in
  use_cpu ←
    (if RtPreempt.task_cpu task >? -1 then
       if negb (LinuxRtapi.CPU_ISSET h (RtPreempt.task_cpu task) set) then
         RtPreempt.rtapi_print_msg RTAPI_MSG_ERR
           "realtime_set_affinity: CPU not available";;
         mret None
       else mret (Some (RtPreempt.task_cpu task))
     else
       let use_cpu := LinuxRtapi.last_cpu set (CPU_SETSIZE h) in
       if use_cpu <? 0 then
         RtPreempt.rtapi_print_msg RTAPI_MSG_ERR "Unable to get ID of the last CPU";;
         mret None
       else
         RtPreempt.rtapi_print_msg RTAPI_MSG_DBG "using default CPU";;
         mret (Some use_cpu));
  match use_cpu with
  | None => mret (- EINVAL)
  | Some use_cpu =>
      RtPreempt.emit (SetAffinity (RtPreempt.thread x) use_cpu);;
      if negb (setaffinity_err e =? 0) then
        RtPreempt.rtapi_print_msg RTAPI_MSG_ERR "Failed to set CPU affinity";;
        mret (- EINVAL)
      else
        RtPreempt.rtapi_print_msg RTAPI_MSG_DBG
          "realtime_set_affinity(): task assigned to CPU";;
        mret 0
  end.

(** Compiled in unless RTAPI_POSIX is defined. *)
Definition realtime_set_priority (e : start_env) (n : Z) : RtPreempt.R Z :=
  task ← RtPreempt.load RtPreempt.task_array n;
  RtPreempt.emit (SetScheduler (RtPreempt.task_prio task));;
  if negb (setscheduler_err e =? 0) then
    RtPreempt.rtapi_print_msg RTAPI_MSG_ERR "Unable to set FIFO scheduling policy";;
    mret 1
  else mret 0.

End RtPreemptThread.

(** * Properties *)

(** ** C integer conversions *)

Lemma to_ulong_range z : 0 <= to_ulong z < 18446744073709551616.
Proof. unfold to_ulong. apply Z.mod_pos_bound. lia. Qed.

Lemma to_ulong_small z : 0 <= z < 18446744073709551616 -> to_ulong z = z.
Proof. intros H. unfold to_ulong. apply Z.mod_small. lia. Qed.

Lemma to_long_small z :
  -9223372036854775808 <= z < 9223372036854775808 -> to_long z = z.
Proof. intros H. unfold to_long. rewrite Z.mod_small by lia. lia. Qed.

Lemma to_int_small z : INT_MIN <= z <= INT_MAX -> to_int z = z.
Proof. unfold INT_MIN, INT_MAX, to_int. intros H. rewrite Z.mod_small by lia. lia. Qed.

Lemma to_int_range z : INT_MIN <= to_int z <= INT_MAX.
Proof.
  unfold INT_MIN, INT_MAX, to_int.
  pose proof (Z.mod_pos_bound (z + 2147483648) 4294967296). lia.
Qed.

Lemma to_ulong_succ_idemp z k : to_ulong (to_ulong (z + k) + 1) = to_ulong (z + (k + 1)).
Proof.
  unfold to_ulong. rewrite Zplus_mod_idemp_l. f_equal. lia.
Qed.

(** ** The carry loop of rtapi_advance_time *)

(** The loop stops after [k] rounds, the least [k] that brings [ns] down
    to at most 1000000000; the fuel handed to it by [advance_time] is
    enough. *)
Lemma div_le_bound ns q : ns / 1000000000 <= q -> ns < (q + 1) * 1000000000.
Proof.
  intros H. pose proof (Z.mul_succ_div_gt ns 1000000000). nia.
Qed.

Lemma advance_loop_spec fuel : forall ns s k0,
  0 <= ns -> ns / 1000000000 <= Z.of_nat fuel -> 0 <= k0 ->
  exists k, 0 <= k /\
    advance_loop fuel ns (to_ulong (s + k0))
      = Some (ns - k * 1000000000, to_ulong (s + (k0 + k))) /\
    0 <= ns - k * 1000000000 <= 1000000000 /\
    (0 < ns -> 0 < ns - k * 1000000000).
Proof.
  induction fuel as [|fuel IH]; intros ns s k0 Hns Hfuel Hk0.
  - exists 0. cbn [advance_loop].
    apply div_le_bound in Hfuel.
    destruct (Z.gtb_spec ns 1000000000) as [E|E]; [lia|].
    rewrite Z.add_0_r. split; [lia|]. split; [do 2 f_equal; lia|]. split; lia.
  - cbn [advance_loop]. destruct (Z.gtb_spec ns 1000000000) as [E|E].
    + destruct (IH (ns - 1000000000) s (k0 + 1)) as (k & Hk & Heq & Hr & Hpos); try lia.
      { replace (ns - 1000000000) with (ns + (-1) * 1000000000) by lia.
        rewrite Z.div_add by lia. lia. }
      exists (k + 1). split; [lia|].
      rewrite to_ulong_succ_idemp. rewrite Heq.
      split; [f_equal; f_equal; [lia | f_equal; lia]|].
      split; lia.
    + exists 0. rewrite Z.add_0_r. split; [lia|]. split; [do 2 f_equal; lia|]. split; lia.
Qed.

Lemma advance_loop_terminates fuel : forall ns s,
  ns / 1000000000 <= Z.of_nat fuel -> exists r, advance_loop fuel ns s = Some r.
Proof.
  induction fuel as [|fuel IH]; intros ns s Hfuel; cbn [advance_loop].
  - apply div_le_bound in Hfuel. destruct (Z.gtb_spec ns 1000000000) as [E|E]; [lia | eauto].
  - destruct (Z.gtb_spec ns 1000000000) as [E|E]; [|eauto].
    apply IH.
    replace (ns - 1000000000) with (ns + (-1) * 1000000000) by lia.
    rewrite Z.div_add by lia. lia.
Qed.

Lemma advance_loop_enough_fuel ns s :
  0 <= ns -> exists r, advance_loop (advance_fuel ns) ns s = Some r.
Proof.
  intros Hns. apply advance_loop_terminates.
  unfold advance_fuel. rewrite Z2Nat.id; [lia | apply Z.div_pos; lia].
Qed.

(** rtapi_advance_time always returns. *)
Lemma advance_time_total tv ns s : exists tv', advance_time tv ns s = Some tv'.
Proof.
  unfold advance_time.
  destruct (advance_loop_enough_fuel (to_ulong (ns + to_ulong (tv_nsec tv))) s) as [[ns' s'] H].
  { apply to_ulong_range. }
  rewrite H. eauto.
Qed.

(** What a wait cycle does to a timespec in the range the clock gives
    (seconds and nanoseconds non-negative, nanoseconds at most 10^9), for a
    period below 2^62 ns: the value grows by exactly [ns], and the
    nanosecond field ends in the closed interval from 0 to 10^9. *)
Lemma advance_time_value tv ns :
  0 <= tv_sec tv < 4611686018427387904 ->
  0 <= tv_nsec tv <= 1000000000 ->
  0 <= ns < 4611686018427387904 ->
  exists tv', advance_time tv ns 0 = Some tv' /\
    timespec_ns tv' = timespec_ns tv + ns /\
    0 <= tv_nsec tv' <= 1000000000 /\
    (tv_nsec tv' = 1000000000 <->
       0 < tv_nsec tv + ns /\ (tv_nsec tv + ns) mod 1000000000 = 0).
Proof.
  intros Hsec Hnsec Hns. unfold advance_time.
  rewrite (to_ulong_small (tv_nsec tv)) by lia.
  rewrite (to_ulong_small (ns + tv_nsec tv)) by lia.
  destruct (advance_loop_spec (advance_fuel (ns + tv_nsec tv)) (ns + tv_nsec tv) 0 0)
    as (k & Hk & Heq & Hr & Hpos); try lia.
  { unfold advance_fuel. rewrite Z2Nat.id; [lia | apply Z.div_pos; lia]. }
  change (to_ulong (0 + 0)) with 0 in Heq. rewrite Heq.
  assert (Hkb : k * 1000000000 <= ns + tv_nsec tv) by lia.
  assert (Hk2 : k < 4611686018427387904) by nia.
  rewrite (to_ulong_small (0 + (0 + k))) by lia.
  rewrite (to_ulong_small (tv_sec tv)) by lia.
  rewrite (to_long_small (tv_sec tv + (0 + (0 + k)))) by lia.
  rewrite (to_long_small (ns + tv_nsec tv - k * 1000000000)) by lia.
  eexists. split; [reflexivity|]. unfold timespec_ns. cbn [tv_sec tv_nsec].
  split; [lia|]. split; [lia|].
  split.
  - intros H. split; [lia|].
    replace (tv_nsec tv + ns) with ((k + 1) * 1000000000) by lia.
    apply Z.mod_mul. lia.
  - intros [H0 Hm].
    apply Z.mod_divide in Hm; [|lia]. destruct Hm as [q Hq].
    assert (ns + tv_nsec tv - k * 1000000000 = (q - k) * 1000000000) by lia.
    assert (0 < q - k) by nia. assert (q - k <= 1) by nia. lia.
Qed.

(** ** The slot scan *)

(** On a table that reaches up to the bound, the scan stops at the first
    index from [n] on whose slot is not in use, or at the bound. *)
Lemma scan_spec {A} (in_use : A -> bool) (arr : list A) (bound : Z) :
  (Z.to_nat bound <= length arr)%nat ->
  forall fuel n,
  0 <= n -> (0 < fuel)%nat -> bound - n < Z.of_nat fuel ->
  exists k, scan in_use arr fuel n bound = Some k /\
    n <= k /\ (n <= bound -> k <= bound) /\
    (forall i, n <= i < k -> exists a, arr !! Z.to_nat i = Some a /\ in_use a = true) /\
    (k < bound -> exists a, arr !! Z.to_nat k = Some a /\ in_use a = false).
Proof.
  intros Hlen. induction fuel as [|fuel IH]; intros n Hn Hpos Hfuel; [lia|].
  cbn [scan]. destruct (Z.ltb_spec n bound) as [Hlt|Hge].
  - destruct (lookup_lt_is_Some_2 arr (Z.to_nat n)) as [a Ha]; [lia|].
    rewrite Ha. destruct (in_use a) eqn:Hused.
    + destruct (IH (n + 1)) as (k & Hk & Hnk & Hkb & Hbelow & Hat); try lia.
      exists k. split; [exact Hk|]. split; [lia|]. split; [lia|]. split; [|exact Hat].
      intros i Hi. destruct (Z.eq_dec i n) as [->|Hne]; [eauto|]. apply Hbelow. lia.
    + exists n. split; [reflexivity|]. split; [lia|]. split; [lia|].
      split; [intros i Hi; lia | eauto].
  - exists n. split; [reflexivity|]. split; [lia|]. split; [lia|].
    split; intros; lia.
Qed.

(** The scan finds the first free slot. *)
Lemma scan_first_free {A} (in_use : A -> bool) (arr : list A) (bound : Z) fuel n j a :
  (Z.to_nat bound <= length arr)%nat ->
  0 <= n -> bound - n < Z.of_nat fuel ->
  n <= j < bound ->
  (forall i b, n <= i < j -> arr !! Z.to_nat i = Some b -> in_use b = true) ->
  arr !! Z.to_nat j = Some a -> in_use a = false ->
  scan in_use arr fuel n bound = Some j.
Proof.
  intros Hlen Hn Hfuel Hj Hbelow Ha Hfree.
  destruct (scan_spec in_use arr bound Hlen fuel n) as (k & Hk & Hnk & Hkb & Hused & Hat);
    try lia.
  rewrite Hk. f_equal.
  destruct (Z.lt_trichotomy k j) as [Hlt|[Heq|Hgt]]; [|exact Heq|].
  - destruct Hat as (b & Hb & Hbfree); [lia|].
    rewrite (Hbelow k b) in Hbfree by (assumption || lia). discriminate.
  - destruct (Hused j) as (b & Hb & Hbused); [lia|]. congruence.
Qed.

(** On a full table the scan runs to the bound. *)
Lemma scan_full {A} (in_use : A -> bool) (arr : list A) (bound : Z) fuel n :
  (Z.to_nat bound <= length arr)%nat ->
  0 <= n <= bound -> bound - n < Z.of_nat fuel ->
  (forall i b, n <= i < bound -> arr !! Z.to_nat i = Some b -> in_use b = true) ->
  scan in_use arr fuel n bound = Some bound.
Proof.
  intros Hlen Hn Hfuel Hall.
  destruct (scan_spec in_use arr bound Hlen fuel n) as (k & Hk & Hnk & Hkb & Hused & Hat);
    try lia.
  rewrite Hk. f_equal.
  destruct (Z.eq_dec k bound) as [Heq|Hne]; [exact Heq|].
  destruct Hat as (b & Hb & Hbfree); [lia|].
  rewrite (Hall k b) in Hbfree by (assumption || lia). discriminate.
Qed.

(** ** Running monadic code *)

Lemma bind_eq {S A B} (m : M S A) (k : A -> M S B) s :
  (m ≫= k) s =
  match m s with
  | Returns a s' => k a s'
  | ThreadExits s' => ThreadExits s'
  | Faults f => Faults f
  end.
Proof. reflexivity. Qed.

Lemma ret_eq {S A} (a : A) (s : S) : (mret a : M S A) s = Returns a s.
Proof. reflexivity. Qed.

Lemma returns_with_elim {S A} (o : outcome S A) (Q : A -> S -> Prop) :
  returns_with o Q -> exists a s, o = Returns a s /\ Q a s.
Proof. destruct o; cbn; [eauto | tauto | tauto]. Qed.

Lemma returns_with_intro {S A} (o : outcome S A) (Q : A -> S -> Prop) a s :
  o = Returns a s -> Q a s -> returns_with o Q.
Proof. intros -> H. exact H. Qed.

Lemma returns_with_bind {S A B} (m : M S A) (k : A -> M S B) s (Q : B -> S -> Prop) :
  returns_with (m s) (fun a s' => returns_with (k a s') Q) ->
  returns_with ((m ≫= k) s) Q.
Proof. rewrite bind_eq. destruct (m s); cbn; tauto. Qed.

Lemma returns_with_weaken {S A} (o : outcome S A) (Q Q' : A -> S -> Prop) :
  returns_with o Q -> (forall a s, Q a s -> Q' a s) -> returns_with o Q'.
Proof. destruct o; cbn; auto. Qed.

(** Side conditions of the access lemmas. *)
Ltac side := solve [eassumption | lia].

(** Unfold one layer of sequencing. *)
Ltac mstep := repeat (progress (rewrite ?bind_eq, ?ret_eq; cbv beta iota)).

Import LinuxRtapi.

Lemma load_task_eq n s t :
  0 <= n -> task_array s !! Z.to_nat n = Some t -> load_task n s = Returns t s.
Proof.
  intros Hn Ht. unfold load_task. destruct (Z.ltb_spec n 0); [lia|]. now rewrite Ht.
Qed.

Lemma store_task_eq n f s t :
  0 <= n -> task_array s !! Z.to_nat n = Some t ->
  store_task n f s = Returns tt (set_task_array (<[Z.to_nat n := f t]> (task_array s)) s).
Proof.
  intros Hn Ht. unfold store_task. destruct (Z.ltb_spec n 0); [lia|]. now rewrite Ht.
Qed.

Lemma range_check_in n bound :
  0 <= n < bound -> (n <? 0) || (n >=? bound) = false.
Proof.
  intros H. destruct (Z.ltb_spec n 0); [lia|]. destruct (Z.geb_spec n bound); [lia|]. reflexivity.
Qed.

Lemma range_check_in' n bound :
  0 <= n <= bound -> (n <? 0) || (n >? bound) = false.
Proof.
  intros H. destruct (Z.ltb_spec n 0); [lia|]. destruct (Z.gtb_spec n bound); [lia|]. reflexivity.
Qed.

Lemma range_check_out n bound :
  n < 0 \/ bound <= n -> (n <? 0) || (n >=? bound) = true.
Proof.
  intros H. destruct (Z.ltb_spec n 0); [reflexivity|].
  destruct (Z.geb_spec n bound); [reflexivity|lia].
Qed.

(** C9. rtapi_task_stop on a valid task id returns 0 and sets [destroyed]
    to 1, touching nothing else: no other field of the task (so not its
    thread), no other task, and the event log stays as it was, so no join
    is attempted. A repeated call returns 0 again and leaves the state as
    the first call left it. On an id that is out of range or whose slot
    does not carry TASK_MAGIC it returns -EINVAL and the state is
    unchanged. *)
Theorem rtapi_task_stop_idempotent (s : rtapi_state) (id : Z) :
  (forall t,
     0 <= id < MAX_TASKS ->
     task_array s !! Z.to_nat id = Some t ->
     task_magic t = TASK_MAGIC ->
     let s1 := set_task_array (<[Z.to_nat id := set_destroyed 1 t]> (task_array s)) s in
     rtapi_task_stop id s = Returns 0 s1 /\
     rtapi_task_stop id s1 = Returns 0 s1 /\
     task_thread (set_destroyed 1 t) = task_thread t /\
     task_destroyed (set_destroyed 1 t) = 1 /\
     log s1 = log s) /\
  (id < 0 \/ MAX_TASKS <= id -> rtapi_task_stop id s = Returns (- EINVAL) s) /\
  (forall t,
     0 <= id < MAX_TASKS ->
     task_array s !! Z.to_nat id = Some t ->
     task_magic t <> TASK_MAGIC ->
     rtapi_task_stop id s = Returns (- EINVAL) s).
Proof.
  split; [|split].
  - intros t Hid Ht Hm s1.
    assert (Hlt : (Z.to_nat id < length (task_array s))%nat)
      by (apply lookup_lt_Some in Ht; exact Ht).
    assert (H1 : rtapi_task_stop id s = Returns 0 s1).
    { unfold rtapi_task_stop. rewrite range_check_in by exact Hid.
      mstep. rewrite (load_task_eq _ _ t) by side.
      rewrite Hm, Z.eqb_refl. cbn [negb]. mstep.
      rewrite (store_task_eq _ _ _ t) by side. reflexivity. }
    split; [exact H1|]. split; [|repeat split].
    unfold rtapi_task_stop. rewrite range_check_in by exact Hid.
    assert (Ht1 : task_array s1 !! Z.to_nat id = Some (set_destroyed 1 t)).
    { subst s1. cbn [task_array set_task_array]. now apply list_lookup_insert_eq. }
    mstep. rewrite (load_task_eq _ _ _ (proj1 Hid) Ht1).
    cbn [task_magic set_destroyed]. rewrite Hm, Z.eqb_refl. cbn [negb]. mstep.
    rewrite (store_task_eq _ _ _ _ (proj1 Hid) Ht1).
    subst s1. unfold set_task_array. cbn [task_array module_array period task_key heap log].
    rewrite list_insert_insert_eq. reflexivity.
  - intros Hid. unfold rtapi_task_stop. now rewrite range_check_out.
  - intros t Hid Ht Hm. unfold rtapi_task_stop. rewrite range_check_in by exact Hid.
    mstep. rewrite (load_task_eq _ _ t) by side.
    destruct (Z.eqb_spec (task_magic t) TASK_MAGIC); [contradiction|]. reflexivity.
Qed.

Lemma rtapi_task_stop_idempotent_witness :
  let t := set_magic TASK_MAGIC zero_task in
  let s := set_task_array (<[3%nat := t]> (task_array initial_state)) initial_state in
  let s1 := set_task_array (<[3%nat := set_destroyed 1 t]> (task_array s)) s in
  (rtapi_task_stop 3 s = Returns 0 s1 /\
   rtapi_task_stop 3 s1 = Returns 0 s1 /\
   task_thread (set_destroyed 1 t) = task_thread t /\
   task_destroyed (set_destroyed 1 t) = 1 /\
   log s1 = log s) /\
  rtapi_task_stop 64 s = Returns (- EINVAL) s /\
  rtapi_task_stop 4 s = Returns (- EINVAL) s.
Proof.
  intros t s s1.
  pose proof (rtapi_task_stop_idempotent s 3) as (Hvalid & _).
  pose proof (rtapi_task_stop_idempotent s 64) as (_ & Hrange & _).
  pose proof (rtapi_task_stop_idempotent s 4) as (_ & _ & Hmagic).
  split; [|split].
  - apply (Hvalid t); [unfold MAX_TASKS; lia | reflexivity | reflexivity].
  - apply Hrange. right. unfold MAX_TASKS. lia.
  - apply (Hmagic zero_task); [unfold MAX_TASKS; lia | reflexivity | vm_compute; discriminate].
Defined.

(** ** Periodic wait *)

(** C8. A wait cycle that starts from a next-wake time of 10 s 500000000 ns
    with a period of 500000000 ns leaves tv_nsec at 1000000000, outside
    0..999999999: the carry loop of rtapi_advance_time (and of
    _rtapi_advance_time) runs while [ns > 1000000000] and so does not carry
    a sum of exactly one second. *)
Theorem rtapi_advance_time_skips_exact_second :
  let tv := {| tv_sec := 10; tv_nsec := 500000000 |} in
  let tv' := {| tv_sec := 10; tv_nsec := 1000000000 |} in
  (forall s, rtapi_advance_time tv 500000000 0 s = Returns tv' s) /\
  (forall s, RtPreempt._rtapi_advance_time tv 500000000 0 s = Returns tv' s) /\
  timespec_ns tv' = timespec_ns tv + 500000000 /\
  ~ (0 <= tv_nsec tv' <= 999999999).
Proof.
  cbv zeta. split; [|split; [|split]].
  - intros s. reflexivity.
  - intros s. reflexivity.
  - reflexivity.
  - cbn [tv_nsec]. lia.
Qed.

(** ** Clock period *)

(** C6, as the claim states it, fails for a request beyond INT_MAX: with a
    1 ns clock resolution and no period set, a request of 2147483648 ns is
    a multiple of the resolution, yet the call stores and returns 1. *)
Lemma rtapi_clock_set_period_counterexample :
  let res := {| tv_sec := 0; tv_nsec := 1 |} in
  let n := 2147483648 in
  period initial_state = 0 /\
  (n / tv_nsec res) * tv_nsec res = n /\
  Z.max ((n / tv_nsec res) * tv_nsec res) (tv_nsec res) = 2147483648 /\
  returned (rtapi_clock_set_period res n initial_state) = Some 1 /\
  (period <$> state_after (rtapi_clock_set_period res n initial_state)) = Some 1.
Proof. cbv zeta. repeat split. Qed.

(** C6, amended. rtapi_clock_set_period 0 returns the stored period (0 if
    unset) and changes nothing. A non-zero request while a period is set
    returns -EINVAL and leaves the stored period as it is. A request [n] in
    1..ULONG_MAX made while no period is set, with a clock resolution [r]
    in 1..INT_MAX, stores and returns [n] rounded down to a multiple of
    [r], or [r] if that is 0, provided the rounded value is at most
    INT_MAX. *)
Theorem rtapi_clock_set_period_spec (s : rtapi_state) (res : timespec) :
  rtapi_clock_set_period res 0 s = Returns (period s) s /\
  (forall n, n <> 0 -> period s <> 0 ->
     exists s', rtapi_clock_set_period res n s = Returns (- EINVAL) s' /\
                period s' = period s) /\
  (forall n, 0 < n < 18446744073709551616 -> period s = 0 ->
     0 < tv_nsec res <= INT_MAX ->
     (n / tv_nsec res) * tv_nsec res <= INT_MAX ->
     let p := Z.max ((n / tv_nsec res) * tv_nsec res) (tv_nsec res) in
     exists s', rtapi_clock_set_period res n s = Returns p s' /\ period s' = p).
Proof.
  split; [reflexivity|]. split.
  - intros n Hn Hp. unfold rtapi_clock_set_period. mstep. cbn [get_state].
    destruct (Z.eqb_spec n 0); [contradiction|].
    destruct (Z.eqb_spec (period s) 0); [contradiction|].
    cbn [negb]. eexists. split; reflexivity.
  - intros n Hn Hp Hres Hround p. unfold rtapi_clock_set_period. mstep. cbn [get_state].
    destruct (Z.eqb_spec n 0); [lia|]. rewrite Hp. cbn [Z.eqb negb].
    unfold INT_MAX in *.
    rewrite (to_ulong_small (tv_nsec res)) by lia.
    destruct (Z.eqb_spec (tv_nsec res) 0); [lia|].
    assert (Hq : 0 <= n / tv_nsec res) by (apply Z.div_pos; lia).
    assert (Hlow : 0 <= n / tv_nsec res * tv_nsec res) by nia.
    rewrite (to_ulong_small (n / tv_nsec res * tv_nsec res)) by lia.
    rewrite (to_int_small (n / tv_nsec res * tv_nsec res)) by (unfold INT_MIN, INT_MAX; lia).
    rewrite (to_int_small (tv_nsec res)) by (unfold INT_MIN, INT_MAX; lia).
    assert (Hp' : (if n / tv_nsec res * tv_nsec res <? 1 then tv_nsec res
                   else n / tv_nsec res * tv_nsec res) = p).
    { subst p. destruct (Z.ltb_spec (n / tv_nsec res * tv_nsec res) 1).
      - lia.
      - assert (1 <= n / tv_nsec res) by nia. nia. }
    rewrite Hp'. eexists. split; reflexivity.
Qed.

Lemma rtapi_clock_set_period_spec_witness :
  let res := {| tv_sec := 0; tv_nsec := 4000 |} in
  let s1 := set_clock_period 996000 initial_state in
  (exists s', rtapi_clock_set_period res 500000 s1 = Returns (- EINVAL) s' /\
              period s' = period s1) /\
  (exists s', rtapi_clock_set_period res 999999 initial_state = Returns 996000 s' /\
              period s' = 996000).
Proof.
  intros res s1. split.
  - pose proof (rtapi_clock_set_period_spec s1 res) as (_ & Hset & _).
    apply Hset; [lia | vm_compute; discriminate].
  - pose proof (rtapi_clock_set_period_spec initial_state res) as (_ & _ & Hfirst).
    apply (Hfirst 999999); [lia | reflexivity | vm_compute; split; [reflexivity | discriminate]
                           | vm_compute; discriminate].
Defined.

(** ** Deadline test of the wait functions *)

Lemma emit_eq e (s : rtapi_state) : emit e s = Returns tt (set_log (e :: log s) s).
Proof. reflexivity. Qed.

Lemma rtapi_get_pagefault_count_returns n minflt majflt (s : rtapi_state) t :
  0 <= n -> task_array s !! Z.to_nat n = Some t ->
  returns_with (rtapi_get_pagefault_count n minflt majflt s)
    (fun _ s' => task_array s' = task_array s).
Proof.
  intros Hn Ht. unfold rtapi_get_pagefault_count. mstep.
  rewrite (load_task_eq _ _ t) by side.
  destruct ((to_ulong minflt <? task_minfault_base t)
            || (to_ulong majflt <? task_majfault_base t));
    reflexivity.
Qed.

(** rtapi_wait on a live bound task: the call returns 0, next_time has
    advanced by the period, and the failure counter has moved exactly when
    [now] is after the advanced next_time. *)
Lemma rtapi_wait_deadline_test (s : rtapi_state) self n task now minflt majflt :
  task_key s !! self = Some n ->
  0 <= n ->
  task_array s !! Z.to_nat n = Some task ->
  task_deleted task = 0 ->
  exists next,
    advance_time (task_next_time task) (to_ulong (task_period task)) 0 = Some next /\
    returns_with (rtapi_wait self now minflt majflt s) (fun r s' =>
      r = 0 /\
      exists task',
        task_array s' !! Z.to_nat n = Some task' /\
        task_next_time task' = next /\
        task_failures task' =
          (if timespec_after now next then to_uint (task_failures task + 1)
           else task_failures task)).
Proof.
  intros Hkey Hn Ht Hdel.
  destruct (advance_time_total (task_next_time task) (to_ulong (task_period task)) 0)
    as [next Hadv].
  exists next. split; [exact Hadv|].
  assert (Hlt : (Z.to_nat n < length (task_array s))%nat) by (eapply lookup_lt_Some; eauto).
  unfold rtapi_wait. mstep. unfold rtapi_this_task. rewrite Hkey.
  mstep. rewrite (load_task_eq _ _ task) by side.
  rewrite Hdel. cbn [Z.eqb negb]. mstep. rewrite emit_eq.
  mstep. unfold rtapi_advance_time. rewrite Hadv. mstep.
  set (s1 := set_log _ s).
  assert (Ht1 : task_array s1 !! Z.to_nat n = Some task) by exact Ht.
  rewrite (store_task_eq _ _ _ task) by side.
  set (s2 := set_task_array _ s1).
  assert (Ht2 : task_array s2 !! Z.to_nat n = Some (set_next_time next task)).
  { subst s2. cbn [task_array set_task_array]. now apply list_lookup_insert_eq. }
  mstep. destruct (timespec_after now next).
  - mstep. rewrite (store_task_eq _ _ _ _ Hn Ht2).
    set (s3 := set_task_array _ s2).
    assert (Ht3 : task_array s3 !! Z.to_nat n
                  = Some (set_failures (to_uint (task_failures task + 1))
                            (set_next_time next task))).
    { subst s3. cbn [task_array set_task_array]. apply list_lookup_insert_eq.
      subst s2. cbn [task_array set_task_array]. now rewrite length_insert. }
    pose proof (rtapi_get_pagefault_count_returns n minflt majflt s3 _ Hn Ht3) as Hpf.
    assert (Hdone : forall lvl,
      returns_with
        ((rtapi_get_pagefault_count n minflt majflt ≫= fun _ =>
          rtapi_print_msg lvl "ERROR: Missed scheduling deadline for task") s3)
        (fun _ s' => task_array s' = task_array s3)).
    { intros lvl. apply returns_with_bind.
      eapply returns_with_weaken; [exact Hpf|]. intros a s' Hs'. exact Hs'. }
    destruct (to_uint (task_failures task + 1) =? 1);
      [|destruct (to_uint (task_failures task + 1) <? 10)].
    + destruct (returns_with_elim _ _ (Hdone RTAPI_MSG_ERR)) as (u & s' & Heq & Hs'). destruct u.
      rewrite Heq. mstep. cbn [returns_with].
      split; [reflexivity|]. eexists. rewrite Hs'. split; [exact Ht3|]. split; reflexivity.
    + destruct (returns_with_elim _ _ (Hdone RTAPI_MSG_WARN)) as (u & s' & Heq & Hs'). destruct u.
      rewrite Heq. mstep. cbn [returns_with].
      split; [reflexivity|]. eexists. rewrite Hs'. split; [exact Ht3|]. split; reflexivity.
    + split; [reflexivity|]. eexists. split; [exact Ht3|]. split; reflexivity.
  - split; [reflexivity|]. eexists. split; [exact Ht2|]. split; reflexivity.
Qed.

Lemma preempt_load_eq {A} (arr : RtPreempt.rtapi_state -> list A) n s a :
  0 <= n -> arr s !! Z.to_nat n = Some a -> RtPreempt.load arr n s = Returns a s.
Proof.
  intros Hn Ha. unfold RtPreempt.load. destruct (Z.ltb_spec n 0); [lia|]. now rewrite Ha.
Qed.

Lemma preempt_store_eq {A} (arr : RtPreempt.rtapi_state -> list A) set n f s a :
  0 <= n -> arr s !! Z.to_nat n = Some a ->
  RtPreempt.store arr set n f s = Returns tt (set (<[Z.to_nat n := f a]> (arr s)) s).
Proof.
  intros Hn Ha. unfold RtPreempt.store. destruct (Z.ltb_spec n 0); [lia|]. now rewrite Ha.
Qed.

(** The statistics update returns, and leaves the runtime task data, the
    exception handler and every wait_errors counter as they were. *)
Lemma _rtapi_task_update_stats_hook_returns h self ru (s : RtPreempt.rtapi_state) :
  RtPreempt.wf_state h s ->
  returns_with (RtPreempt._rtapi_task_update_stats_hook h self ru s) (fun _ s' =>
    RtPreempt.extra_task_data s' = RtPreempt.extra_task_data s /\
    RtPreempt.rt_exception_handler s' = RtPreempt.rt_exception_handler s /\
    forall i st, RtPreempt.thread_status s !! i = Some st ->
      exists st', RtPreempt.thread_status s' !! i = Some st' /\
                  RtPreempt.wait_errors st' = RtPreempt.wait_errors st).
Proof.
  intros (Hmm & Hmt & Hlm & Hlt & Hle & Hls).
  unfold RtPreempt._rtapi_task_update_stats_hook, RtPreempt._rtapi_task_self_hook.
  mstep. cbn [get_state]. mstep.
  destruct (scan_spec (fun x => negb (RtPreempt.thread x =? self))
              (RtPreempt.extra_task_data s) (RTAPI_MAX_TASKS h + 1)
              ltac:(rewrite Hle; lia) (S (Z.to_nat (RTAPI_MAX_TASKS h))) 1)
    as (k & Hk & Hk1 & Hkb & _); try lia.
  rewrite Hk. cbn [RtPreempt.scan_result]. mstep.
  destruct (Z.leb_spec k (RTAPI_MAX_TASKS h)) as [Hle'|Hgt]; mstep.
  - rewrite range_check_in' by lia.
    destruct ru as [ru|errno]; mstep.
    + destruct (lookup_lt_is_Some_2 (RtPreempt.thread_status s) (Z.to_nat k)) as [st0 Hst0];
        [lia|].
      unfold RtPreempt.store_status.
      rewrite (preempt_store_eq _ _ _ _ _ st0) by side.
      mstep. cbn [returns_with]. split; [reflexivity|]. split; [reflexivity|].
      intros i st Hi. cbn [RtPreempt.thread_status RtPreempt.set_thread_status].
      destruct (Nat.eq_dec i (Z.to_nat k)) as [->|Hne].
      * rewrite list_lookup_insert_eq by lia. eexists. split; [reflexivity|].
        cbn [RtPreempt.wait_errors]. congruence.
      * rewrite list_lookup_insert_ne by congruence. eauto.
    + cbn. split; [reflexivity|]. split; [reflexivity|]. eauto.
  - assert (Hneg : (- EINVAL <? 0) || (- EINVAL >? RTAPI_MAX_TASKS h) = true) by reflexivity.
    rewrite Hneg. mstep. cbn. split; [reflexivity|]. split; [reflexivity|]. eauto.
Qed.

(** _rtapi_wait_hook on a live bound task: the call returns 0, next_time
    has advanced by the period, and wait_errors has moved exactly when
    [now] is after the advanced next_time. *)
Lemma _rtapi_wait_hook_deadline_test h (s : RtPreempt.rtapi_state) self n x task st now ru :
  RtPreempt.wf_state h s ->
  RtPreempt.task_key s !! self = Some n ->
  0 <= n ->
  RtPreempt.extra_task_data s !! Z.to_nat n = Some x ->
  RtPreempt.task_array s !! Z.to_nat n = Some task ->
  RtPreempt.thread_status s !! Z.to_nat n = Some st ->
  RtPreempt.deleted x = 0 ->
  exists next,
    advance_time (RtPreempt.next_time x) (to_ulong (RtPreempt.task_period task)) 0
      = Some next /\
    returns_with (RtPreempt._rtapi_wait_hook h self now ru s) (fun r s' =>
      r = 0 /\
      exists x' st',
        RtPreempt.extra_task_data s' !! Z.to_nat n = Some x' /\
        RtPreempt.next_time x' = next /\
        RtPreempt.thread_status s' !! Z.to_nat n = Some st' /\
        RtPreempt.wait_errors st' =
          (if timespec_after now next then RtPreempt.incr (RtPreempt.wait_errors st)
           else RtPreempt.wait_errors st)).
Proof.
  intros Hwf Hkey Hn Hx Htask Hst Hdel.
  destruct (advance_time_total (RtPreempt.next_time x)
              (to_ulong (RtPreempt.task_period task)) 0) as [next Hadv].
  exists next. split; [exact Hadv|].
  unfold RtPreempt._rtapi_wait_hook. mstep.
  unfold RtPreempt.rtapi_this_task. rewrite Hkey. mstep.
  unfold RtPreempt.load_extra. rewrite (preempt_load_eq _ _ _ x) by side.
  rewrite Hdel. cbn [Z.eqb negb]. mstep.
  unfold RtPreempt.emit at 1. mstep.
  set (s1 := RtPreempt.set_log _ s).
  rewrite (preempt_load_eq _ _ _ task) by side.
  unfold RtPreempt._rtapi_advance_time. rewrite Hadv. mstep.
  unfold RtPreempt.store_extra.
  rewrite (preempt_store_eq _ _ _ _ _ x) by side.
  set (s2 := RtPreempt.set_extra_task_data _ s1).
  assert (Hx2 : RtPreempt.extra_task_data s2 !! Z.to_nat n
                = Some (RtPreempt.set_next_time next x)).
  { subst s2. cbn [RtPreempt.extra_task_data RtPreempt.set_extra_task_data].
    apply list_lookup_insert_eq. eapply lookup_lt_Some. exact Hx. }
  assert (Hwf2 : RtPreempt.wf_state h s2).
  { destruct Hwf as (? & ? & ? & ? & Hle & ?). repeat split; try assumption.
    subst s2. cbn [RtPreempt.extra_task_data RtPreempt.set_extra_task_data].
    rewrite length_insert. exact Hle. }
  mstep. destruct (timespec_after now next).
  - mstep.
    pose proof (_rtapi_task_update_stats_hook_returns h self ru s2 Hwf2) as Hstats.
    apply returns_with_elim in Hstats as (r & s3 & Heq & Hextra & Hhandler & Hstatus).
    rewrite Heq. mstep.
    destruct (Hstatus (Z.to_nat n) st) as (st3 & Hst3 & Hwe); [exact Hst|].
    unfold RtPreempt.store_status. rewrite (preempt_store_eq _ _ _ _ _ st3) by side.
    mstep.
    set (s4 := RtPreempt.set_thread_status _ s3).
    assert (Hfinal : forall s5 : RtPreempt.rtapi_state,
              RtPreempt.extra_task_data s5 = RtPreempt.extra_task_data s4 ->
              RtPreempt.thread_status s5 = RtPreempt.thread_status s4 ->
              exists x' st',
                RtPreempt.extra_task_data s5 !! Z.to_nat n = Some x' /\
                RtPreempt.next_time x' = next /\
                RtPreempt.thread_status s5 !! Z.to_nat n = Some st' /\
                RtPreempt.wait_errors st' = RtPreempt.incr (RtPreempt.wait_errors st)).
    { intros s5 -> ->. subst s4.
      cbn [RtPreempt.extra_task_data RtPreempt.thread_status RtPreempt.set_thread_status].
      rewrite Hextra, Hx2. do 2 eexists. split; [reflexivity|]. split; [reflexivity|].
      split; [apply list_lookup_insert_eq; eapply lookup_lt_Some; exact Hst3|].
      cbn [RtPreempt.wait_errors]. now rewrite Hwe. }
    destruct (RTAPI_POSIX h); mstep.
    + cbn [returns_with]. split; [reflexivity|]. now apply Hfinal.
    + cbn [get_state]. mstep.
      destruct (negb (RtPreempt.rt_exception_handler s4 =? NULL)); mstep.
      * cbn [returns_with]. split; [reflexivity|]. now apply Hfinal.
      * cbn [returns_with]. split; [reflexivity|]. now apply Hfinal.
  - cbn [returns_with]. split; [reflexivity|].
    exists (RtPreempt.set_next_time next x), st.
    split; [exact Hx2|]. split; [reflexivity|]. split; [exact Hst|reflexivity].
Qed.

(** C2, as the claim states it, fails: a task whose next_time was 10 s and
    whose period is 1 ms wakes at 10.0005 s, after the deadline it slept
    to, and neither wait function counts a miss. *)
Lemma wait_deadline_test_counterexample :
  let deadline := {| tv_sec := 10; tv_nsec := 0 |} in
  let now := {| tv_sec := 10; tv_nsec := 500000 |} in
  (task_next_time <$> task_array linux_waiting !! 0%nat) = Some deadline /\
  (RtPreempt.next_time <$> RtPreempt.extra_task_data preempt_waiting !! 1%nat)
    = Some deadline /\
  timespec_after now deadline = true /\
  returned (rtapi_wait 7 now 0 0 linux_waiting) = Some 0 /\
  (s1 ← state_after (rtapi_wait 7 now 0 0 linux_waiting);
   t1 ← task_array s1 !! 0%nat;
   Some (task_failures t1, log s1)) = Some (0, [Sleep false deadline]) /\
  returned (RtPreempt._rtapi_wait_hook example_host 7 now (inr 0) preempt_waiting)
    = Some 0 /\
  (s1 ← state_after (RtPreempt._rtapi_wait_hook example_host 7 now (inr 0) preempt_waiting);
   st1 ← RtPreempt.thread_status s1 !! 1%nat;
   Some (RtPreempt.wait_errors st1, RtPreempt.log s1)) = Some (0, [Sleep false deadline]).
Proof. cbv zeta. repeat split; vm_compute; reflexivity. Qed.

(** C2, amended. After the absolute sleep, rtapi_wait and _rtapi_wait_hook
    compare the current time against next_time as already advanced by the
    period: on a live task bound to the calling thread the call returns 0,
    stores the advanced next_time, and counts a miss (the failure counter,
    resp. wait_errors, goes up by one) exactly when [now] is after that
    advanced value. *)
Theorem wait_deadline_test_uses_advanced_next_time :
  (forall (s : rtapi_state) self n task now minflt majflt,
     task_key s !! self = Some n ->
     0 <= n ->
     task_array s !! Z.to_nat n = Some task ->
     task_deleted task = 0 ->
     exists next,
       advance_time (task_next_time task) (to_ulong (task_period task)) 0 = Some next /\
       returns_with (rtapi_wait self now minflt majflt s) (fun r s' =>
         r = 0 /\
         exists task',
           task_array s' !! Z.to_nat n = Some task' /\
           task_next_time task' = next /\
           task_failures task' =
             (if timespec_after now next then to_uint (task_failures task + 1)
              else task_failures task))) /\
  (forall h (s : RtPreempt.rtapi_state) self n x task st now ru,
     RtPreempt.wf_state h s ->
     RtPreempt.task_key s !! self = Some n ->
     0 <= n ->
     RtPreempt.extra_task_data s !! Z.to_nat n = Some x ->
     RtPreempt.task_array s !! Z.to_nat n = Some task ->
     RtPreempt.thread_status s !! Z.to_nat n = Some st ->
     RtPreempt.deleted x = 0 ->
     exists next,
       advance_time (RtPreempt.next_time x) (to_ulong (RtPreempt.task_period task)) 0
         = Some next /\
       returns_with (RtPreempt._rtapi_wait_hook h self now ru s) (fun r s' =>
         r = 0 /\
         exists x' st',
           RtPreempt.extra_task_data s' !! Z.to_nat n = Some x' /\
           RtPreempt.next_time x' = next /\
           RtPreempt.thread_status s' !! Z.to_nat n = Some st' /\
           RtPreempt.wait_errors st' =
             (if timespec_after now next then RtPreempt.incr (RtPreempt.wait_errors st)
              else RtPreempt.wait_errors st))).
Proof.
  split.
  - exact rtapi_wait_deadline_test.
  - exact _rtapi_wait_hook_deadline_test.
Qed.

Lemma wait_deadline_test_uses_advanced_next_time_witness :
  let now := {| tv_sec := 10; tv_nsec := 1500000 |} in
  (exists next,
     advance_time {| tv_sec := 10; tv_nsec := 0 |} (to_ulong 1000000) 0 = Some next /\
     returns_with (rtapi_wait 7 now 0 0 linux_waiting) (fun r s' =>
       r = 0 /\
       exists task',
         task_array s' !! Z.to_nat 0 = Some task' /\
         task_next_time task' = next /\
         task_failures task' =
           (if timespec_after now next then to_uint (0 + 1) else 0))) /\
  (exists next,
     advance_time {| tv_sec := 10; tv_nsec := 0 |} (to_ulong 1000000) 0 = Some next /\
     returns_with (RtPreempt._rtapi_wait_hook example_host 7 now (inr 0) preempt_waiting)
       (fun r s' =>
         r = 0 /\
         exists x' st',
           RtPreempt.extra_task_data s' !! Z.to_nat 1 = Some x' /\
           RtPreempt.next_time x' = next /\
           RtPreempt.thread_status s' !! Z.to_nat 1 = Some st' /\
           RtPreempt.wait_errors st' =
             (if timespec_after now next then RtPreempt.incr 0 else 0))).
Proof.
  intros now.
  pose proof wait_deadline_test_uses_advanced_next_time as [Hlinux Hpreempt].
  split.
  - apply (Hlinux linux_waiting 7 0
             (set_next_time {| tv_sec := 10; tv_nsec := 0 |}
                (set_period 1000000 (set_magic TASK_MAGIC zero_task)))
             now 0 0); [reflexivity | lia | reflexivity | reflexivity].
  - apply (Hpreempt example_host preempt_waiting 7 1
             (RtPreempt.set_next_time {| tv_sec := 10; tv_nsec := 0 |} RtPreempt.zero_extra)
             {| RtPreempt.task_name := "servo"; RtPreempt.task_stacksize := 16384;
                RtPreempt.task_period := 1000000; RtPreempt.task_ratio := 1;
                RtPreempt.task_prio := 50; RtPreempt.task_cpu := -1;
                RtPreempt.task_taskcode := 0; RtPreempt.task_arg := 0 |}
             RtPreempt.zero_status now (inr 0));
      [ vm_compute; repeat split; discriminate
      | reflexivity | lia | reflexivity | reflexivity | reflexivity | reflexivity ].
Defined.

(** ** Module registry *)

Lemma store_module_eq n m (s : rtapi_state) m0 :
  0 <= n -> module_array s !! Z.to_nat n = Some m0 ->
  store_module n m s
    = Returns tt (set_module_array (<[Z.to_nat n := m]> (module_array s)) s).
Proof.
  intros Hn Hm. unfold store_module. destruct (Z.ltb_spec n 0); [lia|]. now rewrite Hm.
Qed.

(** rtapi_init of linux_rtapi.c on a full table. *)
Lemma rtapi_init_full (s : rtapi_state) modname :
  wf_state s ->
  (forall i m, 0 <= i < MAX_MODULES -> module_array s !! Z.to_nat i = Some m ->
               module_magic m = MODULE_MAGIC) ->
  rtapi_init modname s = Returns (- ENOMEM) s.
Proof.
  intros [_ Hlen] Hall. unfold rtapi_init. mstep. cbn [get_state]. mstep.
  rewrite (scan_full module_in_use (module_array s) MAX_MODULES); try (rewrite ?Hlen; lia).
  - reflexivity.
  - unfold MAX_MODULES; lia.
  - intros i m Hi Hm. unfold module_in_use. rewrite (Hall i m Hi Hm). apply Z.eqb_refl.
Qed.

(** rtapi_init of linux_rtapi.c when slot [j] is the first free one. *)
Lemma rtapi_init_first_free (s : rtapi_state) modname j m :
  wf_state s ->
  0 <= j < MAX_MODULES ->
  (forall i m', 0 <= i < j -> module_array s !! Z.to_nat i = Some m' ->
                module_magic m' = MODULE_MAGIC) ->
  module_array s !! Z.to_nat j = Some m ->
  module_magic m <> MODULE_MAGIC ->
  rtapi_init modname s
    = Returns (j + MODULE_OFFSET)
        (set_module_array
           (<[Z.to_nat j := {| module_magic := MODULE_MAGIC |}]> (module_array s)) s).
Proof.
  intros [_ Hlen] Hj Hbelow Hm Hfree. unfold rtapi_init. mstep. cbn [get_state]. mstep.
  rewrite (scan_first_free module_in_use (module_array s) MAX_MODULES _ 0 j m);
    try (rewrite ?Hlen; lia).
  - cbn [scan_result]. mstep. destruct (Z.ltb_spec j MAX_MODULES); [|lia].
    mstep. rewrite (store_module_eq _ _ _ m) by side. reflexivity.
  - intros i b Hi Hb. unfold module_in_use. rewrite (Hbelow i b Hi Hb). apply Z.eqb_refl.
  - exact Hm.
  - unfold module_in_use. now apply Z.eqb_neq.
Qed.

(** _rtapi_init of rt-preempt.c on a full table. *)
Lemma _rtapi_init_full h (s : RtPreempt.rtapi_state) modname :
  RtPreempt.wf_state h s ->
  (forall i m, 1 <= i <= RTAPI_MAX_MODULES h ->
               RtPreempt.module_array s !! Z.to_nat i = Some m ->
               RtPreempt.module_state m <> RtPreempt.NO_MODULE) ->
  returns_with (RtPreempt._rtapi_init h modname s) (fun r s' =>
    r = - EMFILE /\ RtPreempt.module_array s' = RtPreempt.module_array s).
Proof.
  intros (Hmm & _ & Hlen & _) Hall. unfold RtPreempt._rtapi_init. mstep.
  unfold RtPreempt.rtapi_print_msg at 1, RtPreempt.emit at 1. mstep.
  cbn [get_state]. mstep.
  cbn [RtPreempt.module_array RtPreempt.set_log].
  rewrite (scan_full RtPreempt.module_in_use (RtPreempt.module_array s)
             (RTAPI_MAX_MODULES h + 1)); try (rewrite ?Hlen; lia).
  - cbn [RtPreempt.scan_result]. mstep.
    destruct (Z.gtb_spec (RTAPI_MAX_MODULES h + 1) (RTAPI_MAX_MODULES h)); [|lia].
    mstep. cbn. split; reflexivity.
  - intros i m Hi Hm. unfold RtPreempt.module_in_use.
    specialize (Hall i m ltac:(lia) Hm). destruct (RtPreempt.module_state m); congruence.
Qed.

(** _rtapi_init of rt-preempt.c when slot [j] is the first free one. *)
Lemma _rtapi_init_first_free h (s : RtPreempt.rtapi_state) modname j m :
  RtPreempt.wf_state h s ->
  1 <= j <= RTAPI_MAX_MODULES h ->
  (forall i m', 1 <= i < j -> RtPreempt.module_array s !! Z.to_nat i = Some m' ->
                RtPreempt.module_state m' <> RtPreempt.NO_MODULE) ->
  RtPreempt.module_array s !! Z.to_nat j = Some m ->
  RtPreempt.module_state m = RtPreempt.NO_MODULE ->
  returns_with (RtPreempt._rtapi_init h modname s) (fun r s' =>
    r = j + MODULE_OFFSET /\
    exists m', RtPreempt.module_array s' !! Z.to_nat j = Some m' /\
               RtPreempt.module_state m' = RtPreempt.REALTIME).
Proof.
  intros (Hmm & _ & Hlen & _) Hj Hbelow Hm Hfree. unfold RtPreempt._rtapi_init. mstep.
  unfold RtPreempt.rtapi_print_msg at 1, RtPreempt.emit at 1. mstep.
  cbn [get_state]. mstep.
  cbn [RtPreempt.module_array RtPreempt.set_log].
  rewrite (scan_first_free RtPreempt.module_in_use (RtPreempt.module_array s)
             (RTAPI_MAX_MODULES h + 1) _ 1 j m); try (rewrite ?Hlen; lia).
  - cbn [RtPreempt.scan_result]. mstep.
    destruct (Z.gtb_spec j (RTAPI_MAX_MODULES h)); [lia|].
    mstep. unfold RtPreempt.store_module.
    rewrite (preempt_store_eq _ _ _ _ _ m) by side. mstep.
    cbn [returns_with]. split; [reflexivity|]. eexists. split.
    + cbn [RtPreempt.module_array RtPreempt.set_ul_module_count RtPreempt.set_log
             RtPreempt.set_module_array].
      apply list_lookup_insert_eq. cbn [RtPreempt.module_array RtPreempt.set_log].
      eapply lookup_lt_Some. exact Hm.
    + reflexivity.
  - intros i b Hi Hb. unfold RtPreempt.module_in_use.
    specialize (Hbelow i b Hi Hb). destruct (RtPreempt.module_state b); congruence.
  - exact Hm.
  - unfold RtPreempt.module_in_use. now rewrite Hfree.
Qed.

(** C7, as the claim states it, fails for linux_rtapi.c: on a full module
    table rtapi_init returns -ENOMEM (-12), not -EMFILE (-24). *)
Lemma rtapi_init_full_counterexample :
  (forall i m, linux_modules_full.(module_array) !! i = Some m ->
               module_magic m = MODULE_MAGIC) /\
  returned (rtapi_init (Some "motmod") linux_modules_full) = Some (- ENOMEM) /\
  - ENOMEM <> - EMFILE.
Proof.
  split; [|split].
  - intros i m H. apply lookup_replicate in H as [-> _]. reflexivity.
  - reflexivity.
  - discriminate.
Qed.

(** C7, amended. On a full module table _rtapi_init (rt-preempt.c) returns
    -EMFILE and rtapi_init (linux_rtapi.c) returns -ENOMEM, and the table
    stays as it was. When a slot is free, each returns the number of the
    first free slot plus MODULE_OFFSET, a handle that is at least
    MODULE_OFFSET, and marks that slot as taken. *)
Theorem module_init_result :
  (forall h (s : RtPreempt.rtapi_state) modname,
     RtPreempt.wf_state h s ->
     (forall i m, 1 <= i <= RTAPI_MAX_MODULES h ->
                  RtPreempt.module_array s !! Z.to_nat i = Some m ->
                  RtPreempt.module_state m <> RtPreempt.NO_MODULE) ->
     returns_with (RtPreempt._rtapi_init h modname s) (fun r s' =>
       r = - EMFILE /\ RtPreempt.module_array s' = RtPreempt.module_array s)) /\
  (forall h (s : RtPreempt.rtapi_state) modname j m,
     RtPreempt.wf_state h s ->
     1 <= j <= RTAPI_MAX_MODULES h ->
     (forall i m', 1 <= i < j -> RtPreempt.module_array s !! Z.to_nat i = Some m' ->
                   RtPreempt.module_state m' <> RtPreempt.NO_MODULE) ->
     RtPreempt.module_array s !! Z.to_nat j = Some m ->
     RtPreempt.module_state m = RtPreempt.NO_MODULE ->
     returns_with (RtPreempt._rtapi_init h modname s) (fun r s' =>
       r = j + MODULE_OFFSET /\ MODULE_OFFSET <= r /\
       exists m', RtPreempt.module_array s' !! Z.to_nat j = Some m' /\
                  RtPreempt.module_state m' = RtPreempt.REALTIME)) /\
  (forall (s : rtapi_state) modname,
     wf_state s ->
     (forall i m, 0 <= i < MAX_MODULES -> module_array s !! Z.to_nat i = Some m ->
                  module_magic m = MODULE_MAGIC) ->
     rtapi_init modname s = Returns (- ENOMEM) s) /\
  (forall (s : rtapi_state) modname j m,
     wf_state s ->
     0 <= j < MAX_MODULES ->
     (forall i m', 0 <= i < j -> module_array s !! Z.to_nat i = Some m' ->
                   module_magic m' = MODULE_MAGIC) ->
     module_array s !! Z.to_nat j = Some m ->
     module_magic m <> MODULE_MAGIC ->
     MODULE_OFFSET <= j + MODULE_OFFSET /\
     rtapi_init modname s
       = Returns (j + MODULE_OFFSET)
           (set_module_array
              (<[Z.to_nat j := {| module_magic := MODULE_MAGIC |}]> (module_array s)) s)).
Proof.
  split; [|split; [|split]].
  - exact _rtapi_init_full.
  - intros h s modname j m Hwf Hj Hbelow Hm Hfree.
    eapply returns_with_weaken; [eapply _rtapi_init_first_free; eassumption|].
    intros r s' (-> & Hslot). split; [reflexivity|]. split; [lia | exact Hslot].
  - exact rtapi_init_full.
  - intros s modname j m Hwf Hj Hbelow Hm Hfree. split; [lia|].
    eapply rtapi_init_first_free; eassumption.
Qed.

Lemma module_init_result_witness :
  returns_with (RtPreempt._rtapi_init example_host None preempt_modules_full)
    (fun r s' =>
       r = - EMFILE /\
       RtPreempt.module_array s' = RtPreempt.module_array preempt_modules_full) /\
  returns_with
    (RtPreempt._rtapi_init example_host None (RtPreempt.initial_state example_host))
    (fun r s' =>
       r = 1 + MODULE_OFFSET /\ MODULE_OFFSET <= r /\
       exists m', RtPreempt.module_array s' !! Z.to_nat 1 = Some m' /\
                  RtPreempt.module_state m' = RtPreempt.REALTIME) /\
  rtapi_init None linux_modules_full = Returns (- ENOMEM) linux_modules_full /\
  (MODULE_OFFSET <= 0 + MODULE_OFFSET /\
   rtapi_init None initial_state
     = Returns (0 + MODULE_OFFSET)
         (set_module_array
            (<[Z.to_nat 0 := {| module_magic := MODULE_MAGIC |}]>
               (module_array initial_state)) initial_state)).
Proof.
  pose proof module_init_result as (Hpfull & Hpfree & Hlfull & Hlfree).
  assert (Hwf : forall arr,
            length arr = 65%nat ->
            RtPreempt.wf_state example_host
              (RtPreempt.set_module_array arr (RtPreempt.initial_state example_host))).
  { intros arr Harr. repeat split; try exact Harr; vm_compute; discriminate. }
  split; [|split; [|split]].
  - apply Hpfull.
    + apply Hwf. reflexivity.
    + intros i m _ H. apply lookup_replicate in H as [-> _]. discriminate.
  - apply (Hpfree example_host _ None 1
             {| RtPreempt.module_state := RtPreempt.NO_MODULE;
                RtPreempt.module_name := EmptyString |}).
    + apply (Hwf (RtPreempt.module_array (RtPreempt.initial_state example_host))).
      reflexivity.
    + vm_compute. split; discriminate.
    + intros i m' Hi. lia.
    + reflexivity.
    + reflexivity.
  - apply Hlfull.
    + split; reflexivity.
    + intros i m _ H. apply lookup_replicate in H as [-> _]. reflexivity.
  - apply (Hlfree initial_state None 0 {| module_magic := 0 |}).
    + split; reflexivity.
    + unfold MAX_MODULES. lia.
    + intros i m' Hi. lia.
    + reflexivity.
    + vm_compute. discriminate.
Defined.

(** ** What the steps of a program preserve *)

Section Preservation.

Variable Inv : rtapi_state -> Prop.

Lemma preserves_ret {A} (a : A) : preserves Inv (mret a).
Proof. intros s Hs. exact Hs. Qed.

Lemma preserves_bind {A B} (m : R A) (k : A -> R B) :
  preserves Inv m -> (forall a, preserves Inv (k a)) -> preserves Inv (m ≫= k).
Proof.
  intros Hm Hk s Hs. rewrite bind_eq. specialize (Hm s Hs).
  destruct (m s) as [a s'| |]; cbn in *; [apply Hk; exact Hm | exact Hm | exact I].
Qed.

(** What is read from the state may be used with the invariant at
    hand. *)
Lemma preserves_get_state {B} (k : rtapi_state -> R B) :
  (forall s0, Inv s0 -> preserves Inv (k s0)) -> preserves Inv (get_state ≫= k).
Proof. intros Hk s Hs. rewrite bind_eq. cbn [get_state]. now apply Hk. Qed.

Lemma preserves_raise {A} f : preserves Inv (raise f : R A).
Proof. intros s Hs. exact I. Qed.

Lemma preserves_pthread_exit {A} : preserves Inv (pthread_exit : R A).
Proof. intros s Hs. exact Hs. Qed.

Lemma preserves_load_task n : preserves Inv (load_task n).
Proof.
  intros s Hs. unfold load_task. destruct (n <? 0); [exact I|].
  destruct (task_array s !! Z.to_nat n); [exact Hs | exact I].
Qed.

Lemma preserves_scan_result r : preserves Inv (scan_result r).
Proof. intros s Hs. destruct r; [exact Hs | exact I]. Qed.

Lemma preserves_rtapi_this_task self : preserves Inv (rtapi_this_task self).
Proof. intros s Hs. exact Hs. Qed.

Lemma preserves_rtapi_advance_time tv ns s0 : preserves Inv (rtapi_advance_time tv ns s0).
Proof.
  intros s Hs. unfold rtapi_advance_time. destruct (advance_time tv ns s0); [exact Hs | exact I].
Qed.

Lemma preserves_int_div a b : preserves Inv (int_div a b).
Proof.
  intros s Hs. unfold int_div. destruct (b =? 0); [exact I|].
  destruct ((a =? INT_MIN) && (b =? -1)); [exact I | exact Hs].
Qed.

(** The invariant does not read the log, the heap, or the module table. *)
Hypothesis I_log : forall s l, Inv s -> Inv (set_log l s).
Hypothesis I_heap : forall s hp, Inv s -> Inv (set_heap hp s).
Hypothesis I_modules : forall s ms, Inv s -> Inv (set_module_array ms s).

Lemma preserves_emit e : preserves Inv (emit e).
Proof. intros s Hs. apply I_log. exact Hs. Qed.

Lemma preserves_rtapi_print_msg lvl text : preserves Inv (rtapi_print_msg lvl text).
Proof. apply preserves_emit. Qed.

Lemma preserves_malloc answer size : preserves Inv (malloc answer size).
Proof.
  intros s Hs. unfold malloc. destruct (answer =? NULL); [exact Hs|]. apply I_heap, Hs.
Qed.

Lemma preserves_free p : preserves Inv (free p).
Proof.
  intros s Hs. unfold free. destruct (p =? NULL); [exact Hs|].
  destruct (decide (p ∈ heap s)); [apply I_heap, Hs | exact I].
Qed.

Lemma preserves_store_module n m : preserves Inv (store_module n m).
Proof.
  intros s Hs. unfold store_module. destruct (n <? 0); [exact I|].
  destruct (module_array s !! Z.to_nat n); [apply I_modules, Hs | exact I].
Qed.

Lemma preserves_pthread_join thread err : preserves Inv (pthread_join thread err).
Proof. apply preserves_bind; [apply preserves_emit | intros; apply preserves_ret]. Qed.

(** Nor does it read the clock period. *)
Hypothesis I_period : forall s p, Inv s -> Inv (set_clock_period p s).

(** It survives a write to a task slot that leaves a TASK_MAGIC tag in
    place. *)
Hypothesis I_store : forall s n t f,
  Inv s -> 0 <= n -> task_array s !! Z.to_nat n = Some t ->
  (task_magic t = TASK_MAGIC -> task_magic (f t) = TASK_MAGIC) ->
  Inv (set_task_array (<[Z.to_nat n := f t]> (task_array s)) s).

(** It survives the binding of a task to any thread in [bindable]. *)
Variable bindable : Z -> Prop.
Hypothesis I_key : forall s self n,
  bindable self -> Inv s -> Inv (set_task_key (<[self := n]> (task_key s)) s).

Lemma preserves_store_task n f :
  (forall t, task_magic t = TASK_MAGIC -> task_magic (f t) = TASK_MAGIC) ->
  preserves Inv (store_task n f).
Proof.
  intros Hf s Hs. unfold store_task. destruct (Z.ltb_spec n 0); [exact I|].
  destruct (task_array s !! Z.to_nat n) as [t|] eqn:Ht; [|exact I].
  apply I_store; auto.
Qed.

Lemma preserves_rtapi_set_task self n : bindable self -> preserves Inv (rtapi_set_task self n).
Proof. intros Hb s Hs. apply I_key; assumption. Qed.

Lemma preserves_set_clock_period p s0 :
  Inv s0 -> preserves Inv (put_state (set_clock_period p s0)).
Proof. intros H0 s Hs. apply I_period, H0. Qed.

(** One step through the structure of a function body. *)
Ltac pres_step :=
  lazymatch goal with
  | |- preserves _ (mret _) => apply preserves_ret
  | |- preserves _ (raise _) => apply preserves_raise
  | |- preserves _ pthread_exit => apply preserves_pthread_exit
  | |- preserves _ (load_task _) => apply preserves_load_task
  | |- preserves _ (scan_result _) => apply preserves_scan_result
  | |- preserves _ (rtapi_this_task _) => apply preserves_rtapi_this_task
  | |- preserves _ (rtapi_advance_time _ _ _) => apply preserves_rtapi_advance_time
  | |- preserves _ (int_div _ _) => apply preserves_int_div
  | |- preserves _ (emit _) => apply preserves_emit; assumption
  | |- preserves _ (rtapi_print_msg _ _) => apply preserves_rtapi_print_msg; assumption
  | |- preserves _ (malloc _ _) => apply preserves_malloc; assumption
  | |- preserves _ (free _) => apply preserves_free; assumption
  | |- preserves _ (store_module _ _) => apply preserves_store_module; assumption
  | |- preserves _ (pthread_join _ _) => apply preserves_pthread_join; assumption
  | |- preserves _ (store_task _ _) =>
      apply preserves_store_task; intros ? ?; first [assumption | reflexivity]
  | |- preserves _ (get_state ≫= _) => apply preserves_get_state; intros ? ?
  | |- preserves _ (_ ≫= _) => apply preserves_bind; [|intros ?]
  | |- preserves _ (if ?b then _ else _) => destruct b
  | |- preserves _ (match ?x with _ => _ end) => destruct x
  end.

Ltac pres := cbv zeta; repeat pres_step.

Lemma preserves_rtapi_init modname : preserves Inv (rtapi_init modname).
Proof. unfold rtapi_init. pres. Qed.

Lemma preserves_rtapi_exit id : preserves Inv (rtapi_exit id).
Proof. unfold rtapi_exit. pres. Qed.

Lemma preserves_rtapi_clock_set_period res nsecs :
  preserves Inv (rtapi_clock_set_period res nsecs).
Proof.
  unfold rtapi_clock_set_period. pres. now apply preserves_set_clock_period.
Qed.

Lemma preserves_rtapi_task_new h ma taskcode arg prio owner stacksize uses_fp name cpu_id :
  preserves Inv
    (rtapi_task_new h ma taskcode arg prio owner stacksize uses_fp name cpu_id).
Proof. unfold rtapi_task_new. pres. Qed.

Lemma preserves_rtapi_get_pagefault_count n minflt majflt :
  preserves Inv (rtapi_get_pagefault_count n minflt majflt).
Proof. unfold rtapi_get_pagefault_count. pres. Qed.

Lemma preserves_rtapi_reset_pagefault_count n minflt majflt :
  preserves Inv (rtapi_reset_pagefault_count n minflt majflt).
Proof. unfold rtapi_reset_pagefault_count. pres. Qed.

Lemma preserves_realtime_set_affinity h e n : preserves Inv (realtime_set_affinity h e n).
Proof. unfold realtime_set_affinity. pres. Qed.

Lemma preserves_realtime_set_priority e n : preserves Inv (realtime_set_priority e n).
Proof. unfold realtime_set_priority. pres. Qed.

(** A step that may also be a call of one of the helpers above. *)
Ltac pres_call :=
  lazymatch goal with
  | |- preserves _ (rtapi_set_task _ _) => apply preserves_rtapi_set_task; assumption
  | |- preserves _ (rtapi_reset_pagefault_count _ _ _) =>
      apply preserves_rtapi_reset_pagefault_count
  | |- preserves _ (rtapi_get_pagefault_count _ _ _) =>
      apply preserves_rtapi_get_pagefault_count
  | |- preserves _ (realtime_set_affinity _ _ _) => apply preserves_realtime_set_affinity
  | |- preserves _ (realtime_set_priority _ _) => apply preserves_realtime_set_priority
  | |- _ => pres_step
  end.

Ltac pres' := cbv zeta; repeat pres_call.

Lemma preserves_realtime_thread_init h e self n :
  bindable self -> preserves Inv (realtime_thread_init h e self n).
Proof. intros Hb. unfold realtime_thread_init. pres'. Qed.

Lemma preserves_realtime_thread_run now n : preserves Inv (realtime_thread_run now n).
Proof. unfold realtime_thread_run. pres. Qed.

Lemma preserves_realtime_thread_end n : preserves Inv (realtime_thread_end n).
Proof. unfold realtime_thread_end. pres. Qed.

Lemma preserves_rtapi_task_start h e task_id period_nsec :
  bindable (created_thread e) ->
  preserves Inv (rtapi_task_start h e task_id period_nsec).
Proof.
  intros Hb. unfold rtapi_task_start.
  repeat first
    [ lazymatch goal with
      | |- preserves _ (realtime_thread_init _ _ _ _) =>
          apply preserves_realtime_thread_init; assumption
      end
    | progress pres' ].
Qed.

Lemma preserves_rtapi_task_stop task_id : preserves Inv (rtapi_task_stop task_id).
Proof. unfold rtapi_task_stop. pres. Qed.

Lemma preserves_rtapi_task_pause task_id : preserves Inv (rtapi_task_pause task_id).
Proof. unfold rtapi_task_pause. pres. Qed.

Lemma preserves_rtapi_task_resume task_id : preserves Inv (rtapi_task_resume task_id).
Proof. unfold rtapi_task_resume. pres. Qed.

Lemma preserves_rtapi_task_set_period task_id period_nsec :
  preserves Inv (rtapi_task_set_period task_id period_nsec).
Proof. unfold rtapi_task_set_period. pres. Qed.

Lemma preserves_rtapi_wait self now minflt majflt :
  preserves Inv (rtapi_wait self now minflt majflt).
Proof. unfold rtapi_wait. pres'. Qed.

(** rtapi_task_delete clears the tag of the slot it is given; the
    invariant has to survive that. *)
Lemma preserves_rtapi_task_delete join_err id :
  (forall s t, Inv s -> 0 <= id -> task_array s !! Z.to_nat id = Some t ->
     Inv (set_task_array (<[Z.to_nat id := set_magic 0 t]> (task_array s)) s)) ->
  preserves Inv (rtapi_task_delete join_err id).
Proof.
  intros Hclear. unfold rtapi_task_delete. pres.
  intros s Hs. unfold store_task. destruct (Z.ltb_spec id 0); [exact I|].
  destruct (task_array s !! Z.to_nat id) as [t|] eqn:Ht; [|exact I].
  apply Hclear; assumption.
Qed.

End Preservation.

Lemma task_valid_store (s : rtapi_state) n k t f :
  task_valid n s -> 0 <= k -> task_array s !! Z.to_nat k = Some t ->
  (k = n -> task_magic t = TASK_MAGIC -> task_magic (f t) = TASK_MAGIC) ->
  task_valid n (set_task_array (<[Z.to_nat k := f t]> (task_array s)) s).
Proof.
  intros (Hn & t0 & Ht0 & Hm0) Hk Ht Hf. split; [exact Hn|].
  cbn [task_array set_task_array].
  destruct (Z.eq_dec k n) as [->|Hne].
  - exists (f t). split.
    + apply list_lookup_insert_eq. eapply lookup_lt_Some. exact Ht.
    + apply Hf; [reflexivity|]. congruence.
  - exists t0. split; [|exact Hm0]. rewrite list_lookup_insert_ne; [exact Ht0|]. lia.
Qed.

Lemma task_valid_frame (s s' : rtapi_state) n :
  task_array s' = task_array s -> task_valid n s -> task_valid n s'.
Proof. intros Heq (Hn & Hv). split; [exact Hn|]. now rewrite Heq. Qed.

(** The steps of a program keep slot [n] valid, the task_delete of [n]
    apart. *)
Lemma run_preserves_task_valid h c n :
  (forall join_err, c <> CallTaskDelete join_err n) ->
  preserves (task_valid n) (run h c).
Proof.
  intros Hc.
  pose proof (task_valid_store) as Hstore.
  pose proof (task_valid_frame) as Hframe.
  destruct c; cbn [run].
  - apply preserves_rtapi_init; intros; eapply Hframe; eauto.
  - apply preserves_rtapi_exit; intros; eapply Hframe; eauto.
  - apply preserves_rtapi_clock_set_period; intros; eapply Hframe; eauto.
  - apply preserves_rtapi_task_new; intros; first [eapply Hframe; eauto; fail | eauto].
  - apply preserves_rtapi_task_delete;
      intros; first [eapply Hframe; eauto; fail | eauto].
    apply Hstore; try assumption. intros ->. destruct (Hc join_err). reflexivity.
  - apply preserves_rtapi_task_start with (bindable := fun _ => True);
      intros; first [eapply Hframe; eauto; fail | eauto].
  - apply preserves_rtapi_task_stop; intros; eauto.
  - apply preserves_rtapi_task_pause.
  - apply preserves_rtapi_task_resume.
  - apply preserves_rtapi_task_set_period; intros; eauto.
  - apply preserves_rtapi_wait; intros; first [eapply Hframe; eauto; fail | eauto].
  - apply preserves_bind; [|intros; apply preserves_ret].
    apply preserves_realtime_thread_run; intros; first [eapply Hframe; eauto; fail | eauto].
  - apply preserves_bind; [|intros; apply preserves_ret].
    apply preserves_realtime_thread_end; intros; first [eapply Hframe; eauto; fail | eauto].
Qed.

(** The steps of a program leave a thread without a bound task as it is,
    unless the step starts that very thread. *)
Lemma run_preserves_unbound h c self :
  (forall e task_id period_nsec,
     c = CallTaskStart e task_id period_nsec -> created_thread e <> self) ->
  preserves (fun s => task_key s !! self = None) (run h c).
Proof.
  intros Hc.
  destruct c; cbn [run];
    try (apply preserves_bind; [|intros; apply preserves_ret]);
    first
      [ apply preserves_rtapi_init | apply preserves_rtapi_exit
      | apply preserves_rtapi_clock_set_period | apply preserves_rtapi_task_new
      | apply preserves_rtapi_task_delete
      | apply preserves_rtapi_task_start with (bindable := fun x => x <> self)
      | apply preserves_rtapi_task_stop | apply preserves_rtapi_task_pause
      | apply preserves_rtapi_task_resume | apply preserves_rtapi_task_set_period
      | apply preserves_rtapi_wait | apply preserves_realtime_thread_run
      | apply preserves_realtime_thread_end ];
    try (intros; assumption).
  - intros s self' n Hb Hs. cbn [task_key set_task_key].
    rewrite lookup_insert_ne; [exact Hs | exact Hb].
  - eapply Hc. reflexivity.
Qed.

(** The same walk outside the section: [tac] shows that the invariant at
    hand survives the write in question. *)
Ltac pres_by tac :=
  cbv zeta;
  repeat lazymatch goal with
    | |- preserves _ (mret _) => apply preserves_ret
    | |- preserves _ (raise _) => apply preserves_raise
    | |- preserves _ pthread_exit => apply preserves_pthread_exit
    | |- preserves _ (load_task _) => apply preserves_load_task
    | |- preserves _ (scan_result _) => apply preserves_scan_result
    | |- preserves _ (emit _) => apply preserves_emit; tac
    | |- preserves _ (rtapi_print_msg _ _) => apply preserves_rtapi_print_msg; tac
    | |- preserves _ (malloc _ _) => apply preserves_malloc; tac
    | |- preserves _ (free _) => apply preserves_free; tac
    | |- preserves _ (pthread_join _ _) => apply preserves_pthread_join; tac
    | |- preserves _ (store_task _ _) => apply preserves_store_task; tac
    | |- preserves _ (get_state ≫= _) => apply preserves_get_state; intros ? ?
    | |- preserves _ (_ ≫= _) => apply preserves_bind; [|intros ?]
    | |- preserves _ (if ?b then _ else _) => destruct b
    | |- preserves _ (match ?x with _ => _ end) => destruct x
    end.

(** ** Return values *)

Lemma bind_returns_inv {S A B} (m : M S A) (k : A -> M S B) s r s' :
  (m ≫= k) s = Returns r s' ->
  exists a s1, m s = Returns a s1 /\ k a s1 = Returns r s'.
Proof. rewrite bind_eq. destruct (m s); [eauto | discriminate | discriminate]. Qed.

Lemma returns_in_ret {A} (v : A) (P : A -> Prop) : P v -> returns_in (mret v) P.
Proof. intros Hv s r s' H. injection H as <- _. exact Hv. Qed.

Lemma returns_in_raise {A} f (P : A -> Prop) : returns_in (raise f) P.
Proof. intros s r s' H. discriminate. Qed.

Lemma returns_in_bind {A B} (m : R A) (k : A -> R B) (P : B -> Prop) :
  (forall a, returns_in (k a) P) -> returns_in (m ≫= k) P.
Proof.
  intros Hk s r s' H. apply bind_returns_inv in H as (a & s1 & _ & H). eapply Hk, H.
Qed.

Lemma returns_in_returned {A} (m : R A) (P : A -> Prop) s r :
  returns_in m P -> returned (m s) = Some r -> P r.
Proof.
  intros Hm H. destruct (m s) as [a s'| |] eqn:E; try discriminate.
  injection H as <-. eapply Hm, E.
Qed.

(** Walk a function body down to its return statements. *)
Ltac returns_walk :=
  cbv zeta;
  repeat lazymatch goal with
    | |- returns_in (mret _) _ => apply returns_in_ret
    | |- returns_in (raise _) _ => apply returns_in_raise
    | |- returns_in (_ ≫= _) _ => apply returns_in_bind; intros ?
    | |- returns_in (if ?b then _ else _) _ => destruct b
    | |- returns_in (match ?x with _ => _ end) _ => destruct x
    end.

(** ** Task handles *)

(** A task id that rtapi_task_new returns names a slot that carries
    TASK_MAGIC. *)
Lemma rtapi_task_new_valid h ma taskcode arg prio owner stacksize uses_fp name cpu_id
    (s : rtapi_state) n s1 :
  wf_state s ->
  rtapi_task_new h ma taskcode arg prio owner stacksize uses_fp name cpu_id s
    = Returns n s1 ->
  0 <= n ->
  task_valid n s1.
Proof.
  intros [Hlen _] Hrun Hn. unfold rtapi_task_new in Hrun. cbv zeta in Hrun.
  apply bind_returns_inv in Hrun as (stackaddr & sa & Hmalloc & Hrun).
  assert (Hsa : task_array sa = task_array s).
  { unfold malloc in Hmalloc. destruct (ma =? NULL); injection Hmalloc as _ <-; reflexivity. }
  destruct (stackaddr =? NULL).
  { apply bind_returns_inv in Hrun as (? & ? & _ & Hrun). injection Hrun as <- _.
    unfold ENOMEM in Hn. lia. }
  apply bind_returns_inv in Hrun as (s0 & sb & Hget & Hrun).
  injection Hget as <- <-.
  apply bind_returns_inv in Hrun as (n0 & sc & Hscan & Hrun).
  destruct (scan_spec task_in_use (task_array sa) MAX_TASKS
              ltac:(rewrite Hsa, Hlen; lia) (S (Z.to_nat MAX_TASKS)) 0)
    as (k & Hk & Hk0 & Hkb & _); try lia.
  rewrite Hk in Hscan. injection Hscan as <- <-.
  destruct (Z.eqb_spec k MAX_TASKS) as [Heq|Hne].
  { apply bind_returns_inv in Hrun as (? & ? & _ & Hrun). injection Hrun as <- _.
    unfold ENOMEM in Hn. lia. }
  apply bind_returns_inv in Hrun as ([] & sd & Hstore & Hrun).
  assert (Hvalid : task_valid k sd).
  { unfold store_task in Hstore. destruct (Z.ltb_spec k 0); [discriminate|].
    destruct (task_array sa !! Z.to_nat k) as [t|] eqn:Ht; [|discriminate].
    injection Hstore as <-. split; [unfold MAX_TASKS in *; lia|].
    exists (set_magic TASK_MAGIC t). split; [|reflexivity].
    cbn [task_array set_task_array]. apply list_lookup_insert_eq.
    eapply lookup_lt_Some. exact Ht. }
  match type of Hrun with
  | ?T sd = _ =>
      assert (HT : preserves (task_valid k) T);
      [| assert (HV : returns_in T (fun r => r = k \/ r < 0)) ]
  end.
  - pres_by ltac:(first
      [ intros; eapply task_valid_frame; [|eassumption]; reflexivity
      | intros; apply task_valid_store; auto
      | intros ? ?; first [assumption | reflexivity] ]).
  - returns_walk; first [left; reflexivity | right; reflexivity].
  - specialize (HT sd Hvalid). rewrite Hrun in HT. cbn [holds_after] in HT.
    destruct (HV _ _ _ Hrun) as [->|Hneg]; [exact HT | lia].
Qed.

(** While the slot carries TASK_MAGIC the task operations take the id. *)
Lemma task_valid_accepted h n (s : rtapi_state) : task_valid n s -> accepted h n s.
Proof.
  intros (Hn & t & Ht & Hm).
  assert (Hmagic : negb (task_magic t =? TASK_MAGIC) = false)
    by (rewrite Hm, Z.eqb_refl; reflexivity).
  repeat split.
  - intros e p. unfold rtapi_task_start. rewrite range_check_in by exact Hn.
    mstep. rewrite (load_task_eq _ _ t) by side. rewrite Hmagic.
    match goal with
    | |- returned (?T s) <> _ =>
        intros Hr; apply (returns_in_returned T (fun r => r <> - EINVAL)) in Hr;
        [congruence|]
    end.
    unfold realtime_thread_init. returns_walk; discriminate.
  - unfold rtapi_task_stop. rewrite range_check_in by exact Hn.
    mstep. rewrite (load_task_eq _ _ t) by side. rewrite Hmagic.
    mstep. rewrite (store_task_eq _ _ _ t) by side. reflexivity.
  - unfold rtapi_task_pause. rewrite range_check_in by exact Hn.
    mstep. rewrite (load_task_eq _ _ t) by side. rewrite Hmagic. reflexivity.
  - unfold rtapi_task_resume. rewrite range_check_in by exact Hn.
    mstep. rewrite (load_task_eq _ _ t) by side. rewrite Hmagic. reflexivity.
  - intros p. unfold rtapi_task_set_period. rewrite range_check_in by exact Hn.
    mstep. rewrite (load_task_eq _ _ t) by side. rewrite Hmagic.
    mstep. rewrite (store_task_eq _ _ _ t) by side. reflexivity.
  - intros join_err. unfold rtapi_task_delete. rewrite range_check_in by exact Hn.
    mstep. rewrite (load_task_eq _ _ t) by side. rewrite Hmagic.
    match goal with
    | |- returned (?T s) <> _ =>
        intros Hr; apply (returns_in_returned T (fun r => r <> - EINVAL)) in Hr;
        [congruence|]
    end.
    returns_walk; discriminate.
Qed.

(** Once the slot does not carry TASK_MAGIC the task operations refuse the
    id. *)
Lemma task_free_rejected h n (s : rtapi_state) t :
  0 <= n < MAX_TASKS ->
  task_array s !! Z.to_nat n = Some t ->
  task_magic t <> TASK_MAGIC ->
  rejected h n s.
Proof.
  intros Hn Ht Hm.
  assert (Hmagic : negb (task_magic t =? TASK_MAGIC) = true)
    by (destruct (Z.eqb_spec (task_magic t) TASK_MAGIC); [contradiction | reflexivity]).
  repeat split; intros;
    unfold rtapi_task_start, rtapi_task_stop, rtapi_task_pause, rtapi_task_resume,
      rtapi_task_set_period, rtapi_task_delete;
    rewrite range_check_in by exact Hn;
    mstep; rewrite (load_task_eq _ _ t) by side; rewrite Hmagic; reflexivity.
Qed.

(** rtapi_task_delete on a valid id returns 0, if it returns, and leaves
    the slot without TASK_MAGIC. *)
Lemma rtapi_task_delete_releases join_err n (s : rtapi_state) r s2 :
  task_valid n s ->
  rtapi_task_delete join_err n s = Returns r s2 ->
  r = 0 /\ exists t, task_array s2 !! Z.to_nat n = Some t /\ task_magic t = 0.
Proof.
  intros (Hn & t & Ht & Hm) Hrun. unfold rtapi_task_delete in Hrun.
  rewrite range_check_in in Hrun by exact Hn.
  apply bind_returns_inv in Hrun as (t' & s' & Hload & Hrun).
  rewrite (load_task_eq _ _ t) in Hload by side. injection Hload as <- <-.
  rewrite Hm, Z.eqb_refl in Hrun. cbn [negb] in Hrun.
  apply bind_returns_inv in Hrun as (? & sa & _ & Hrun).
  apply bind_returns_inv in Hrun as (? & sb & _ & Hrun).
  apply bind_returns_inv in Hrun as (? & sc & _ & Hrun).
  apply bind_returns_inv in Hrun as (? & sd & Hstore & Hrun).
  injection Hrun as Hr Hs2. subst r s2. split; [reflexivity|].
  unfold store_task in Hstore. destruct (Z.ltb_spec n 0); [discriminate|].
  destruct (task_array sc !! Z.to_nat n) as [tc|] eqn:Htc; [|discriminate].
  injection Hstore as Hsd. subst sd. exists (set_magic 0 tc). split; [|reflexivity].
  cbn [task_array set_task_array]. apply list_lookup_insert_eq.
  eapply lookup_lt_Some. exact Htc.
Qed.

(** ** Module handles *)

(** rtapi_exit looks at the range of the handle only. *)
Lemma rtapi_exit_result id (s : rtapi_state) :
  wf_state s ->
  (0 <= id - MODULE_OFFSET < MAX_MODULES ->
     rtapi_exit id s
       = Returns 0
           (set_module_array
              (<[Z.to_nat (id - MODULE_OFFSET) := {| module_magic := 0 |}]> (module_array s))
              s)) /\
  (id - MODULE_OFFSET < 0 \/ MAX_MODULES <= id - MODULE_OFFSET ->
     rtapi_exit id s = Returns (-1) s).
Proof.
  intros [_ Hlen]. unfold rtapi_exit. cbv zeta. split.
  - intros Hid. rewrite range_check_in by exact Hid.
    destruct (lookup_lt_is_Some_2 (module_array s) (Z.to_nat (id - MODULE_OFFSET)))
      as [m Hm]; [rewrite Hlen; lia|].
    mstep. rewrite (store_module_eq _ _ _ m) by side. reflexivity.
  - intros Hid. rewrite range_check_out by exact Hid. reflexivity.
Qed.

Lemma wf_state_set_module_array (s : rtapi_state) ms :
  wf_state s -> length ms = length (module_array s) -> wf_state (set_module_array ms s).
Proof. intros [Ht Hm] Hlen. split; [exact Ht|]. cbn. now rewrite Hlen. Qed.

(** A handle that rtapi_init returns is in the range rtapi_exit takes. *)
Lemma rtapi_init_handle_range modname (s : rtapi_state) hd s1 :
  wf_state s ->
  rtapi_init modname s = Returns hd s1 ->
  0 <= hd ->
  0 <= hd - MODULE_OFFSET < MAX_MODULES /\ wf_state s1.
Proof.
  intros Hwf Hrun Hhd. pose proof Hwf as [_ Hlen]. unfold rtapi_init in Hrun.
  apply bind_returns_inv in Hrun as (s0 & sa & Hget & Hrun). injection Hget as <- <-.
  apply bind_returns_inv in Hrun as (n & sb & Hscan & Hrun).
  destruct (scan_spec module_in_use (module_array s) MAX_MODULES
              ltac:(rewrite Hlen; lia) (S (Z.to_nat MAX_MODULES)) 0)
    as (k & Hk & Hk0 & Hkb & _); try lia.
  rewrite Hk in Hscan. injection Hscan as <- <-.
  destruct (Z.ltb_spec k MAX_MODULES) as [Hlt|Hge].
  - apply bind_returns_inv in Hrun as ([] & sc & Hstore & Hrun).
    injection Hrun as <- <-. split; [lia|].
    unfold store_module in Hstore. destruct (Z.ltb_spec k 0); [discriminate|].
    destruct (module_array s !! Z.to_nat k); [|discriminate].
    injection Hstore as <-. apply wf_state_set_module_array; [exact Hwf|].
    apply length_insert.
  - injection Hrun as <- _. unfold ENOMEM in Hhd. lia.
Qed.

Lemma run_steps_preserves h (Inv : rtapi_state -> Prop) (ok : step -> Prop) :
  (forall c, ok c -> preserves Inv (run h c)) ->
  forall cs s s', Forall ok cs -> Inv s -> run_steps h cs s = Some s' -> Inv s'.
Proof.
  intros Hok. induction cs as [|c cs IH]; intros s s' Hcs Hs Hrun; cbn [run_steps] in Hrun.
  - injection Hrun as <-. exact Hs.
  - apply Forall_cons in Hcs as [Hc Hcs]. specialize (Hok c Hc s Hs).
    destruct (run h c s) as [r s1|s1|f]; cbn [holds_after] in Hok; cbv iota in Hrun;
      [ eapply IH; [exact Hcs | exact Hok | exact Hrun]
      | eapply IH; [exact Hcs | exact Hok | exact Hrun]
      | discriminate ].
Qed.

(** C5, as the claim states it, fails for module handles: the handle that
    rtapi_init returns in the initial state is 32768; rtapi_exit on it
    returns 0, and a second rtapi_exit on the released handle returns 0
    again, not -EINVAL. *)
Lemma rtapi_exit_twice_counterexample :
  returned (rtapi_init (Some "motmod") initial_state) = Some 32768 /\
  (s1 ← state_after (rtapi_init (Some "motmod") initial_state);
   s2 ← state_after (rtapi_exit 32768 s1);
   Some (returned (rtapi_exit 32768 s1), returned (rtapi_exit 32768 s2)))
    = Some (Some 0, Some 0) /\
  0 <> - EINVAL.
Proof. split; [vm_compute; reflexivity|]. split; [vm_compute; reflexivity|discriminate]. Qed.

(** C5, amended. A task id that rtapi_task_new returns is taken by every
    task operation (none answers -EINVAL), and stays so through every
    sequence of steps that does not pass it to rtapi_task_delete; once
    rtapi_task_delete has returned for it (with 0), every task operation
    answers -EINVAL to it. A module handle that rtapi_init returns is taken
    by rtapi_exit, which returns 0; rtapi_exit checks the range of the
    handle only, so a second rtapi_exit on the released handle returns 0 as
    well. On any handle, rtapi_exit returns 0 and clears the magic of the
    slot when the handle is in range, and returns -1, which is not -EINVAL,
    leaving the state as it is, when the handle is out of range; it never
    returns anything but 0 or -1. *)
Theorem handles_accepted_until_release (h : host) (s : rtapi_state) :
  wf_state s ->
  (forall ma taskcode arg prio owner stacksize uses_fp name cpu_id n s1,
     rtapi_task_new h ma taskcode arg prio owner stacksize uses_fp name cpu_id s
       = Returns n s1 ->
     0 <= n ->
     task_valid n s1 /\ accepted h n s1) /\
  (forall n cs s',
     task_valid n s ->
     Forall (fun c => forall join_err, c <> CallTaskDelete join_err n) cs ->
     run_steps h cs s = Some s' ->
     task_valid n s' /\ accepted h n s') /\
  (forall n join_err r s2,
     task_valid n s ->
     rtapi_task_delete join_err n s = Returns r s2 ->
     r = 0 /\ rejected h n s2) /\
  (forall modname hd s1,
     rtapi_init modname s = Returns hd s1 ->
     0 <= hd ->
     exists s2 s3,
       rtapi_exit hd s1 = Returns 0 s2 /\ rtapi_exit hd s2 = Returns 0 s3) /\
  (forall hd,
     0 <= hd - MODULE_OFFSET < MAX_MODULES ->
     rtapi_exit hd s
       = Returns 0
           (set_module_array
              (<[Z.to_nat (hd - MODULE_OFFSET) := {| module_magic := 0 |}]> (module_array s))
              s)) /\
  (forall hd,
     hd - MODULE_OFFSET < 0 \/ MAX_MODULES <= hd - MODULE_OFFSET ->
     rtapi_exit hd s = Returns (-1) s /\ -1 <> - EINVAL) /\
  (forall hd r s', rtapi_exit hd s = Returns r s' -> r = 0 \/ r = -1).
Proof.
  intros Hwf. split; [|split; [|split; [|split; [|split; [|split]]]]].
  - intros ma taskcode arg prio owner stacksize uses_fp name cpu_id n s1 Hnew Hn.
    assert (Hv : task_valid n s1) by (eapply rtapi_task_new_valid; eassumption).
    split; [exact Hv | apply task_valid_accepted, Hv].
  - intros n cs s' Hv Hcs Hrun.
    assert (Hv' : task_valid n s').
    { eapply (run_steps_preserves h (task_valid n)); [|exact Hcs|exact Hv|exact Hrun].
      intros c Hc. apply run_preserves_task_valid, Hc. }
    split; [exact Hv' | apply task_valid_accepted, Hv'].
  - intros n join_err r s2 Hv Hdel.
    destruct (rtapi_task_delete_releases _ _ _ _ _ Hv Hdel) as (-> & t & Ht & Hm).
    split; [reflexivity|]. destruct Hv as [Hn _].
    apply (task_free_rejected h n s2 t Hn Ht). rewrite Hm. discriminate.
  - intros modname hd s1 Hinit Hhd.
    destruct (rtapi_init_handle_range _ _ _ _ Hwf Hinit Hhd) as [Hrange Hwf1].
    destruct (rtapi_exit_result hd s1 Hwf1) as [Hin _].
    eexists. eexists. split; [apply Hin, Hrange|].
    apply rtapi_exit_result; [|exact Hrange].
    apply wf_state_set_module_array; [exact Hwf1 | apply length_insert].
  - intros hd Hid. apply rtapi_exit_result; assumption.
  - intros hd Hid. split; [apply rtapi_exit_result; assumption | discriminate].
  - intros hd r s' Hexit.
    destruct (rtapi_exit_result hd s Hwf) as [Hin Hout].
    destruct (Z.lt_ge_cases (hd - MODULE_OFFSET) 0) as [Hlt|Hge].
    + rewrite Hout in Hexit by (left; exact Hlt). injection Hexit as <- _. now right.
    + destruct (Z.lt_ge_cases (hd - MODULE_OFFSET) MAX_MODULES) as [Hlt|Hge'].
      * rewrite Hin in Hexit by lia. injection Hexit as <- _. now left.
      * rewrite Hout in Hexit by (right; exact Hge'). injection Hexit as <- _. now right.
Qed.

Lemma handles_accepted_until_release_witness :
  returns_with
    (rtapi_task_new example_host 4096 7 0 50 32768 16384 0 "servo" (-1) initial_state)
    (fun n s1 => n = 0 /\ task_valid n s1 /\ accepted example_host n s1) /\
  match run_steps example_host [CallTaskStop 0; CallTaskSetPeriod 0 2000000] linux_waiting
  with
  | Some s' => task_valid 0 s' /\ accepted example_host 0 s'
  | None => False
  end /\
  returns_with (rtapi_task_delete 0 0 linux_waiting)
    (fun r s2 => r = 0 /\ rejected example_host 0 s2) /\
  returns_with (rtapi_init None initial_state)
    (fun hd s1 =>
       hd = 32768 /\
       exists s2 s3, rtapi_exit hd s1 = Returns 0 s2 /\ rtapi_exit hd s2 = Returns 0 s3) /\
  rtapi_exit 32770 linux_waiting
    = Returns 0
        (set_module_array
           (<[Z.to_nat (32770 - MODULE_OFFSET) := {| module_magic := 0 |}]>
              (module_array linux_waiting))
           linux_waiting) /\
  (rtapi_exit 5 initial_state = Returns (-1) initial_state /\ -1 <> - EINVAL) /\
  (rtapi_exit 32832 initial_state = Returns (-1) initial_state /\ -1 <> - EINVAL) /\
  returns_with (rtapi_exit 5 initial_state) (fun r _ => r = 0 \/ r = -1).
Proof.
  assert (Hwf0 : wf_state initial_state) by (split; reflexivity).
  assert (Hwf1 : wf_state linux_waiting) by (split; reflexivity).
  assert (Hv : task_valid 0 linux_waiting).
  { split; [unfold MAX_TASKS; lia|]. eexists. split; reflexivity. }
  pose proof (handles_accepted_until_release example_host initial_state Hwf0)
    as (Hnew & _ & _ & Hinit & _ & Hout & Hexit).
  pose proof (handles_accepted_until_release example_host linux_waiting Hwf1)
    as (_ & Hsteps & Hdel & _ & Hin & _ & _).
  split; [|split; [|split; [|split; [|split; [|split; [|split]]]]]].
  - assert (E : returned
                  (rtapi_task_new example_host 4096 7 0 50 32768 16384 0 "servo" (-1)
                     initial_state) = Some 0) by (vm_compute; reflexivity).
    destruct (rtapi_task_new example_host 4096 7 0 50 32768 16384 0 "servo" (-1)
                initial_state) as [n s1| |] eqn:Hrun; try discriminate.
    injection E as ->. cbn [returns_with]. split; [reflexivity|].
    eapply Hnew; [exact Hrun | lia].
  - assert (E : is_Some
                  (run_steps example_host [CallTaskStop 0; CallTaskSetPeriod 0 2000000]
                     linux_waiting)) by (vm_compute; eauto).
    destruct (run_steps example_host [CallTaskStop 0; CallTaskSetPeriod 0 2000000]
                linux_waiting) as [s'|] eqn:Hrun; [|destruct E; discriminate].
    eapply (Hsteps 0 [CallTaskStop 0; CallTaskSetPeriod 0 2000000]);
      [exact Hv | repeat constructor; discriminate | exact Hrun].
  - assert (E : returned (rtapi_task_delete 0 0 linux_waiting) = Some 0)
      by (vm_compute; reflexivity).
    destruct (rtapi_task_delete 0 0 linux_waiting) as [r s2| |] eqn:Hrun; try discriminate.
    injection E as ->. cbn [returns_with].
    eapply (Hdel 0 0); [exact Hv | exact Hrun].
  - assert (E : returned (rtapi_init None initial_state) = Some 32768)
      by (vm_compute; reflexivity).
    destruct (rtapi_init None initial_state) as [hd s1| |] eqn:Hrun; try discriminate.
    injection E as ->. cbn [returns_with]. split; [reflexivity|].
    eapply Hinit; [exact Hrun | lia].
  - apply (Hin 32770). unfold MODULE_OFFSET, MAX_MODULES. lia.
  - apply (Hout 5). left. unfold MODULE_OFFSET. lia.
  - apply (Hout 32832). right. unfold MODULE_OFFSET, MAX_MODULES. lia.
  - destruct (rtapi_exit 5 initial_state) as [r s'| |] eqn:Hrun;
      [|vm_compute in Hrun; discriminate|vm_compute in Hrun; discriminate].
    cbn [returns_with]. eapply Hexit. exact Hrun.
Defined.

(** The error exit of rtapi_task_new for a priority out of range, on any
    state with a free slot: the stack goes back to the allocator, the first
    free slot [j] is left carrying TASK_MAGIC. *)
Lemma rtapi_task_new_bad_priority h ma taskcode arg prio owner stacksize uses_fp name cpu_id
    (s : rtapi_state) j t :
  wf_state s ->
  ma <> NULL -> ma ∉ heap s ->
  0 <= j < MAX_TASKS ->
  (forall i b, 0 <= i < j -> task_array s !! Z.to_nat i = Some b ->
               task_magic b = TASK_MAGIC) ->
  task_array s !! Z.to_nat j = Some t ->
  task_magic t <> TASK_MAGIC ->
  prio < rtapi_prio_lowest h \/ rtapi_prio_highest h < prio ->
  returns_with
    (rtapi_task_new h ma taskcode arg prio owner stacksize uses_fp name cpu_id s)
    (fun r s' =>
       r = - EINVAL /\
       heap s' = heap s /\
       task_array s' = <[Z.to_nat j := set_magic TASK_MAGIC t]> (task_array s)).
Proof.
  intros [Hlen _] Hma Hfresh Hj Hbelow Ht Hfree Hprio.
  unfold rtapi_task_new. cbv zeta. mstep. unfold malloc.
  destruct (Z.eqb_spec ma NULL) as [|_]; [contradiction|]. mstep.
  destruct (Z.eqb_spec ma NULL) as [|_]; [contradiction|]. mstep.
  cbn [get_state]. mstep. cbn [task_array set_heap].
  rewrite (scan_first_free task_in_use (task_array s) MAX_TASKS _ 0 j t);
    try (rewrite ?Hlen; lia); try assumption.
  2: { intros i b Hi Hb. unfold task_in_use. rewrite (Hbelow i b Hi Hb). apply Z.eqb_refl. }
  2: { unfold task_in_use. now apply Z.eqb_neq. }
  cbn [scan_result]. mstep.
  destruct (Z.eqb_spec j MAX_TASKS) as [|_]; [lia|]. mstep.
  rewrite (store_task_eq _ _ _ t) by side. mstep.
  assert (Hbad : (prio <? rtapi_prio_lowest h) || (prio >? rtapi_prio_highest h) = true).
  { destruct (Z.ltb_spec prio (rtapi_prio_lowest h)); [reflexivity|].
    destruct (Z.gtb_spec prio (rtapi_prio_highest h)); [reflexivity|lia]. }
  rewrite Hbad. mstep. unfold rtapi_print_msg at 1. rewrite emit_eq. mstep.
  unfold free. destruct (Z.eqb_spec ma NULL) as [|_]; [contradiction|].
  cbn [heap set_log set_task_array set_heap].
  destruct (decide (ma ∈ {[ma]} ∪ heap s)) as [_|Hnot].
  2: { exfalso. apply Hnot, elem_of_union. left. now apply elem_of_singleton. }
  mstep. cbn [returns_with]. split; [reflexivity|]. split; [|reflexivity].
  cbn [heap set_heap]. apply set_eq. intros x.
  rewrite elem_of_difference, elem_of_union, elem_of_singleton. split.
  - intros [[->|Hx] Hne]; [contradiction | exact Hx].
  - intros Hx. split; [right; exact Hx | intros ->; contradiction].
Qed.

(** rtapi_task_set_period stores the period it is given, whatever the
    clock period is. *)
Lemma rtapi_task_set_period_stores n p (s : rtapi_state) t :
  0 <= n < MAX_TASKS ->
  task_array s !! Z.to_nat n = Some t ->
  task_magic t = TASK_MAGIC ->
  rtapi_task_set_period n p s
    = Returns 0 (set_task_array (<[Z.to_nat n := set_period (to_int p) t]> (task_array s)) s).
Proof.
  intros Hn Ht Hm. unfold rtapi_task_set_period. rewrite range_check_in by exact Hn.
  mstep. rewrite (load_task_eq _ _ t) by side. rewrite Hm, Z.eqb_refl. cbn [negb].
  mstep. rewrite (store_task_eq _ _ _ t) by side. reflexivity.
Qed.

(** rtapi_task_delete on a valid slot whose [deleted] flag is 0 calls
    pthread_join on the slot's thread field, started or not. *)
Lemma rtapi_task_delete_joins join_err n (s : rtapi_state) t :
  0 <= n < MAX_TASKS ->
  task_array s !! Z.to_nat n = Some t ->
  task_magic t = TASK_MAGIC ->
  task_deleted t = 0 ->
  task_stackaddr t = NULL \/ task_stackaddr t ∈ heap s ->
  returns_with (rtapi_task_delete join_err n s) (fun r s' =>
    r = 0 /\ Join (task_thread t) ∈ log s').
Proof.
  intros Hn Ht Hm Hdel Hstack. unfold rtapi_task_delete.
  rewrite range_check_in by exact Hn.
  mstep. rewrite (load_task_eq _ _ t) by side. rewrite Hm, Z.eqb_refl. cbn [negb].
  rewrite Hdel. cbn [Z.eqb]. mstep.
  rewrite (store_task_eq _ _ _ t) by side. mstep.
  unfold pthread_join. mstep. rewrite emit_eq. mstep.
  set (s1 := set_log _ _).
  assert (Hjoin : Join (task_thread t) ∈ log s1) by (subst s1; apply list_elem_of_here).
  assert (Hheap : heap s1 = heap s) by reflexivity.
  assert (Ht1 : task_array s1 !! Z.to_nat n = Some (set_deleted 1 t)).
  { subst s1. cbn [task_array set_log set_task_array]. apply list_lookup_insert_eq.
    eapply lookup_lt_Some. exact Ht. }
  assert (Htail : forall s2 : rtapi_state,
            Join (task_thread t) ∈ log s2 -> heap s2 = heap s ->
            task_array s2 !! Z.to_nat n = Some (set_deleted 1 t) ->
            returns_with
              ((free (task_stackaddr t) ≫= fun _ =>
                store_task n (set_stackaddr NULL) ≫= fun _ =>
                store_task n (set_magic 0) ≫= fun _ => mret 0) s2)
              (fun r s' => r = 0 /\ Join (task_thread t) ∈ log s')).
  { intros s2 Hlog Hh Ht2. mstep.
    assert (Hfree : exists s3, free (task_stackaddr t) s2 = Returns tt s3 /\
                      log s3 = log s2 /\ task_array s3 = task_array s2).
    { unfold free. destruct (Z.eqb_spec (task_stackaddr t) NULL) as [He|Hne].
      - eexists. split; [reflexivity|]. split; reflexivity.
      - destruct Hstack as [He|Hin]; [contradiction|].
        destruct (decide (task_stackaddr t ∈ heap s2)) as [_|Hnot];
          [|rewrite Hh in Hnot; contradiction].
        eexists. split; [reflexivity|]. split; reflexivity. }
    destruct Hfree as (s3 & -> & Hlog3 & Harr3). mstep.
    rewrite (store_task_eq _ _ _ (set_deleted 1 t)) by (first [rewrite Harr3; exact Ht2 | lia]).
    mstep. erewrite store_task_eq; [|lia|].
    2: { cbn [task_array set_task_array]. apply list_lookup_insert_eq.
         rewrite Harr3. eapply lookup_lt_Some. exact Ht2. }
    mstep. cbn [returns_with]. split; [reflexivity|].
    cbn [log set_task_array]. rewrite Hlog3. exact Hlog. }
  destruct (negb (join_err =? 0)); mstep.
  - unfold rtapi_print_msg at 1. rewrite emit_eq. mstep.
    apply Htail; [apply list_elem_of_further, Hjoin | reflexivity | exact Ht1].
  - apply Htail; [exact Hjoin | exact Hheap | exact Ht1].
Qed.

(** ** What rtapi_task_new leaves alone *)

Section Frame.

Variable Rel : rtapi_state -> rtapi_state -> Prop.
Hypothesis Rel_refl : forall s, Rel s s.
Hypothesis Rel_trans : forall s1 s2 s3, Rel s1 s2 -> Rel s2 s3 -> Rel s1 s3.

Lemma relates_ret {A} (a : A) : relates Rel (mret a).
Proof. intros s r s' H. injection H as _ <-. apply Rel_refl. Qed.

Lemma relates_raise {A} f : relates Rel (raise f : R A).
Proof. intros s r s' H. discriminate. Qed.

Lemma relates_bind {A B} (m : R A) (k : A -> R B) :
  relates Rel m -> (forall a, relates Rel (k a)) -> relates Rel (m ≫= k).
Proof.
  intros Hm Hk s r s' H. apply bind_returns_inv in H as (a & s1 & H1 & H2).
  eapply Rel_trans; [eapply Hm, H1 | eapply Hk, H2].
Qed.

Lemma relates_get_state : relates Rel get_state.
Proof. intros s r s' H. injection H as _ <-. apply Rel_refl. Qed.

Lemma relates_scan_result r : relates Rel (scan_result r).
Proof. destruct r; [apply relates_ret | apply relates_raise]. Qed.

End Frame.

Lemma relates_deleted_flags_store n f :
  (forall t, task_deleted (f t) = task_deleted t) ->
  relates (fun s s' => deleted_flags s' = deleted_flags s) (store_task n f).
Proof.
  intros Hf s r s' H. unfold store_task in H. destruct (n <? 0); [discriminate|].
  destruct (task_array s !! Z.to_nat n) as [t|] eqn:Ht; [|discriminate].
  injection H as _ <-. unfold deleted_flags. cbn [task_array set_task_array].
  rewrite list_fmap_insert, Hf. apply list_insert_id.
  rewrite list_lookup_fmap, Ht. reflexivity.
Qed.

Lemma relates_deleted_flags_frame {A} (m : R A) :
  (forall s r s', m s = Returns r s' -> task_array s' = task_array s) ->
  relates (fun s s' => deleted_flags s' = deleted_flags s) m.
Proof. intros Hm s r s' H. unfold deleted_flags. now rewrite (Hm s r s' H). Qed.

(** rtapi_task_new writes no [deleted] flag: each slot's flag is after the
    call what it was before, also in the slot the call hands out. *)
Lemma rtapi_task_new_leaves_deleted h ma taskcode arg prio owner stacksize uses_fp name
    cpu_id :
  relates (fun s s' => deleted_flags s' = deleted_flags s)
    (rtapi_task_new h ma taskcode arg prio owner stacksize uses_fp name cpu_id).
Proof.
  unfold rtapi_task_new. cbv zeta.
  repeat lazymatch goal with
    | |- relates _ (mret _) => apply relates_ret; reflexivity
    | |- relates _ (scan_result _) =>
        apply relates_scan_result; reflexivity
    | |- relates _ get_state =>
        apply relates_get_state; reflexivity
    | |- relates _ (store_task _ _) => apply relates_deleted_flags_store; reflexivity
    | |- relates _ (rtapi_print_msg _ _) =>
        apply relates_deleted_flags_frame; intros ? ? ? H; injection H as _ <-; reflexivity
    | |- relates _ (malloc _ _) =>
        apply relates_deleted_flags_frame; intros ? ? ? H; unfold malloc in H;
        destruct (_ =? NULL); injection H as _ <-; reflexivity
    | |- relates _ (free _) =>
        apply relates_deleted_flags_frame; intros ? ? ? H; unfold free in H;
        destruct (_ =? NULL); [injection H as _ <-; reflexivity|];
        destruct (decide _); [injection H as _ <-; reflexivity | discriminate]
    | |- relates _ (_ ≫= _) =>
        apply relates_bind; [intros ? ? ? -> ->; reflexivity | | intros ?]
    | |- relates _ (if ?b then _ else _) => destruct b
    end.
Qed.

(** ** Task admission and teardown *)

(** C1. With SCHED_FIFO priorities 1..99, rtapi_task_new with priority 0 on
    the initial state returns -EINVAL and frees the stack, but slot 0 keeps
    TASK_MAGIC: the error exit does not release the slot reserved before
    the priority check, and the next rtapi_task_new, with a valid priority,
    gets slot 1. *)
Theorem rtapi_task_new_bad_priority_keeps_slot :
  let bad :=
    rtapi_task_new example_host 4096 7 0 0 32768 16384 0 "servo" (-1) initial_state in
  returned bad = Some (- EINVAL) /\
  (heap <$> state_after bad) = Some (heap initial_state) /\
  (task_magic <$> task_array initial_state !! 0%nat) = Some 0 /\
  (s1 ← state_after bad; task_magic <$> task_array s1 !! 0%nat) = Some TASK_MAGIC /\
  (s1 ← state_after bad;
   returned (rtapi_task_new example_host 8192 7 0 50 32768 16384 0 "servo" (-1) s1))
    = Some 1.
Proof. cbv zeta. repeat split; vm_compute; reflexivity. Qed.

(** C4. A task created on the initial state and never started is deleted
    with return value 0, its stack freed and its slot cleared, but
    rtapi_task_delete does call pthread_join, on the thread field that no
    pthread_create has written: rtapi_task_new leaves [deleted] at 0, which
    rtapi_task_delete reads as a thread still to be joined. *)
Theorem rtapi_task_delete_joins_unstarted_task :
  let created :=
    rtapi_task_new example_host 4096 7 0 50 32768 16384 0 "servo" (-1) initial_state in
  returned created = Some 0 /\
  (s1 ← state_after created; t ← task_array s1 !! 0%nat;
   Some (task_deleted t, task_thread t, log s1))
    = Some (0, 0, [Msg RTAPI_MSG_DBG "Creating new task"]) /\
  (s1 ← state_after created; Some (returned (rtapi_task_delete 0 0 s1))) = Some (Some 0) /\
  (s1 ← state_after created; s2 ← state_after (rtapi_task_delete 0 0 s1);
   t ← task_array s2 !! 0%nat;
   Some (log s2, task_magic t, task_stackaddr t, heap s2))
    = Some ([Join 0; Msg RTAPI_MSG_DBG "Creating new task"], 0, NULL, ∅).
Proof. cbv zeta. repeat split; vm_compute; reflexivity. Qed.

(** In a slot that has been used and deleted before, [deleted] is left at
    1: a second task created there and never started is deleted without a
    join. *)
Lemma rtapi_task_delete_reused_slot_skips_join :
  (s ← run_steps example_host
         [ CallTaskNew 4096 7 0 50 32768 16384 0 "servo" (-1);
           CallTaskDelete 0 0;
           CallTaskNew 8192 7 0 50 32768 16384 0 "servo" (-1);
           CallTaskDelete 0 0 ]
         initial_state;
   Some (List.filter (fun e => match e with Join _ => true | _ => false end) (log s)))
    = Some [Join 0].
Proof. vm_compute. reflexivity. Qed.

(** C3. With a clock tick of 1000000 ns, rtapi_task_start called with
    500000 stores the clamped period 1000000 (ratio 1), whereas
    rtapi_task_set_period called with 500000 on the same task returns 0 and
    stores 500000, below the tick: it writes the period without the clamp
    that rtapi_task_start and realtime_thread apply. *)
Theorem rtapi_task_set_period_stores_below_tick :
  (s ← linux_started; t ← task_array s !! 0%nat;
   Some (period s, task_magic t, task_period t, task_ratio t))
    = Some (1000000, TASK_MAGIC, 1000000, 1) /\
  (s ← linux_started; Some (returned (rtapi_task_set_period 0 500000 s))) = Some (Some 0) /\
  (s ← linux_started; s' ← state_after (rtapi_task_set_period 0 500000 s);
   t ← task_array s' !! 0%nat;
   Some (period s', task_magic t, task_period t))
    = Some (1000000, TASK_MAGIC, 500000) /\
  500000 < 1000000.
Proof. repeat split; vm_compute; reflexivity. Qed.

(** ** Threads without a bound task *)

(** C10. On a thread to which no task is bound (the thread-specific value
    of [task_key] is the null pointer), rtapi_wait and _rtapi_wait_hook
    read through that null pointer: neither returns, and neither reports an
    error. In linux_rtapi.c that is the case of every thread that no
    rtapi_task_start has created, after any sequence of steps from the
    initial state. *)
Theorem wait_on_unbound_thread_dereferences_null :
  (forall (s : rtapi_state) self now minflt majflt,
     task_key s !! self = None ->
     rtapi_wait self now minflt majflt s = Faults NullPointerDereference) /\
  (forall h cs (s : rtapi_state) self now minflt majflt,
     Forall (fun c => forall e task_id period_nsec,
               c = CallTaskStart e task_id period_nsec -> created_thread e <> self) cs ->
     run_steps h cs initial_state = Some s ->
     rtapi_wait self now minflt majflt s = Faults NullPointerDereference) /\
  (forall h (s : RtPreempt.rtapi_state) self now ru,
     RtPreempt.task_key s !! self = None ->
     RtPreempt._rtapi_wait_hook h self now ru s = Faults NullPointerDereference).
Proof.
  assert (Hlinux : forall (s : rtapi_state) self now minflt majflt,
            task_key s !! self = None ->
            rtapi_wait self now minflt majflt s = Faults NullPointerDereference).
  { intros s self now minflt majflt H. unfold rtapi_wait. mstep.
    unfold rtapi_this_task. rewrite H. reflexivity. }
  split; [exact Hlinux|]. split.
  - intros h cs s self now minflt majflt Hcs Hrun. apply Hlinux.
    refine (run_steps_preserves h (fun s0 => task_key s0 !! self = None) _ _
              cs initial_state s Hcs _ Hrun).
    + intros c Hc. apply run_preserves_unbound, Hc.
    + apply lookup_empty.
  - intros h s self now ru H. unfold RtPreempt._rtapi_wait_hook. mstep.
    unfold RtPreempt.rtapi_this_task. rewrite H. reflexivity.
Qed.

Lemma wait_on_unbound_thread_dereferences_null_witness :
  rtapi_wait 7 {| tv_sec := 1; tv_nsec := 0 |} 0 0 initial_state
    = Faults NullPointerDereference /\
  match run_steps example_host linux_start_steps initial_state with
  | Some s =>
      rtapi_wait 7 {| tv_sec := 1; tv_nsec := 0 |} 0 0 s = Faults NullPointerDereference
  | None => False
  end /\
  RtPreempt._rtapi_wait_hook example_host 7 {| tv_sec := 1; tv_nsec := 0 |} (inr 0)
    (RtPreempt.initial_state example_host) = Faults NullPointerDereference.
Proof.
  pose proof wait_on_unbound_thread_dereferences_null as (Hlinux & Hsteps & Hpreempt).
  split; [|split].
  - apply Hlinux. reflexivity.
  - assert (E : is_Some (run_steps example_host linux_start_steps initial_state))
      by (vm_compute; eauto).
    destruct (run_steps example_host linux_start_steps initial_state) as [s|] eqn:Hrun;
      [|destruct E; discriminate].
    refine (Hsteps example_host linux_start_steps s 7 _ 0 0 _ Hrun).
    unfold linux_start_steps.
    apply List.Forall_cons; [intros e task_id period_nsec H; discriminate|].
    apply List.Forall_cons; [intros e task_id period_nsec H; discriminate|].
    apply List.Forall_cons; [|apply List.Forall_nil].
    intros e task_id period_nsec H. injection H as <- _ _.
    unfold example_start_env. cbn [created_thread]. lia.
  - apply Hpreempt. reflexivity.
Defined.

(** ** A remark on rt-preempt.c

    _rtapi_init hands out slots 1..RTAPI_MAX_MODULES, whereas _rtapi_exit
    takes slots 0..RTAPI_MAX_MODULES-1: the handle of the last slot is
    turned down with -1. *)
Lemma _rtapi_exit_refuses_last_slot h (s : RtPreempt.rtapi_state) :
  RtPreempt._rtapi_exit h (RTAPI_MAX_MODULES h + MODULE_OFFSET) s = Returns (-1) s.
Proof.
  unfold RtPreempt._rtapi_exit. cbv zeta.
  replace (RTAPI_MAX_MODULES h + MODULE_OFFSET - MODULE_OFFSET) with (RTAPI_MAX_MODULES h)
    by lia.
  rewrite range_check_out by (right; lia). reflexivity.
Qed.

(** * Further properties of linux_rtapi.c *)

(** ** Priority helpers *)

(** X1. With a non-empty SCHED_FIFO range, rtapi_prio_next_higher and
    rtapi_prio_next_lower answer every argument, in range or not, with a
    priority inside the range, and move an argument that has room by
    exactly one step. *)
Theorem rtapi_prio_next_in_range h prio :
  rtapi_prio_lowest h <= rtapi_prio_highest h ->
  rtapi_prio_lowest h <= rtapi_prio_next_higher h prio <= rtapi_prio_highest h /\
  rtapi_prio_lowest h <= rtapi_prio_next_lower h prio <= rtapi_prio_highest h /\
  (rtapi_prio_lowest h <= prio < rtapi_prio_highest h ->
     rtapi_prio_next_higher h prio = prio + 1) /\
  (rtapi_prio_lowest h < prio <= rtapi_prio_highest h ->
     rtapi_prio_next_lower h prio = prio - 1).
Proof.
  intros Hrange. unfold rtapi_prio_next_higher, rtapi_prio_next_lower.
  destruct (Z.geb_spec prio (rtapi_prio_highest h));
    destruct (Z.ltb_spec prio (rtapi_prio_lowest h));
    destruct (Z.leb_spec prio (rtapi_prio_lowest h));
    destruct (Z.gtb_spec prio (rtapi_prio_highest h));
    repeat split; intros; lia.
Qed.

Lemma rtapi_prio_next_in_range_witness :
  1 <= rtapi_prio_next_higher example_host 120 <= 99 /\
  1 <= rtapi_prio_next_lower example_host (-3) <= 99 /\
  rtapi_prio_next_higher example_host 50 = 50 + 1 /\
  rtapi_prio_next_lower example_host 50 = 50 - 1.
Proof.
  pose proof (rtapi_prio_next_in_range example_host 120 ltac:(vm_compute; discriminate))
    as (Hup & _ & _ & _).
  pose proof (rtapi_prio_next_in_range example_host (-3) ltac:(vm_compute; discriminate))
    as (_ & Hdown & _ & _).
  pose proof (rtapi_prio_next_in_range example_host 50 ltac:(vm_compute; discriminate))
    as (_ & _ & Hstep_up & Hstep_down).
  split; [exact Hup|]. split; [exact Hdown|].
  split; [apply Hstep_up | apply Hstep_down]; vm_compute; split; discriminate || reflexivity.
Defined.

(** X2. Inside the range the two helpers undo each other, and each is
    at rest at its end of the range. *)
Theorem rtapi_prio_next_round_trip h prio :
  (rtapi_prio_lowest h <= prio < rtapi_prio_highest h ->
     rtapi_prio_next_lower h (rtapi_prio_next_higher h prio) = prio) /\
  (rtapi_prio_lowest h < prio <= rtapi_prio_highest h ->
     rtapi_prio_next_higher h (rtapi_prio_next_lower h prio) = prio) /\
  rtapi_prio_next_higher h (rtapi_prio_highest h) = rtapi_prio_highest h /\
  rtapi_prio_next_lower h (rtapi_prio_lowest h) = rtapi_prio_lowest h.
Proof.
  unfold rtapi_prio_next_higher, rtapi_prio_next_lower.
  split; [|split; [|split]].
  - intros Hp.
    destruct (Z.geb_spec prio (rtapi_prio_highest h)); [lia|].
    destruct (Z.ltb_spec prio (rtapi_prio_lowest h)); [lia|].
    destruct (Z.leb_spec (prio + 1) (rtapi_prio_lowest h)); [lia|].
    destruct (Z.gtb_spec (prio + 1) (rtapi_prio_highest h)); lia.
  - intros Hp.
    destruct (Z.leb_spec prio (rtapi_prio_lowest h)); [lia|].
    destruct (Z.gtb_spec prio (rtapi_prio_highest h)); [lia|].
    destruct (Z.geb_spec (prio - 1) (rtapi_prio_highest h)); [lia|].
    destruct (Z.ltb_spec (prio - 1) (rtapi_prio_lowest h)); lia.
  - destruct (Z.geb_spec (rtapi_prio_highest h) (rtapi_prio_highest h)); [reflexivity|lia].
  - destruct (Z.leb_spec (rtapi_prio_lowest h) (rtapi_prio_lowest h)); [reflexivity|lia].
Qed.

Lemma rtapi_prio_next_round_trip_witness :
  rtapi_prio_next_lower example_host (rtapi_prio_next_higher example_host 1) = 1 /\
  rtapi_prio_next_higher example_host (rtapi_prio_next_lower example_host 99) = 99.
Proof.
  pose proof (rtapi_prio_next_round_trip example_host 1) as (Hup & _).
  pose proof (rtapi_prio_next_round_trip example_host 99) as (_ & Hdown & _).
  split; [apply Hup | apply Hdown]; vm_compute; split; discriminate || reflexivity.
Defined.

(** ** The next wake-up over many cycles *)

Lemma advance_time_value_sec tv ns :
  0 <= tv_sec tv < 4611686018427387904 ->
  0 <= tv_nsec tv <= 1000000000 ->
  0 <= ns < 4611686018427387904 ->
  exists tv', advance_time tv ns 0 = Some tv' /\
    timespec_ns tv' = timespec_ns tv + ns /\
    0 <= tv_nsec tv' <= 1000000000 /\
    tv_sec tv <= tv_sec tv'.
Proof.
  intros Hsec Hnsec Hns.
  destruct (advance_time_value tv ns Hsec Hnsec Hns) as (tv' & Heq & Hval & Hr & Hfull).
  exists tv'. split; [exact Heq|]. split; [exact Hval|]. split; [exact Hr|].
  unfold timespec_ns in Hval.
  destruct (Z.eq_dec (tv_nsec tv') 1000000000) as [Hone|Hless].
  - apply Hfull in Hone as [Hpos _]. lia.
  - lia.
Qed.

(** X3. Over [k] wait cycles with a constant period, on a timespec in the
    range the clock gives and as long as the nanosecond count stays below
    2^62, next_time denotes exactly the start value plus [k] periods, and
    its nanosecond field stays within 0..1000000000. *)
Theorem advance_cycles_value k : forall tv period,
  0 <= tv_sec tv ->
  0 <= tv_nsec tv <= 1000000000 ->
  0 <= period ->
  timespec_ns tv + Z.of_nat k * period < 4611686018427387904 ->
  exists tv', advance_cycles k tv period = Some tv' /\
    timespec_ns tv' = timespec_ns tv + Z.of_nat k * period /\
    0 <= tv_nsec tv' <= 1000000000.
Proof.
  induction k as [|k IH]; intros tv period Hsec Hnsec Hp Hbound.
  - exists tv. split; [reflexivity|]. split; [lia | exact Hnsec].
  - cbn [advance_cycles].
    assert (Hv : 0 <= timespec_ns tv) by (unfold timespec_ns; lia).
    assert (Hkp : 0 <= Z.of_nat k * period) by nia.
    destruct (advance_time_value_sec tv period) as (tv1 & Heq & Hval & Hr & Hmono);
      [unfold timespec_ns in *; lia | exact Hnsec | nia |].
    rewrite Heq.
    destruct (IH tv1 period) as (tv' & Hk & Hval' & Hr'); [lia | exact Hr | exact Hp | nia |].
    exists tv'. split; [exact Hk|]. split; [nia | exact Hr'].
Qed.

Lemma advance_cycles_value_witness :
  exists tv',
    advance_cycles 3 {| tv_sec := 10; tv_nsec := 999000000 |} 1000000 = Some tv' /\
    timespec_ns tv' = timespec_ns {| tv_sec := 10; tv_nsec := 999000000 |} + 3 * 1000000 /\
    0 <= tv_nsec tv' <= 1000000000.
Proof.
  apply (advance_cycles_value 3 {| tv_sec := 10; tv_nsec := 999000000 |} 1000000);
    unfold timespec_ns; cbn; lia.
Defined.

(** ** Page-fault accounting *)

(** After rtapi_reset_pagefault_count the baselines of the task are the
    sample it was given, as unsigned long. *)
Lemma rtapi_reset_pagefault_count_sets n minflt majflt (s : rtapi_state) t :
  0 <= n -> task_array s !! Z.to_nat n = Some t ->
  returns_with (rtapi_reset_pagefault_count n minflt majflt s) (fun _ s' =>
    exists t',
      task_array s' !! Z.to_nat n = Some t' /\
      task_minfault_base t' = to_ulong minflt /\
      task_majfault_base t' = to_ulong majflt /\
      (log s' = log s \/ log s' = Msg RTAPI_MSG_DBG "Reset pagefault counter" :: log s)).
Proof.
  intros Hn Ht. unfold rtapi_reset_pagefault_count. mstep.
  rewrite (load_task_eq _ _ t) by side.
  destruct (Z.eqb_spec (task_minfault_base t) (to_ulong minflt)) as [Hmin|Hmin];
    destruct (Z.eqb_spec (task_majfault_base t) (to_ulong majflt)) as [Hmaj|Hmaj];
    cbn [negb orb].
  1: { cbn [returns_with]. exists t. repeat split; auto. }
  all: mstep; rewrite (store_task_eq _ _ _ t) by side; mstep;
    erewrite store_task_eq;
      [| lia | cbn [task_array set_task_array]; apply list_lookup_insert_eq;
               eapply lookup_lt_Some; exact Ht ];
    mstep; cbn [returns_with rtapi_print_msg emit];
    eexists; (split;
      [ cbn [task_array set_log set_task_array]; apply list_lookup_insert_eq;
        rewrite length_insert; eapply lookup_lt_Some; exact Ht |]);
    (split; [reflexivity|]); (split; [reflexivity|]); right; reflexivity.
Qed.

(** X4. Page-fault counts are taken against the baseline of the last
    reset. The samples are the ru_minflt and ru_majflt of getrusage, which
    the code converts to unsigned long. After rtapi_reset_pagefault_count
    with one sample, rtapi_get_pagefault_count with a later sample (both
    within 0..LONG_MAX) returns the growth of the minor count plus the
    growth of the major count, and the only message there can be is the
    debug note of the reset. On any state and any sample,
    rtapi_get_pagefault_count returns 0, prints one error message and
    changes nothing else when a converted sample is below its baseline;
    otherwise it returns the sum of the two differences, each and the sum
    reduced to unsigned long, and changes nothing. *)
Theorem rtapi_pagefault_count_since_reset n (s : rtapi_state) t :
  0 <= n ->
  task_array s !! Z.to_nat n = Some t ->
  (forall minflt majflt minflt' majflt',
     0 <= minflt <= minflt' -> minflt' < 9223372036854775808 ->
     0 <= majflt <= majflt' -> majflt' < 9223372036854775808 ->
     returns_with
       ((rtapi_reset_pagefault_count n minflt majflt ≫= fun _ =>
         rtapi_get_pagefault_count n minflt' majflt') s)
       (fun r s' =>
          r = (minflt' - minflt) + (majflt' - majflt) /\
          (log s' = log s \/
           log s' = Msg RTAPI_MSG_DBG "Reset pagefault counter" :: log s))) /\
  (forall minflt majflt,
     to_ulong minflt < task_minfault_base t \/ to_ulong majflt < task_majfault_base t ->
     rtapi_get_pagefault_count n minflt majflt s
       = Returns 0 (set_log (Msg RTAPI_MSG_ERR "Got invalid fault counts" :: log s) s)) /\
  (forall minflt majflt,
     task_minfault_base t <= to_ulong minflt ->
     task_majfault_base t <= to_ulong majflt ->
     rtapi_get_pagefault_count n minflt majflt s
       = Returns
           (to_ulong (to_ulong (to_ulong minflt - task_minfault_base t)
                      + to_ulong (to_ulong majflt - task_majfault_base t)))
           s).
Proof.
  intros Hn Ht. split; [|split].
  - intros minflt majflt minflt' majflt' Hmin Hmin' Hmaj Hmaj'.
    apply returns_with_bind.
    eapply returns_with_weaken;
      [apply (rtapi_reset_pagefault_count_sets n minflt majflt s t Hn Ht)|].
    intros [] s1 (t1 & Ht1 & Hb1 & Hb2 & Hlog).
    unfold rtapi_get_pagefault_count. mstep. rewrite (load_task_eq _ _ t1) by side.
    rewrite Hb1, Hb2.
    rewrite (to_ulong_small minflt), (to_ulong_small majflt),
      (to_ulong_small minflt'), (to_ulong_small majflt') by lia.
    destruct (Z.ltb_spec minflt' minflt); [lia|].
    destruct (Z.ltb_spec majflt' majflt); [lia|]. cbn [orb]. mstep. cbn [returns_with].
    split.
    + rewrite (to_ulong_small (minflt' - minflt)) by lia.
      rewrite (to_ulong_small (majflt' - majflt)) by lia.
      apply to_ulong_small. lia.
    + exact Hlog.
  - intros minflt majflt Hbelow. unfold rtapi_get_pagefault_count. mstep.
    rewrite (load_task_eq _ _ t) by side.
    assert (Hc : (to_ulong minflt <? task_minfault_base t)
                 || (to_ulong majflt <? task_majfault_base t) = true).
    { destruct (Z.ltb_spec (to_ulong minflt) (task_minfault_base t)); [reflexivity|].
      destruct (Z.ltb_spec (to_ulong majflt) (task_majfault_base t)); [reflexivity|lia]. }
    rewrite Hc. reflexivity.
  - intros minflt majflt Hmin Hmaj. unfold rtapi_get_pagefault_count. mstep.
    rewrite (load_task_eq _ _ t) by side.
    destruct (Z.ltb_spec (to_ulong minflt) (task_minfault_base t)); [lia|].
    destruct (Z.ltb_spec (to_ulong majflt) (task_majfault_base t)); [lia|].
    reflexivity.
Qed.

Lemma rtapi_pagefault_count_since_reset_witness :
  returns_with
    ((rtapi_reset_pagefault_count 0 120 3 ≫= fun _ =>
      rtapi_get_pagefault_count 0 125 4) linux_accounted)
    (fun r s' =>
       r = (125 - 120) + (4 - 3) /\
       (log s' = log linux_accounted \/
        log s' = Msg RTAPI_MSG_DBG "Reset pagefault counter" :: log linux_accounted)) /\
  rtapi_get_pagefault_count 0 99 5 linux_accounted
    = Returns 0
        (set_log (Msg RTAPI_MSG_ERR "Got invalid fault counts" :: log linux_accounted)
           linux_accounted) /\
  rtapi_get_pagefault_count 0 125 4 linux_accounted = Returns 27 linux_accounted /\
  rtapi_get_pagefault_count 0 (-1) 4 linux_accounted
    = Returns 18446744073709551517 linux_accounted.
Proof.
  destruct (rtapi_pagefault_count_since_reset 0 linux_accounted
              (set_majfault_base 2 (set_minfault_base 100
                 (set_next_time {| tv_sec := 10; tv_nsec := 0 |}
                    (set_period 1000000 (set_magic TASK_MAGIC zero_task)))))
              ltac:(lia) ltac:(reflexivity)) as (Hsince & Hbelow & Hcount).
  split; [|split; [|split]].
  - apply Hsince; lia.
  - apply Hbelow. left. vm_compute. reflexivity.
  - apply (Hcount 125 4); vm_compute; discriminate.
  - apply (Hcount (-1) 4); vm_compute; discriminate.
Defined.

(** ** Task admission *)

Lemma store_task_after_insert n f (s : rtapi_state) arr t :
  0 <= n -> (Z.to_nat n < length arr)%nat ->
  task_array s = <[Z.to_nat n := t]> arr ->
  store_task n f s = Returns tt (set_task_array (<[Z.to_nat n := f t]> arr) s).
Proof.
  intros Hn Hlen Harr.
  rewrite (store_task_eq n f s t Hn) by (rewrite Harr; now apply list_lookup_insert_eq).
  rewrite Harr, list_insert_insert_eq. reflexivity.
Qed.

Lemma rtapi_task_new_first_free h ma taskcode arg prio owner stacksize uses_fp name cpu_id
    (s : rtapi_state) j t :
  wf_state s ->
  ma <> NULL ->
  0 <= j < MAX_TASKS ->
  (forall i b, 0 <= i < j -> task_array s !! Z.to_nat i = Some b ->
               task_magic b = TASK_MAGIC) ->
  task_array s !! Z.to_nat j = Some t ->
  task_magic t <> TASK_MAGIC ->
  rtapi_prio_lowest h <= prio <= rtapi_prio_highest h ->
  returns_with
    (rtapi_task_new h ma taskcode arg prio owner stacksize uses_fp name cpu_id s)
    (fun r s' =>
       r = j /\
       task_array s' =
         <[Z.to_nat j :=
             set_name (copy_name h name)
               (set_cpu cpu_id
                  (set_uses_fp uses_fp
                     (set_prio prio
                        (set_taskcode taskcode
                           (set_destroyed 0
                              (set_stackaddr ma
                                 (set_stacksize (Z.max stacksize 16384)
                                    (set_arg arg
                                       (set_owner owner
                                          (set_magic TASK_MAGIC t))))))))))]>
           (task_array s) /\
       heap s' = {[ma]} ∪ heap s /\
       module_array s' = module_array s /\
       period s' = period s /\
       task_key s' = task_key s /\
       log s' = Msg RTAPI_MSG_DBG "Creating new task" :: log s).
Proof.
  intros [Hlen _] Hma Hj Hbelow Ht Hfree Hprio.
  assert (Hjlen : (Z.to_nat j < length (task_array s))%nat)
    by (eapply lookup_lt_Some; exact Ht).
  unfold rtapi_task_new. cbv zeta. mstep. unfold malloc.
  destruct (Z.eqb_spec ma NULL) as [|_]; [contradiction|]. mstep.
  destruct (Z.eqb_spec ma NULL) as [|_]; [contradiction|]. mstep.
  cbn [get_state]. mstep. cbn [task_array set_heap].
  rewrite (scan_first_free task_in_use (task_array s) MAX_TASKS _ 0 j t);
    try (rewrite ?Hlen; lia); try assumption.
  2: { intros i b Hi Hb. unfold task_in_use. rewrite (Hbelow i b Hi Hb). apply Z.eqb_refl. }
  2: { unfold task_in_use. now apply Z.eqb_neq. }
  cbn [scan_result]. mstep.
  destruct (Z.eqb_spec j MAX_TASKS) as [|_]; [lia|]. mstep.
  rewrite (store_task_eq _ _ _ t) by side. mstep.
  assert (Hok : (prio <? rtapi_prio_lowest h) || (prio >? rtapi_prio_highest h) = false).
  { destruct (Z.ltb_spec prio (rtapi_prio_lowest h)); [lia|].
    destruct (Z.gtb_spec prio (rtapi_prio_highest h)); [lia|reflexivity]. }
  rewrite Hok. mstep. unfold rtapi_print_msg at 1. rewrite emit_eq. mstep.
  assert (Hmax : (if stacksize >? 16384 then stacksize else 16384) = Z.max stacksize 16384).
  { destruct (Z.gtb_spec stacksize 16384); lia. }
  rewrite Hmax.
  do 10 (erewrite store_task_after_insert;
           [| lia | exact Hjlen | cbn [task_array set_task_array set_log]; reflexivity];
         mstep).
  cbn [returns_with]. repeat split.
Qed.

(** X5. With a free slot, a priority in range and a stack from the
    allocator, rtapi_task_new returns the number of the lowest free slot
    and records the task there: TASK_MAGIC, the arguments as given, a
    stack size of at least 16384, the stack address, destroyed = 0, and
    the name cut to RTAPI_NAME_LEN - 1 characters. The remaining fields of
    that slot, the other slots, the module table, the clock period and the
    thread bindings stay as they were. *)
Theorem rtapi_task_new_success h ma taskcode arg prio owner stacksize uses_fp name cpu_id
    (s : rtapi_state) j t :
  wf_state s ->
  ma <> NULL ->
  0 <= j < MAX_TASKS ->
  (forall i b, 0 <= i < j -> task_array s !! Z.to_nat i = Some b ->
               task_magic b = TASK_MAGIC) ->
  task_array s !! Z.to_nat j = Some t ->
  task_magic t <> TASK_MAGIC ->
  rtapi_prio_lowest h <= prio <= rtapi_prio_highest h ->
  returns_with
    (rtapi_task_new h ma taskcode arg prio owner stacksize uses_fp name cpu_id s)
    (fun r s' =>
       r = j /\
       task_array s' =
         <[Z.to_nat j :=
             set_name (copy_name h name)
               (set_cpu cpu_id
                  (set_uses_fp uses_fp
                     (set_prio prio
                        (set_taskcode taskcode
                           (set_destroyed 0
                              (set_stackaddr ma
                                 (set_stacksize (Z.max stacksize 16384)
                                    (set_arg arg
                                       (set_owner owner
                                          (set_magic TASK_MAGIC t))))))))))]>
           (task_array s) /\
       heap s' = {[ma]} ∪ heap s /\
       module_array s' = module_array s /\
       period s' = period s /\
       task_key s' = task_key s /\
       log s' = Msg RTAPI_MSG_DBG "Creating new task" :: log s).
Proof. apply rtapi_task_new_first_free. Qed.

Lemma rtapi_task_new_success_witness :
  returns_with
    (rtapi_task_new example_host 4096 7 0 50 32768 100 0 "servo" (-1) initial_state)
    (fun r s' =>
       r = 0 /\
       task_array s' =
         <[Z.to_nat 0 :=
             set_name (copy_name example_host "servo")
               (set_cpu (-1)
                  (set_uses_fp 0
                     (set_prio 50
                        (set_taskcode 7
                           (set_destroyed 0
                              (set_stackaddr 4096
                                 (set_stacksize (Z.max 100 16384)
                                    (set_arg 0
                                       (set_owner 32768
                                          (set_magic TASK_MAGIC zero_task))))))))))]>
           (task_array initial_state) /\
       heap s' = {[4096]} ∪ heap initial_state /\
       module_array s' = module_array initial_state /\
       period s' = period initial_state /\
       task_key s' = task_key initial_state /\
       log s' = Msg RTAPI_MSG_DBG "Creating new task" :: log initial_state).
Proof.
  apply (rtapi_task_new_success example_host 4096 7 0 50 32768 100 0 "servo" (-1)
           initial_state 0 zero_task).
  - split; reflexivity.
  - discriminate.
  - unfold MAX_TASKS. lia.
  - intros i b Hi. lia.
  - reflexivity.
  - vm_compute. discriminate.
  - vm_compute. split; discriminate.
Defined.

Lemma rtapi_task_new_table_full h ma taskcode arg prio owner stacksize uses_fp name cpu_id
    (s : rtapi_state) :
  wf_state s ->
  ma <> NULL -> ma ∉ heap s ->
  (forall i b, 0 <= i < MAX_TASKS -> task_array s !! Z.to_nat i = Some b ->
               task_magic b = TASK_MAGIC) ->
  rtapi_task_new h ma taskcode arg prio owner stacksize uses_fp name cpu_id s
    = Returns (- ENOMEM) s.
Proof.
  intros [Hlen _] Hma Hfresh Hall.
  unfold rtapi_task_new. cbv zeta. mstep. unfold malloc.
  destruct (Z.eqb_spec ma NULL) as [|_]; [contradiction|]. mstep.
  destruct (Z.eqb_spec ma NULL) as [|_]; [contradiction|]. mstep.
  cbn [get_state]. mstep. cbn [task_array set_heap].
  rewrite (scan_full task_in_use (task_array s) MAX_TASKS); try (rewrite ?Hlen; lia).
  2: { unfold MAX_TASKS. lia. }
  2: { intros i b Hi Hb. unfold task_in_use. rewrite (Hall i b Hi Hb). apply Z.eqb_refl. }
  cbn [scan_result]. mstep. rewrite Z.eqb_refl. mstep.
  unfold free. destruct (Z.eqb_spec ma NULL) as [|_]; [contradiction|].
  cbn [heap set_heap].
  destruct (decide (ma ∈ {[ma]} ∪ heap s)) as [_|Hnot].
  2: { exfalso. apply Hnot, elem_of_union. left. now apply elem_of_singleton. }
  mstep. f_equal.
  assert (E : ({[ma]} ∪ heap s) ∖ {[ma]} = heap s).
  { apply set_eq. intros x.
    rewrite elem_of_difference, elem_of_union, elem_of_singleton. split.
    - intros [[->|Hx] Hne]; [contradiction | exact Hx].
    - intros Hx. split; [right; exact Hx | intros ->; contradiction]. }
  rewrite E. destruct s. reflexivity.
Qed.

(** X6. The out-of-memory exits of rtapi_task_new leave nothing behind.
    When the allocator has no stack, the call returns -ENOMEM and only
    prints an error: no slot is reserved. When every slot is taken, it
    returns -ENOMEM, gives the stack back, and the state is what it was
    before the call. *)
Theorem rtapi_task_new_out_of_memory h taskcode arg prio owner stacksize uses_fp name cpu_id
    (s : rtapi_state) :
  rtapi_task_new h NULL taskcode arg prio owner stacksize uses_fp name cpu_id s
    = Returns (- ENOMEM)
        (set_log (Msg RTAPI_MSG_ERR "Failed to allocate realtime thread stack" :: log s) s)
  /\
  (forall ma,
     wf_state s ->
     ma <> NULL -> ma ∉ heap s ->
     (forall i b, 0 <= i < MAX_TASKS -> task_array s !! Z.to_nat i = Some b ->
                  task_magic b = TASK_MAGIC) ->
     rtapi_task_new h ma taskcode arg prio owner stacksize uses_fp name cpu_id s
       = Returns (- ENOMEM) s).
Proof.
  split; [reflexivity|].
  intros ma. apply rtapi_task_new_table_full.
Qed.

Lemma rtapi_task_new_out_of_memory_witness :
  rtapi_task_new example_host 4096 7 0 50 32768 100 0 "servo" (-1) linux_tasks_full
    = Returns (- ENOMEM) linux_tasks_full.
Proof.
  apply (proj2 (rtapi_task_new_out_of_memory example_host 7 0 50 32768 100 0 "servo" (-1)
                  linux_tasks_full) 4096).
  - split; reflexivity.
  - discriminate.
  - apply not_elem_of_empty.
  - intros i b Hi Hb. cbn [task_array linux_tasks_full set_task_array] in Hb.
    apply lookup_replicate in Hb as [-> _]. reflexivity.
Defined.

Lemma rtapi_prio_helpers_range h prio :
  rtapi_prio_lowest h <= rtapi_prio_highest h ->
  rtapi_prio_lowest h <= rtapi_prio_next_higher h prio <= rtapi_prio_highest h /\
  rtapi_prio_lowest h <= rtapi_prio_next_lower h prio <= rtapi_prio_highest h.
Proof.
  intros Hrange. unfold rtapi_prio_next_higher, rtapi_prio_next_lower.
  destruct (Z.geb_spec prio (rtapi_prio_highest h));
    destruct (Z.ltb_spec prio (rtapi_prio_lowest h));
    destruct (Z.leb_spec prio (rtapi_prio_lowest h));
    destruct (Z.gtb_spec prio (rtapi_prio_highest h));
    split; lia.
Qed.

(** X29. A priority taken from the priority helpers is never turned down:
    with a non-empty priority range, a free slot and a stack from malloc,
    rtapi_task_new called with rtapi_prio_highest(), rtapi_prio_lowest(),
    rtapi_prio_next_higher(p) or rtapi_prio_next_lower(p), for any [p],
    returns the slot and records that priority. *)
Theorem rtapi_prio_helpers_accepted h ma taskcode arg owner stacksize uses_fp name cpu_id
    (s : rtapi_state) j t p :
  wf_state s ->
  ma <> NULL ->
  0 <= j < MAX_TASKS ->
  (forall i b, 0 <= i < j -> task_array s !! Z.to_nat i = Some b ->
               task_magic b = TASK_MAGIC) ->
  task_array s !! Z.to_nat j = Some t ->
  task_magic t <> TASK_MAGIC ->
  rtapi_prio_lowest h <= rtapi_prio_highest h ->
  Forall
    (fun prio =>
       returns_with
         (rtapi_task_new h ma taskcode arg prio owner stacksize uses_fp name cpu_id s)
         (fun r s' =>
            r = j /\
            exists t', task_array s' !! Z.to_nat j = Some t' /\
                       task_magic t' = TASK_MAGIC /\ task_prio t' = prio))
    [rtapi_prio_highest h; rtapi_prio_lowest h;
     rtapi_prio_next_higher h p; rtapi_prio_next_lower h p].
Proof.
  intros Hwf Hma Hj Hbelow Ht Hfree Hrange.
  assert (Hjlen : (Z.to_nat j < length (task_array s))%nat)
    by (eapply lookup_lt_Some; exact Ht).
  assert (Hone : forall prio,
    rtapi_prio_lowest h <= prio <= rtapi_prio_highest h ->
    returns_with
      (rtapi_task_new h ma taskcode arg prio owner stacksize uses_fp name cpu_id s)
      (fun r s' =>
         r = j /\
         exists t', task_array s' !! Z.to_nat j = Some t' /\
                    task_magic t' = TASK_MAGIC /\ task_prio t' = prio)).
  { intros prio Hprio.
    eapply returns_with_weaken;
      [apply (rtapi_task_new_first_free h ma taskcode arg prio owner stacksize uses_fp name
                cpu_id s j t); assumption|].
    intros r s' (Hr & Harr & _). split; [exact Hr|].
    eexists. split; [rewrite Harr; apply list_lookup_insert_eq; exact Hjlen|].
    split; reflexivity. }
  destruct (rtapi_prio_helpers_range h p Hrange) as [Hup Hdown].
  repeat apply List.Forall_cons; try apply List.Forall_nil; apply Hone;
    first [lia | assumption].
Qed.

Lemma rtapi_prio_helpers_accepted_witness :
  Forall
    (fun prio =>
       returns_with
         (rtapi_task_new example_host 4096 7 0 prio 32768 16384 0 "servo" (-1) initial_state)
         (fun r s' =>
            r = 0 /\
            exists t', task_array s' !! Z.to_nat 0 = Some t' /\
                       task_magic t' = TASK_MAGIC /\ task_prio t' = prio))
    [rtapi_prio_highest example_host; rtapi_prio_lowest example_host;
     rtapi_prio_next_higher example_host 1000; rtapi_prio_next_lower example_host 1000].
Proof.
  apply (rtapi_prio_helpers_accepted example_host 4096 7 0 32768 16384 0 "servo" (-1)
           initial_state 0 zero_task 1000).
  - split; reflexivity.
  - discriminate.
  - unfold MAX_TASKS. lia.
  - intros i b Hi. lia.
  - reflexivity.
  - vm_compute. discriminate.
  - vm_compute. discriminate.
Defined.

(** ** Task teardown *)

Lemma rtapi_task_delete_result join_err n (s : rtapi_state) t :
  0 <= n < MAX_TASKS ->
  task_array s !! Z.to_nat n = Some t ->
  task_magic t = TASK_MAGIC ->
  task_stackaddr t = NULL \/ task_stackaddr t ∈ heap s ->
  returns_with (rtapi_task_delete join_err n s) (fun r s' =>
    r = 0 /\
    task_array s' =
      <[Z.to_nat n :=
          set_magic 0
            (set_stackaddr NULL
               (if task_deleted t =? 0 then set_deleted 1 t else t))]> (task_array s) /\
    heap s' =
      (if task_stackaddr t =? NULL then heap s else heap s ∖ {[task_stackaddr t]}) /\
    module_array s' = module_array s /\
    period s' = period s /\
    task_key s' = task_key s /\
    log s' =
      (if task_deleted t =? 0 then
         if join_err =? 0 then [Join (task_thread t)]
         else [Msg RTAPI_MSG_ERR "pthread_join() on realtime thread failed";
               Join (task_thread t)]
       else []) ++ log s).
Proof.
  intros Hn Ht Hm Hstack.
  assert (Hlen : (Z.to_nat n < length (task_array s))%nat)
    by (eapply lookup_lt_Some; exact Ht).
  unfold rtapi_task_delete. rewrite range_check_in by exact Hn.
  mstep. rewrite (load_task_eq _ _ t) by side. mstep.
  rewrite Hm, Z.eqb_refl. cbn [negb]. mstep.
  set (t1 := if task_deleted t =? 0 then set_deleted 1 t else t).
  set (l1 := (if task_deleted t =? 0 then
                if join_err =? 0 then [Join (task_thread t)]
                else [Msg RTAPI_MSG_ERR "pthread_join() on realtime thread failed";
                      Join (task_thread t)]
              else []) ++ log s).
  assert (Hfirst :
    (if task_deleted t =? 0
     then store_task n (set_deleted 1);;
          err ← pthread_join (task_thread t) join_err;
          (if negb (err =? 0)
           then rtapi_print_msg RTAPI_MSG_ERR "pthread_join() on realtime thread failed"
           else mret tt)
     else mret tt) s
    = Returns tt (set_log l1 (set_task_array (<[Z.to_nat n := t1]> (task_array s)) s))).
  { subst t1 l1. destruct (task_deleted t =? 0).
    - mstep. rewrite (store_task_eq _ _ _ t) by side. mstep.
      unfold pthread_join. mstep. rewrite emit_eq. mstep.
      destruct (join_err =? 0); cbn [negb]; mstep.
      + reflexivity.
      + unfold rtapi_print_msg. rewrite emit_eq. reflexivity.
    - mstep. rewrite list_insert_id by exact Ht. destruct s. reflexivity. }
  rewrite Hfirst. mstep.
  assert (Hfree :
    free (task_stackaddr t)
      (set_log l1 (set_task_array (<[Z.to_nat n := t1]> (task_array s)) s))
    = Returns tt
        (set_heap (if task_stackaddr t =? NULL then heap s
                   else heap s ∖ {[task_stackaddr t]})
           (set_log l1 (set_task_array (<[Z.to_nat n := t1]> (task_array s)) s)))).
  { unfold free. cbn [heap set_log set_task_array].
    destruct (Z.eqb_spec (task_stackaddr t) NULL) as [Hnull|Hnn].
    - destruct s. reflexivity.
    - destruct Hstack as [Hnull|Hin]; [contradiction|].
      destruct (decide (task_stackaddr t ∈ heap s)); [reflexivity | contradiction]. }
  rewrite Hfree. mstep.
  do 2 (erewrite store_task_after_insert;
          [| lia | exact Hlen
           | cbn [task_array set_task_array set_log set_heap]; reflexivity];
        mstep).
  cbn [returns_with]. repeat split.
Qed.

(** X7. rtapi_task_delete on a live task whose stack is a live block (or
    NULL) returns 0 and leaves exactly this behind: the slot has magic 0
    and a NULL stack address, its [deleted] flag is 1 if it was 0 before
    (and what it was otherwise), the stack is off the heap, the thread was
    joined only if [deleted] was 0, with an error message when the join
    failed; every other slot, the modules, the clock period and the thread
    bindings are untouched. *)
Theorem rtapi_task_delete_effect join_err n (s : rtapi_state) t :
  0 <= n < MAX_TASKS ->
  task_array s !! Z.to_nat n = Some t ->
  task_magic t = TASK_MAGIC ->
  task_stackaddr t = NULL \/ task_stackaddr t ∈ heap s ->
  returns_with (rtapi_task_delete join_err n s) (fun r s' =>
    r = 0 /\
    task_array s' =
      <[Z.to_nat n :=
          set_magic 0
            (set_stackaddr NULL
               (if task_deleted t =? 0 then set_deleted 1 t else t))]> (task_array s) /\
    heap s' =
      (if task_stackaddr t =? NULL then heap s else heap s ∖ {[task_stackaddr t]}) /\
    module_array s' = module_array s /\
    period s' = period s /\
    task_key s' = task_key s /\
    log s' =
      (if task_deleted t =? 0 then
         if join_err =? 0 then [Join (task_thread t)]
         else [Msg RTAPI_MSG_ERR "pthread_join() on realtime thread failed";
               Join (task_thread t)]
       else []) ++ log s).
Proof. apply rtapi_task_delete_result. Qed.

Lemma rtapi_task_delete_effect_witness :
  returns_with (rtapi_task_delete 0 0 linux_waiting) (fun r s' =>
    r = 0 /\
    task_array s' =
      <[0%nat := set_magic 0 (set_stackaddr NULL (set_deleted 1
                   (set_next_time {| tv_sec := 10; tv_nsec := 0 |}
                      (set_period 1000000 (set_magic TASK_MAGIC zero_task)))))]>
        (task_array linux_waiting) /\
    heap s' = heap linux_waiting /\
    module_array s' = module_array linux_waiting /\
    period s' = period linux_waiting /\
    task_key s' = task_key linux_waiting /\
    log s' = [Join 0] ++ log linux_waiting).
Proof.
  apply (rtapi_task_delete_effect 0 0 linux_waiting
           (set_next_time {| tv_sec := 10; tv_nsec := 0 |}
              (set_period 1000000 (set_magic TASK_MAGIC zero_task)))).
  - unfold MAX_TASKS. lia.
  - reflexivity.
  - reflexivity.
  - left. reflexivity.
Defined.

(** X8. A slot handed out by rtapi_task_new and given back by
    rtapi_task_delete is the one the next rtapi_task_new hands out, and in
    between the heap is what it was before the first call: with the lowest
    free slot [j], a fresh stack block and a priority in range, new returns
    [j], delete of [j] returns 0 and gives the stack back, and the second
    new (whatever its arguments, with a priority in range) returns [j]
    again. *)
Theorem rtapi_task_slot_reuse h (s : rtapi_state) j t join_err
    ma taskcode arg prio owner stacksize uses_fp name cpu_id
    ma' taskcode' arg' prio' owner' stacksize' uses_fp' name' cpu_id' :
  wf_state s ->
  0 <= j < MAX_TASKS ->
  (forall i b, 0 <= i < j -> task_array s !! Z.to_nat i = Some b ->
               task_magic b = TASK_MAGIC) ->
  task_array s !! Z.to_nat j = Some t ->
  task_magic t <> TASK_MAGIC ->
  ma <> NULL -> ma ∉ heap s -> ma' <> NULL ->
  rtapi_prio_lowest h <= prio <= rtapi_prio_highest h ->
  rtapi_prio_lowest h <= prio' <= rtapi_prio_highest h ->
  returns_with
    (rtapi_task_new h ma taskcode arg prio owner stacksize uses_fp name cpu_id s)
    (fun r1 s1 =>
       r1 = j /\
       returns_with (rtapi_task_delete join_err j s1) (fun r2 s2 =>
         r2 = 0 /\ heap s2 = heap s /\
         returns_with
           (rtapi_task_new h ma' taskcode' arg' prio' owner' stacksize' uses_fp' name'
              cpu_id' s2)
           (fun r3 _ => r3 = j))).
Proof.
  intros Hwf Hj Hbelow Ht Hfree Hma Hfresh Hma' Hprio Hprio'.
  assert (Hjlen : (Z.to_nat j < length (task_array s))%nat)
    by (eapply lookup_lt_Some; exact Ht).
  eapply returns_with_weaken;
    [eapply (rtapi_task_new_first_free h ma taskcode arg prio owner stacksize uses_fp name
               cpu_id s j t); eassumption|].
  intros r1 s1 (-> & Harr1 & Hheap1 & Hmod1 & _). split; [reflexivity|].
  eapply returns_with_weaken.
  { eapply (rtapi_task_delete_result join_err j s1); [exact Hj | | | ].
    - rewrite Harr1. apply list_lookup_insert_eq. exact Hjlen.
    - reflexivity.
    - right. cbn. rewrite Hheap1. apply elem_of_union. left. now apply elem_of_singleton. }
  intros r2 s2 (-> & Harr2 & Hheap2 & Hmod2 & _). split; [reflexivity|].
  assert (Hheap : heap s2 = heap s).
  { rewrite Hheap2. cbn.
    destruct (Z.eqb_spec ma NULL) as [|_]; [contradiction|].
    rewrite Hheap1. apply set_eq. intros x.
    rewrite elem_of_difference, elem_of_union, elem_of_singleton. split.
    - intros [[->|Hx] Hne]; [contradiction | exact Hx].
    - intros Hx. split; [right; exact Hx | intros ->; contradiction]. }
  split; [exact Hheap|].
  rewrite Harr1, list_insert_insert_eq in Harr2.
  eapply returns_with_weaken.
  { eapply (rtapi_task_new_first_free h ma' taskcode' arg' prio' owner' stacksize' uses_fp'
              name' cpu_id' s2 j); [ | exact Hma' | exact Hj | | | | exact Hprio'].
    - destruct Hwf as [Hl1 Hl2]. split.
      + rewrite Harr2, length_insert. exact Hl1.
      + rewrite Hmod2, Hmod1. exact Hl2.
    - intros i b Hi Hb. rewrite Harr2, list_lookup_insert_ne in Hb by lia.
      exact (Hbelow i b Hi Hb).
    - rewrite Harr2. apply list_lookup_insert_eq. exact Hjlen.
    - cbn. unfold TASK_MAGIC. discriminate. }
  intros r3 s3 (-> & _). reflexivity.
Qed.

Lemma rtapi_task_slot_reuse_witness :
  returns_with
    (rtapi_task_new example_host 4096 7 0 50 32768 16384 0 "servo" (-1) initial_state)
    (fun r1 s1 =>
       r1 = 0 /\
       returns_with (rtapi_task_delete 0 0 s1) (fun r2 s2 =>
         r2 = 0 /\ heap s2 = heap initial_state /\
         returns_with
           (rtapi_task_new example_host 8192 9 0 60 32768 32768 1 "spindle" 2 s2)
           (fun r3 _ => r3 = 0))).
Proof.
  apply (rtapi_task_slot_reuse example_host initial_state 0 zero_task 0
           4096 7 0 50 32768 16384 0 "servo" (-1)
           8192 9 0 60 32768 32768 1 "spindle" 2).
  - split; reflexivity.
  - unfold MAX_TASKS. lia.
  - intros i b Hi. lia.
  - reflexivity.
  - vm_compute. discriminate.
  - discriminate.
  - apply not_elem_of_empty.
  - discriminate.
  - vm_compute. split; discriminate.
  - vm_compute. split; discriminate.
Defined.

(** ** One task through a call *)

Lemma slot_update_start (s : rtapi_state) n t :
  task_array s !! Z.to_nat n = Some t -> slot_update s n t (task_key s) s.
Proof.
  intros Ht. unfold slot_update. rewrite list_insert_id by exact Ht.
  repeat split. exists []. reflexivity.
Qed.

Lemma slot_update_lookup (s0 : rtapi_state) n t k s :
  (Z.to_nat n < length (task_array s0))%nat ->
  slot_update s0 n t k s -> task_array s !! Z.to_nat n = Some t.
Proof. intros Hlen (-> & _). now apply list_lookup_insert_eq. Qed.

Lemma slot_update_period (s0 : rtapi_state) n t k s :
  slot_update s0 n t k s -> period s = period s0.
Proof. intros (_ & _ & _ & H & _). exact H. Qed.

Lemma slot_update_load (s0 : rtapi_state) n t k s :
  0 <= n -> (Z.to_nat n < length (task_array s0))%nat ->
  slot_update s0 n t k s -> load_task n s = Returns t s.
Proof.
  intros Hn Hlen H. apply load_task_eq; [exact Hn|]. eapply slot_update_lookup; eassumption.
Qed.

Lemma slot_update_store (s0 : rtapi_state) n t k s f :
  0 <= n -> (Z.to_nat n < length (task_array s0))%nat ->
  slot_update s0 n t k s ->
  returns_with (store_task n f s) (fun _ s' => slot_update s0 n (f t) k s').
Proof.
  intros Hn Hlen H.
  rewrite (store_task_eq n f s t Hn) by (eapply slot_update_lookup; eassumption).
  destruct H as (Harr & Hk & Hm & Hp & Hh & Hl). cbn [returns_with]. unfold slot_update.
  cbn [task_array task_key module_array period heap log set_task_array].
  rewrite Harr, list_insert_insert_eq. repeat split; assumption.
Qed.

Lemma slot_update_emit (s0 : rtapi_state) n t k s ev :
  slot_update s0 n t k s ->
  returns_with (emit ev s) (fun _ s' => slot_update s0 n t k s').
Proof.
  intros (Harr & Hk & Hm & Hp & Hh & l & Hl). rewrite emit_eq. cbn [returns_with].
  unfold slot_update. cbn [task_array task_key module_array period heap log set_log].
  repeat split; try assumption. exists (ev :: l). rewrite Hl. reflexivity.
Qed.

Lemma slot_update_print (s0 : rtapi_state) n t k s lvl text :
  slot_update s0 n t k s ->
  returns_with (rtapi_print_msg lvl text s) (fun _ s' => slot_update s0 n t k s').
Proof. apply slot_update_emit. Qed.

Lemma slot_update_set_task (s0 : rtapi_state) n t k s self n' :
  slot_update s0 n t k s ->
  returns_with (rtapi_set_task self n' s)
    (fun _ s' => slot_update s0 n t (<[self := n']> k) s').
Proof.
  intros (Harr & Hk & Hm & Hp & Hh & Hl). cbn [returns_with rtapi_set_task].
  unfold slot_update. cbn [task_array task_key module_array period heap log set_task_key].
  rewrite Hk. repeat split; assumption.
Qed.

(** Run the first call of a sequence with a lemma of the kit: [H] is the
    slot_update at hand, renewed for the state after the call. *)
Ltac slot_run lem H :=
  apply returns_with_bind;
  eapply returns_with_weaken; [eapply lem; first [exact H | eassumption | lia] |];
  clear H; intros ? ? H; cbv beta.

Ltac slot_load H :=
  rewrite bind_eq;
  erewrite slot_update_load; [| | | exact H]; [| lia | eassumption]; cbv beta iota.

(** ** The init phase of the realtime thread *)

Lemma rtapi_reset_pagefault_count_slot (s0 : rtapi_state) n t k s minflt majflt :
  0 <= n -> (Z.to_nat n < length (task_array s0))%nat ->
  slot_update s0 n t k s ->
  returns_with (rtapi_reset_pagefault_count n minflt majflt s) (fun _ s' =>
    slot_update s0 n (reset_baselines minflt majflt t) k s').
Proof.
  intros Hn Hlen H. unfold rtapi_reset_pagefault_count, reset_baselines.
  slot_load H.
  destruct (negb (task_minfault_base t =? to_ulong minflt)
            || negb (task_majfault_base t =? to_ulong majflt)).
  - slot_run slot_update_store H. slot_run slot_update_store H.
    apply slot_update_print. exact H.
  - exact H.
Qed.

Lemma realtime_set_affinity_slot h e (s0 : rtapi_state) n t k s :
  0 <= n -> (Z.to_nat n < length (task_array s0))%nat ->
  slot_update s0 n t k s ->
  returns_with (realtime_set_affinity h e n s) (fun r s' =>
    r = match chosen_cpu h e t with
        | Some _ => if setaffinity_err e =? 0 then 0 else - EINVAL
        | None => - EINVAL
        end /\
    slot_update s0 n t k s').
Proof.
  intros Hn Hlen H. unfold realtime_set_affinity, chosen_cpu. cbv zeta.
  slot_load H.
  assert (Htail : forall c s1, slot_update s0 n t k s1 ->
    returns_with
      ((emit (SetAffinity (task_thread t) c);;
        (if negb (setaffinity_err e =? 0)
         then rtapi_print_msg RTAPI_MSG_ERR "Failed to set CPU affinity";; mret (- EINVAL)
         else rtapi_print_msg RTAPI_MSG_DBG
                "realtime_set_affinity(): task assigned to CPU";; mret 0)) s1)
      (fun r s' => r = (if setaffinity_err e =? 0 then 0 else - EINVAL) /\
                   slot_update s0 n t k s')).
  { intros c s1 H1. slot_run slot_update_emit H1.
    destruct (setaffinity_err e =? 0); cbn [negb];
      slot_run slot_update_print H1; rewrite ret_eq; cbn [returns_with]; auto. }
  apply returns_with_bind.
  destruct (task_cpu t >? -1).
  - destruct (CPU_ISSET h (task_cpu t) (affinity e)); cbn [negb].
    + rewrite ret_eq. cbn [returns_with]. apply Htail, H.
    + slot_run slot_update_print H. rewrite ret_eq. cbn [returns_with].
      rewrite ret_eq. cbn [returns_with]. auto.
  - destruct (last_cpu (affinity e) (CPU_SETSIZE h) <? 0).
    + slot_run slot_update_print H. rewrite ret_eq. cbn [returns_with].
      rewrite ret_eq. cbn [returns_with]. auto.
    + slot_run slot_update_print H. rewrite ret_eq. cbn [returns_with].
      apply Htail, H.
Qed.

Lemma realtime_set_priority_slot e (s0 : rtapi_state) n t k s :
  0 <= n -> (Z.to_nat n < length (task_array s0))%nat ->
  slot_update s0 n t k s ->
  returns_with (realtime_set_priority e n s) (fun r s' =>
    r = (if setscheduler_err e =? 0 then 0 else 1) /\
    slot_update s0 n (set_deadline_scheduling 0 t) k s').
Proof.
  intros Hn Hlen H. unfold realtime_set_priority.
  slot_run slot_update_store H. slot_load H. slot_run slot_update_emit H.
  destruct (setscheduler_err e =? 0); cbn [negb].
  - rewrite ret_eq. cbn [returns_with]. auto.
  - slot_run slot_update_print H. rewrite ret_eq. cbn [returns_with]. auto.
Qed.

Lemma int_div_positive a b (s : rtapi_state) :
  0 < b -> int_div a b s = Returns (Z.quot a b) s.
Proof.
  intros Hb. unfold int_div. destruct (Z.eqb_spec b 0); [lia|].
  destruct (Z.eqb_spec b (-1)); [lia|]. rewrite andb_false_r. reflexivity.
Qed.

Lemma chosen_cpu_ext h e t t' :
  task_cpu t' = task_cpu t -> chosen_cpu h e t' = chosen_cpu h e t.
Proof. intros H. unfold chosen_cpu. rewrite H. reflexivity. Qed.

Lemma task_cpu_init_phase clock minflt majflt t :
  task_cpu (clamp_to_clock clock (reset_baselines minflt majflt t)) = task_cpu t.
Proof.
  unfold clamp_to_clock, reset_baselines. cbv zeta.
  repeat match goal with |- context [if ?b then _ else _] => destruct b end; reflexivity.
Qed.

(** The init phase of realtime_thread on the task in slot [n]: the thread
    is bound to the task, the page-fault baselines are the thread's
    counts, the period is clamped to the clock period and the ratio set;
    [deleted] becomes 1 exactly when the thread does not come up. *)
Lemma realtime_thread_init_slot h e self (s0 : rtapi_state) n t k s :
  0 <= n -> (Z.to_nat n < length (task_array s0))%nat ->
  0 < period s0 ->
  slot_update s0 n t k s ->
  returns_with (realtime_thread_init h e self n s) (fun ok s' =>
    let t3 :=
      clamp_to_clock (period s0) (reset_baselines (worker_minflt e) (worker_majflt e) t) in
    ok = thread_comes_up h e t /\
    slot_update s0 n
      (match chosen_cpu h e t with
       | Some _ =>
           if setaffinity_err e =? 0 then
             if setscheduler_err e =? 0 then set_deadline_scheduling 0 t3
             else set_deleted 1 (set_deadline_scheduling 0 t3)
           else set_deleted 1 t3
       | None => set_deleted 1 t3
       end)
      (<[self := n]> k) s').
Proof.
  intros Hn Hlen Hp H. unfold realtime_thread_init.
  slot_run slot_update_set_task H.
  slot_run rtapi_reset_pagefault_count_slot H.
  rewrite bind_eq. cbn [get_state]. cbv beta iota.
  rewrite (slot_update_period _ _ _ _ _ H).
  slot_load H.
  set (t1 := reset_baselines (worker_minflt e) (worker_majflt e) t) in *.
  apply returns_with_bind.
  eapply returns_with_weaken with
    (Q := fun _ s' =>
       slot_update s0 n
         (if task_period t1 <? period s0 then set_period (period s0) t1 else t1)
         (<[self := n]> k) s').
  { destruct (task_period t1 <? period s0).
    - apply slot_update_store; assumption.
    - exact H. }
  clear H. intros ? ? H. cbv beta.
  slot_load H.
  rewrite bind_eq, int_div_positive by exact Hp. cbv beta iota.
  slot_run slot_update_store H.
  change (set_ratio _ _) with (clamp_to_clock (period s0) t1) in H.
  set (t3 := clamp_to_clock (period s0) t1) in *.
  slot_run slot_update_print H.
  apply returns_with_bind.
  eapply returns_with_weaken;
    [eapply (realtime_set_affinity_slot h e s0 n); [exact Hn | exact Hlen | exact H]|].
  clear H. intros ? ? [-> H]. cbv beta zeta.
  unfold thread_comes_up.
  rewrite (chosen_cpu_ext h e t t3) by apply task_cpu_init_phase.
  destruct (chosen_cpu h e t) as [c|].
  - destruct (setaffinity_err e =? 0); cbn [Z.eqb negb andb].
    + apply returns_with_bind.
      eapply returns_with_weaken;
        [eapply (realtime_set_priority_slot e s0 n); [exact Hn | exact Hlen | exact H]|].
      clear H. intros ? ? [-> H]. cbv beta.
      destruct (setscheduler_err e =? 0); cbn [Z.eqb negb].
      * rewrite ret_eq. cbn [returns_with]. auto.
      * slot_run slot_update_store H. rewrite ret_eq. cbn [returns_with]. auto.
    + unfold EINVAL. cbn [Z.opp Z.eqb negb].
      slot_run slot_update_store H. rewrite ret_eq. cbn [returns_with]. auto.
  - unfold EINVAL. cbn [Z.opp Z.eqb negb andb].
    slot_run slot_update_store H. rewrite ret_eq. cbn [returns_with]. auto.
Qed.

(** ** Starting a task *)

(** X9. rtapi_task_start divides by the clock period without a test: on a
    live task, while the clock period is still 0 (rtapi_clock_set_period
    has not set it), the call runs into a division by zero, whatever
    period it is given. *)
Theorem rtapi_task_start_without_clock_period h e n p (s : rtapi_state) t :
  0 <= n < MAX_TASKS ->
  task_array s !! Z.to_nat n = Some t ->
  task_magic t = TASK_MAGIC ->
  period s = 0 ->
  rtapi_task_start h e n p s = Faults DivisionByZero.
Proof.
  intros Hn Ht Hm Hp. unfold rtapi_task_start.
  rewrite range_check_in by exact Hn. mstep.
  rewrite (load_task_eq _ _ t) by side. rewrite Hm, Z.eqb_refl. cbn [negb]. mstep.
  cbn [get_state]. mstep. rewrite Hp.
  rewrite (store_task_eq _ _ _ t) by side. mstep. reflexivity.
Qed.

Lemma rtapi_task_start_without_clock_period_witness :
  rtapi_task_start example_host example_start_env 0 1000000 linux_waiting
    = Faults DivisionByZero.
Proof.
  apply (rtapi_task_start_without_clock_period example_host example_start_env 0 1000000
           linux_waiting
           (set_next_time {| tv_sec := 10; tv_nsec := 0 |}
              (set_period 1000000 (set_magic TASK_MAGIC zero_task)))).
  - unfold MAX_TASKS. lia.
  - reflexivity.
  - reflexivity.
  - reflexivity.
Defined.

Lemma task_deleted_init_phase clock minflt majflt t :
  task_deleted (clamp_to_clock clock (reset_baselines minflt majflt t)) = task_deleted t.
Proof.
  unfold clamp_to_clock, reset_baselines. cbv zeta.
  repeat match goal with |- context [if ?b then _ else _] => destruct b end; reflexivity.
Qed.

(** The task rtapi_task_start leaves in slot [n], and what it returns. *)
Lemma rtapi_task_start_slot h e n p (s : rtapi_state) t :
  0 <= n < MAX_TASKS ->
  task_array s !! Z.to_nat n = Some t ->
  task_magic t = TASK_MAGIC ->
  0 < period s <= INT_MAX ->
  returns_with (rtapi_task_start h e n p s) (fun r s' =>
    let p' := if p <? period s then period s else p in
    let t0 := set_deleted 0 (set_ratio (to_int (p' / period s)) (set_period (to_int p') t)) in
    if create_retval e =? 0 then
      let t3 :=
        clamp_to_clock (period s)
          (reset_baselines (worker_minflt e) (worker_majflt e)
             (set_thread (created_thread e) t0)) in
      r = (if thread_comes_up h e t then 0 else - ENOMEM) /\
      slot_update s n
        (match chosen_cpu h e t with
         | Some _ =>
             if setaffinity_err e =? 0 then
               if setscheduler_err e =? 0 then set_deadline_scheduling 0 t3
               else set_deleted 1 (set_deadline_scheduling 0 t3)
             else set_deleted 1 t3
         | None => set_deleted 1 t3
         end)
        (<[created_thread e := n]> (task_key s)) s'
    else
      r = - ENOMEM /\ slot_update s n t0 (task_key s) s').
Proof.
  intros Hn Ht Hm Hp.
  assert (Hlen : (Z.to_nat n < length (task_array s))%nat)
    by (eapply lookup_lt_Some; exact Ht).
  assert (H := slot_update_start s n t Ht).
  assert (Hn0 : 0 <= n) by lia.
  unfold rtapi_task_start. rewrite range_check_in by exact Hn.
  slot_load H. rewrite Hm, Z.eqb_refl. cbn [negb].
  rewrite bind_eq. cbn [get_state]. cbv beta iota zeta.
  assert (Hu : to_ulong (period s) = period s).
  { apply to_ulong_small. unfold INT_MAX in Hp. lia. }
  rewrite Hu.
  set (p' := if p <? period s then period s else p).
  slot_run slot_update_store H.
  destruct (Z.eqb_spec (period s) 0) as [|_]; [lia|].
  slot_run slot_update_store H.
  slot_run slot_update_store H.
  set (t0 := set_deleted 0 _) in *.
  slot_run slot_update_print H.
  destruct (create_retval e =? 0); cbn [negb].
  - apply returns_with_bind. apply returns_with_bind.
    eapply returns_with_weaken; [eapply slot_update_store; [exact Hn0 | exact Hlen | exact H]|].
    clear H. intros ? ? H. cbv beta.
    eapply returns_with_weaken; [eapply slot_update_emit; exact H|].
    clear H. intros ? ? H. cbv beta.
    slot_run slot_update_print H.
    apply returns_with_bind.
    eapply returns_with_weaken;
      [eapply (realtime_thread_init_slot h e (created_thread e) s n);
         [exact Hn0 | exact Hlen | lia | exact H]|].
    clear H. cbv zeta. intros ok ? [-> H]. cbv beta.
    slot_load H.
    assert (Hce : chosen_cpu h e (set_thread (created_thread e) t0) = chosen_cpu h e t)
      by (apply chosen_cpu_ext; reflexivity).
    unfold thread_comes_up in *. rewrite Hce in *.
    destruct (chosen_cpu h e t) as [c|].
    + destruct (setaffinity_err e =? 0); cbn [andb].
      * destruct (setscheduler_err e =? 0); cbn [andb].
        -- cbn [task_deleted set_deadline_scheduling].
           rewrite task_deleted_init_phase. cbn [task_deleted set_thread t0 set_deleted].
           cbn [Z.eqb negb].
           slot_run slot_update_print H. rewrite ret_eq. cbn [returns_with]. auto.
        -- cbn [task_deleted set_deleted Z.eqb negb].
           slot_run slot_update_print H. rewrite ret_eq. cbn [returns_with]. auto.
      * cbn [task_deleted set_deleted Z.eqb negb].
        slot_run slot_update_print H. rewrite ret_eq. cbn [returns_with]. auto.
    + cbn [andb task_deleted set_deleted Z.eqb negb].
      slot_run slot_update_print H. rewrite ret_eq. cbn [returns_with]. auto.
  - apply returns_with_bind. rewrite ret_eq. cbn [returns_with].
    slot_run slot_update_print H.
    slot_run slot_update_print H. rewrite ret_eq. cbn [returns_with]. auto.
Qed.

Lemma clamp_to_clock_period clock t :
  0 < clock <= INT_MAX ->
  INT_MIN <= task_period t <= INT_MAX ->
  clock <= task_period (clamp_to_clock clock t) <= INT_MAX /\
  task_ratio (clamp_to_clock clock t) = task_period (clamp_to_clock clock t) / clock /\
  1 <= task_ratio (clamp_to_clock clock t).
Proof.
  intros Hc Ht. unfold clamp_to_clock. cbv zeta.
  destruct (Z.ltb_spec (task_period t) clock) as [Hlt|Hge];
    cbn [task_period task_ratio set_ratio set_period].
  - rewrite Z.quot_same by lia. rewrite Z.div_same by lia. lia.
  - rewrite Z.quot_div_nonneg by lia. split; [lia|]. split; [reflexivity|].
    apply Z.div_le_lower_bound; lia.
Qed.

Lemma rtapi_task_start_facts h e n p (s : rtapi_state) t :
  0 <= n < MAX_TASKS ->
  task_array s !! Z.to_nat n = Some t ->
  task_magic t = TASK_MAGIC ->
  0 < period s <= INT_MAX ->
  returns_with (rtapi_task_start h e n p s) (fun r s' =>
    exists t',
      slot_update s n t'
        (if create_retval e =? 0 then <[created_thread e := n]> (task_key s)
         else task_key s) s' /\
      r = (if (create_retval e =? 0) && thread_comes_up h e t then 0 else - ENOMEM) /\
      task_deleted t' =
        (if (create_retval e =? 0) && negb (thread_comes_up h e t) then 1 else 0) /\
      (create_retval e = 0 ->
         task_thread t' = created_thread e /\
         period s <= task_period t' <= INT_MAX /\
         task_ratio t' = task_period t' / period s /\
         1 <= task_ratio t') /\
      task_magic t' = TASK_MAGIC /\
      task_stackaddr t' = task_stackaddr t /\
      task_stacksize t' = task_stacksize t /\
      task_prio t' = task_prio t /\
      task_cpu t' = task_cpu t /\
      task_taskcode t' = task_taskcode t /\
      task_arg t' = task_arg t /\
      (r = 0 -> task_deadline_scheduling t' = 0)).
Proof.
  intros Hn Ht Hm Hp.
  eapply returns_with_weaken; [apply (rtapi_task_start_slot h e n p s t Hn Ht Hm Hp)|].
  cbv zeta. intros r s' Hres.
  set (p' := if p <? period s then period s else p) in *.
  set (t0 := set_deleted 0 (set_ratio (to_int (p' / period s)) (set_period (to_int p') t)))
    in *.
  destruct (Z.eqb_spec (create_retval e) 0) as [Hc|Hc]; cbn [andb].
  - destruct Hres as [-> H].
    set (t1 := reset_baselines (worker_minflt e) (worker_majflt e)
                 (set_thread (created_thread e) t0)) in *.
    destruct (clamp_to_clock_period (period s) t1 Hp) as (Hper & Hratio & Hone).
    { replace (task_period t1) with (to_int p'); [apply to_int_range|].
      subst t1. unfold reset_baselines. destruct (_ || _); reflexivity. }
    assert (Hkeep : forall t3, t3 = clamp_to_clock (period s) t1 ->
      task_thread t3 = created_thread e /\ task_deleted t3 = 0 /\
      task_magic t3 = TASK_MAGIC /\
      task_stackaddr t3 = task_stackaddr t /\
      task_stacksize t3 = task_stacksize t /\
      task_prio t3 = task_prio t /\
      task_cpu t3 = task_cpu t /\
      task_taskcode t3 = task_taskcode t /\
      task_arg t3 = task_arg t).
    { intros t3 ->. rewrite <- Hm. subst t1. unfold clamp_to_clock, reset_baselines.
      cbv zeta.
      repeat match goal with |- context [if ?b then _ else _] => destruct b end;
        repeat split. }
    destruct (Hkeep _ eq_refl) as (K1 & K2 & K3 & K4 & K5 & K6 & K7 & K8 & K9).
    clear Hkeep.
    set (t3 := clamp_to_clock (period s) t1) in *.
    unfold thread_comes_up in *.
    eexists. split; [exact H|]. clear H.
    destruct (chosen_cpu h e t) as [c|];
      [destruct (setaffinity_err e =? 0); [destruct (setscheduler_err e =? 0)|]|];
      cbn [andb negb task_deleted task_thread task_period task_ratio task_magic
           task_stackaddr task_stacksize task_prio task_cpu task_taskcode task_arg
           set_deleted set_deadline_scheduling];
      (split; [reflexivity|]); (split; [first [exact K2 | reflexivity]|]);
      (split; [intros _; repeat split; first [assumption | lia]|]);
      repeat split;
      first [ assumption
            | intros _; reflexivity
            | intros Hz; vm_compute in Hz; discriminate ].
  - destruct Hres as [-> H]. exists t0. split; [exact H|].
    split; [reflexivity|]. split; [reflexivity|].
    split; [intros Hc'; contradiction|].
    rewrite <- Hm. repeat split. intros Hz. vm_compute in Hz. discriminate.
Qed.

(** X10. rtapi_task_start on a live task, once the clock period is set
    (above 0): the call returns, with 0 when pthread_create succeeded and
    the new thread came through its init phase (a CPU was chosen, affinity
    and scheduler were set), and with -ENOMEM otherwise. After it the
    [deleted] flag is 1 exactly when the thread was created and its init
    phase failed. When the thread was created, it is bound to the task,
    the task names it, the task period is at least the clock period (and
    an int), and the ratio is period / clock period, at least 1. After a
    return of 0 deadline_scheduling is 0, so rtapi_wait sleeps with
    clock_nanosleep. The tag, the stack, the priority, the CPU, the task
    function and its argument are as before; so are the other slots, the
    modules, the clock period and the heap. *)
Theorem rtapi_task_start_result h e n p (s : rtapi_state) t :
  0 <= n < MAX_TASKS ->
  task_array s !! Z.to_nat n = Some t ->
  task_magic t = TASK_MAGIC ->
  0 < period s <= INT_MAX ->
  returns_with (rtapi_task_start h e n p s) (fun r s' =>
    exists t',
      slot_update s n t'
        (if create_retval e =? 0 then <[created_thread e := n]> (task_key s)
         else task_key s) s' /\
      r = (if (create_retval e =? 0) && thread_comes_up h e t then 0 else - ENOMEM) /\
      task_deleted t' =
        (if (create_retval e =? 0) && negb (thread_comes_up h e t) then 1 else 0) /\
      (create_retval e = 0 ->
         task_thread t' = created_thread e /\
         period s <= task_period t' <= INT_MAX /\
         task_ratio t' = task_period t' / period s /\
         1 <= task_ratio t') /\
      task_magic t' = TASK_MAGIC /\
      task_stackaddr t' = task_stackaddr t /\
      task_stacksize t' = task_stacksize t /\
      task_prio t' = task_prio t /\
      task_cpu t' = task_cpu t /\
      task_taskcode t' = task_taskcode t /\
      task_arg t' = task_arg t /\
      (r = 0 -> task_deadline_scheduling t' = 0)).
Proof. apply rtapi_task_start_facts. Qed.

Lemma rtapi_task_start_result_witness :
  returns_with (rtapi_task_start example_host example_start_env 0 500000 linux_clocked)
    (fun r s' =>
       r = 0 /\ task_key s' = <[1001 := 0]> (task_key linux_clocked) /\
       exists t', task_array s' !! 0%nat = Some t' /\
                  task_deleted t' = 0 /\ 1000000 <= task_period t').
Proof.
  eapply returns_with_weaken.
  - apply (rtapi_task_start_result example_host example_start_env 0 500000 linux_clocked
             (set_next_time {| tv_sec := 10; tv_nsec := 0 |}
                (set_period 1000000 (set_magic TASK_MAGIC zero_task)))).
    + unfold MAX_TASKS. lia.
    + reflexivity.
    + reflexivity.
    + cbn. unfold INT_MAX. lia.
  - intros r s' (t' & (Harr & Hkey & _) & Hr & Hdel & Hcreated & _).
    split; [exact Hr|]. split; [exact Hkey|].
    exists t'. split; [rewrite Harr; reflexivity|]. split; [exact Hdel|].
    apply (Hcreated eq_refl).
Defined.

(** ** Invariants of a run *)

Lemma holds_after_conj {A} (o : outcome rtapi_state A) (I1 I2 : rtapi_state -> Prop) :
  holds_after o I1 -> holds_after o I2 -> holds_after o (fun s => I1 s /\ I2 s).
Proof. destruct o; cbn; auto. Qed.

Lemma holds_after_weaken {A} (o : outcome rtapi_state A) (I1 I2 : rtapi_state -> Prop) :
  (forall s, I1 s -> I2 s) -> holds_after o I1 -> holds_after o I2.
Proof. intros H. destruct o; cbn; auto. Qed.

(** A step preserves an invariant that reads neither the log nor the heap
    and survives any write to a slot of the two tables, once the two calls
    that write the clock period and the thread bindings are accounted
    for. *)
Lemma run_preserves_frame h c (Inv : rtapi_state -> Prop) :
  (forall s l, Inv s -> Inv (set_log l s)) ->
  (forall s hp, Inv s -> Inv (set_heap hp s)) ->
  (forall s n m, Inv s ->
     Inv (set_module_array (<[n := m]> (module_array s)) s)) ->
  (forall s n t (f : task_data -> task_data), Inv s -> 0 <= n ->
     task_array s !! Z.to_nat n = Some t ->
     Inv (set_task_array (<[Z.to_nat n := f t]> (task_array s)) s)) ->
  (forall res nsecs, c = CallClockSetPeriod res nsecs ->
     preserves Inv (rtapi_clock_set_period res nsecs)) ->
  (forall e task_id period_nsec, c = CallTaskStart e task_id period_nsec ->
     preserves Inv (rtapi_task_start h e task_id period_nsec)) ->
  preserves Inv (run h c).
Proof.
  intros Hlog Hheap Hmod Hstore Hclock Hstart.
  assert (Hstore' : forall s n t (f : task_data -> task_data), Inv s -> 0 <= n ->
            task_array s !! Z.to_nat n = Some t ->
            (task_magic t = TASK_MAGIC -> task_magic (f t) = TASK_MAGIC) ->
            Inv (set_task_array (<[Z.to_nat n := f t]> (task_array s)) s))
    by (intros; apply Hstore; assumption).
  assert (Hsm : forall n m, preserves Inv (store_module n m)).
  { intros n m s Hs. unfold store_module. destruct (n <? 0); [exact I|].
    destruct (module_array s !! Z.to_nat n); [apply Hmod, Hs | exact I]. }
  destruct c; cbn [run].
  - unfold rtapi_init. apply preserves_get_state. intros s0 _.
    apply preserves_bind; [apply preserves_scan_result|]. intros n.
    destruct (n <? MAX_MODULES); [|apply preserves_ret].
    apply preserves_bind; [apply Hsm | intros; apply preserves_ret].
  - unfold rtapi_exit. cbv zeta. destruct (_ || _); [apply preserves_ret|].
    apply preserves_bind; [apply Hsm | intros; apply preserves_ret].
  - apply Hclock. reflexivity.
  - apply preserves_rtapi_task_new; assumption.
  - apply preserves_rtapi_task_delete; try assumption.
    intros; apply Hstore; assumption.
  - apply Hstart. reflexivity.
  - apply preserves_rtapi_task_stop; assumption.
  - apply preserves_rtapi_task_pause.
  - apply preserves_rtapi_task_resume.
  - apply preserves_rtapi_task_set_period; assumption.
  - apply preserves_rtapi_wait; assumption.
  - apply preserves_bind; [|intros; apply preserves_ret].
    apply preserves_realtime_thread_run; assumption.
  - apply preserves_bind; [|intros; apply preserves_ret].
    apply preserves_realtime_thread_end; assumption.
Qed.

Lemma run_preserves_wf_state h c : preserves wf_state (run h c).
Proof.
  assert (Hstore : forall s n t (f : task_data -> task_data), wf_state s -> 0 <= n ->
            task_array s !! Z.to_nat n = Some t ->
            wf_state (set_task_array (<[Z.to_nat n := f t]> (task_array s)) s)).
  { intros s n t f [H1 H2] _ _. split; cbn [task_array module_array set_task_array];
      [rewrite length_insert; exact H1 | exact H2]. }
  apply run_preserves_frame.
  - intros s l H. exact H.
  - intros s hp H. exact H.
  - intros s n m [H1 H2]. split; cbn [task_array module_array set_module_array];
      [exact H1 | rewrite length_insert; exact H2].
  - exact Hstore.
  - intros res nsecs _. apply preserves_rtapi_clock_set_period; intros s x H; exact H.
  - intros e task_id period_nsec _.
    apply preserves_rtapi_task_start with (bindable := fun _ => True);
      [ intros s x H; exact H
      | intros s n t f Hs Hn Ht _; apply Hstore; assumption
      | intros s self n _ H; exact H
      | exact I ].
Qed.

(** Nothing but rtapi_clock_set_period writes the clock period, and that
    only while it is 0. *)
Lemma run_preserves_clock_period h c P :
  P <> 0 \/ (forall res nsecs, c <> CallClockSetPeriod res nsecs) ->
  preserves (fun s => period s = P) (run h c).
Proof.
  intros HP.
  apply run_preserves_frame; try (intros; assumption).
  - intros res nsecs ->. intros s Hs. unfold rtapi_clock_set_period.
    rewrite bind_eq. cbn [get_state]. cbv beta iota.
    destruct (nsecs =? 0); [exact Hs|].
    destruct HP as [HP|HP]; [|destruct (HP res nsecs); reflexivity].
    destruct (Z.eqb_spec (period s) 0) as [E|E]; [congruence|]. cbn [negb].
    rewrite bind_eq. unfold rtapi_print_msg. rewrite emit_eq. cbv beta iota.
    exact Hs.
  - intros e task_id period_nsec _.
    apply preserves_rtapi_task_start with (bindable := fun _ => True);
      try (intros; assumption). exact I.
Qed.

(** X11. The clock period is written once: along any run of calls into
    linux_rtapi.c (and of the realtime threads), a clock period that is
    set (not 0) stays what it is, and a clock period of any value stays
    what it is as long as no step is a call of rtapi_clock_set_period. *)
Theorem clock_period_set_once h cs (s s' : rtapi_state) :
  run_steps h cs s = Some s' ->
  period s <> 0 \/
    Forall (fun c => forall res nsecs, c <> CallClockSetPeriod res nsecs) cs ->
  period s' = period s.
Proof.
  intros Hrun [Hset|Hnone].
  - apply (run_steps_preserves h (fun s0 => period s0 = period s) (fun _ => True))
      with (cs := cs) (s := s); [| | reflexivity | exact Hrun].
    + intros c _. apply run_preserves_clock_period. left. exact Hset.
    + clear. induction cs; constructor; auto.
  - apply (run_steps_preserves h (fun s0 => period s0 = period s)
             (fun c => forall res nsecs, c <> CallClockSetPeriod res nsecs))
      with (cs := cs) (s := s); [| exact Hnone | reflexivity | exact Hrun].
    intros c Hc. apply run_preserves_clock_period. right. exact Hc.
Qed.

Lemma clock_period_set_once_witness :
  match run_steps example_host
          [ CallClockSetPeriod {| tv_sec := 0; tv_nsec := 1 |} 2000000;
            CallTaskStart example_start_env 0 500000;
            CallClockSetPeriod {| tv_sec := 0; tv_nsec := 1 |} 3000000 ]
          linux_clocked
  with
  | Some s' => period s' = period linux_clocked
  | None => False
  end.
Proof.
  assert (E : is_Some
                (run_steps example_host
                   [ CallClockSetPeriod {| tv_sec := 0; tv_nsec := 1 |} 2000000;
                     CallTaskStart example_start_env 0 500000;
                     CallClockSetPeriod {| tv_sec := 0; tv_nsec := 1 |} 3000000 ]
                   linux_clocked)) by (vm_compute; eauto).
  destruct (run_steps example_host
              [ CallClockSetPeriod {| tv_sec := 0; tv_nsec := 1 |} 2000000;
                CallTaskStart example_start_env 0 500000;
                CallClockSetPeriod {| tv_sec := 0; tv_nsec := 1 |} 3000000 ]
              linux_clocked) as [s'|] eqn:Hrun; [|destruct E; discriminate].
  apply (clock_period_set_once example_host _ linux_clocked s' Hrun).
  left. cbn. discriminate.
Defined.

Lemma run_preserves_period_range h c :
  clock_sane c -> preserves (fun s => 0 <= period s <= INT_MAX) (run h c).
Proof.
  intros Hc.
  apply run_preserves_frame; try (intros; assumption).
  - intros res nsecs ->. cbn [clock_sane] in Hc. intros s Hs.
    unfold rtapi_clock_set_period.
    rewrite bind_eq. cbn [get_state]. cbv beta iota.
    destruct (nsecs =? 0); [exact Hs|].
    destruct (period s =? 0); cbn [negb].
    + rewrite to_ulong_small by (unfold INT_MAX in Hc; lia).
      destruct (Z.eqb_spec (tv_nsec res) 0) as [|_]; [lia|]. cbv zeta.
      rewrite bind_eq. cbn [get_state]. cbv beta iota.
      rewrite bind_eq. cbn [put_state]. cbv beta iota.
      rewrite bind_eq. unfold rtapi_print_msg. rewrite emit_eq. cbv beta iota.
      rewrite ret_eq. cbn [holds_after period set_log set_clock_period].
      pose proof (to_int_range (to_ulong (nsecs / tv_nsec res * tv_nsec res))) as Hr.
      destruct (Z.ltb_spec (to_int (to_ulong (nsecs / tv_nsec res * tv_nsec res))) 1).
      * rewrite to_int_small by (unfold INT_MIN, INT_MAX in *; lia). lia.
      * lia.
    + rewrite bind_eq. unfold rtapi_print_msg. rewrite emit_eq. cbv beta iota.
      exact Hs.
  - intros e task_id period_nsec _.
    apply preserves_rtapi_task_start with (bindable := fun _ => True);
      try (intros; assumption). exact I.
Qed.

Lemma rtapi_task_start_bindings h e task_id period_nsec (s : rtapi_state) :
  reachable_inv s ->
  holds_after (rtapi_task_start h e task_id period_nsec s) bindings_in_range.
Proof.
  intros ([Hlen _] & Hper & Hkeys).
  destruct ((task_id <? 0) || (task_id >=? MAX_TASKS)) eqn:Hrange.
  - unfold rtapi_task_start. rewrite Hrange. exact Hkeys.
  - assert (Hid : 0 <= task_id < MAX_TASKS).
    { destruct (Z.ltb_spec task_id 0); [discriminate|].
      destruct (Z.geb_spec task_id MAX_TASKS); [discriminate|]. lia. }
    destruct (lookup_lt_is_Some_2 (task_array s) (Z.to_nat task_id)) as [t Ht];
      [rewrite Hlen; lia|].
    destruct (Z.eq_dec (task_magic t) TASK_MAGIC) as [Hm|Hm].
    + destruct (Z.eq_dec (period s) 0) as [Hp|Hp].
      * unfold rtapi_task_start. rewrite Hrange. mstep.
        rewrite (load_task_eq _ _ t) by side. rewrite Hm, Z.eqb_refl. cbn [negb]. mstep.
        cbn [get_state]. mstep. rewrite Hp.
        rewrite (store_task_eq _ _ _ t) by side. mstep. exact I.
      * assert (Hp' : 0 < period s <= INT_MAX) by lia.
        pose proof (rtapi_task_start_slot h e task_id period_nsec s t Hid Ht Hm Hp') as Hs.
        destruct (rtapi_task_start h e task_id period_nsec s) as [r s'| |];
          cbn [returns_with holds_after] in *; [|contradiction|exact I].
        cbv zeta in Hs.
        assert (Hk : task_key s' = <[created_thread e := task_id]> (task_key s) \/
                     task_key s' = task_key s).
        { destruct (create_retval e =? 0); destruct Hs as (_ & _ & Hk & _); auto. }
        intros self n. destruct Hk as [-> | ->]; [|apply Hkeys].
        destruct (Z.eq_dec (created_thread e) self) as [->|Hne].
        -- rewrite lookup_insert_eq. intros [= <-]. exact Hid.
        -- rewrite lookup_insert_ne by exact Hne. apply Hkeys.
    + unfold rtapi_task_start. rewrite Hrange. mstep.
      rewrite (load_task_eq _ _ t) by side.
      destruct (Z.eqb_spec (task_magic t) TASK_MAGIC); [contradiction|].
      cbn [negb]. exact Hkeys.
Qed.

Lemma run_preserves_reachable_inv h c :
  clock_sane c -> preserves reachable_inv (run h c).
Proof.
  intros Hc s Hs. pose proof Hs as (Hwf & Hper & Hkeys).
  unfold reachable_inv.
  apply holds_after_conj; [apply run_preserves_wf_state; exact Hwf|].
  apply holds_after_conj; [apply (run_preserves_period_range h c Hc); exact Hper|].
  destruct (match c with CallTaskStart _ _ _ => true | _ => false end) eqn:Hstart.
  - destruct c; try discriminate. cbn [run]. apply rtapi_task_start_bindings. exact Hs.
  - apply (run_preserves_frame h c bindings_in_range); try (intros; assumption).
    + intros res nsecs _.
      apply preserves_rtapi_clock_set_period; intros; assumption.
    + intros e task_id period_nsec ->. discriminate.
Qed.

(** X12. In every state a program reaches from one where it holds, the
    clock period is unset (0) or a positive int and every thread with a
    bound task is bound to a slot of the task table (and the tables keep
    their sizes), provided clock_getres reports a resolution between 1 ns
    and INT_MAX ns to each call of rtapi_clock_set_period. *)
Theorem reachable_inv_holds h cs (s s' : rtapi_state) :
  Forall clock_sane cs ->
  reachable_inv s ->
  run_steps h cs s = Some s' ->
  reachable_inv s'.
Proof.
  intros Hcs Hs Hrun.
  exact (run_steps_preserves h reachable_inv clock_sane
           (fun c Hc => run_preserves_reachable_inv h c Hc) cs s s' Hcs Hs Hrun).
Qed.

Lemma reachable_inv_initial : reachable_inv initial_state.
Proof.
  split; [split; reflexivity|]. split; [cbn; unfold INT_MAX; lia|].
  intros self n H. cbn in H. rewrite lookup_empty in H. discriminate.
Qed.

Lemma reachable_inv_holds_witness :
  match run_steps example_host linux_start_steps initial_state with
  | Some s' => reachable_inv s'
  | None => False
  end.
Proof.
  assert (E : is_Some (run_steps example_host linux_start_steps initial_state))
    by (vm_compute; eauto).
  destruct (run_steps example_host linux_start_steps initial_state) as [s'|] eqn:Hrun;
    [|destruct E; discriminate].
  apply (reachable_inv_holds example_host linux_start_steps initial_state s').
  - repeat constructor. cbn. unfold INT_MAX. lia.
  - exact reachable_inv_initial.
  - exact Hrun.
Defined.

(** ** The periodic wait *)

Lemma rtapi_wait_result (s : rtapi_state) self n t now minflt majflt next :
  task_key s !! self = Some n ->
  0 <= n ->
  task_array s !! Z.to_nat n = Some t ->
  task_deleted t = 0 ->
  advance_time (task_next_time t) (to_ulong (task_period t)) 0 = Some next ->
  let failures := to_uint (task_failures t + 1) in
  let report lvl :=
    Msg lvl "ERROR: Missed scheduling deadline for task"
    :: (if (to_ulong minflt <? task_minfault_base t)
             || (to_ulong majflt <? task_majfault_base t)
        then [Msg RTAPI_MSG_ERR "Got invalid fault counts"] else []) in
  rtapi_wait self now minflt majflt s =
    Returns 0
      (set_log
         ((if timespec_after now next then
             if failures =? 1 then report RTAPI_MSG_ERR
             else if failures <? 10 then report RTAPI_MSG_WARN
             else []
           else [])
          ++ Sleep (negb (task_deadline_scheduling t =? 0)) (task_next_time t) :: log s)
         (set_task_array
            (<[Z.to_nat n :=
                 if timespec_after now next
                 then set_failures failures (set_next_time next t)
                 else set_next_time next t]> (task_array s)) s)).
Proof.
  intros Hkey Hn Ht Hdel Hadv failures report.
  assert (Hlt : (Z.to_nat n < length (task_array s))%nat) by (eapply lookup_lt_Some; eauto).
  unfold rtapi_wait. mstep. unfold rtapi_this_task. rewrite Hkey.
  mstep. rewrite (load_task_eq _ _ t) by side.
  rewrite Hdel. cbn [Z.eqb negb]. mstep. rewrite emit_eq.
  mstep. unfold rtapi_advance_time. rewrite Hadv. mstep.
  rewrite (store_task_eq _ _ _ t) by side. mstep.
  destruct (timespec_after now next).
  - mstep.
    erewrite store_task_after_insert;
      [| lia | exact Hlt | cbn [task_array set_task_array set_log]; reflexivity].
    mstep. fold failures.
    assert (Hpf : forall lvl s1 arr,
      task_array s1 = <[Z.to_nat n := set_failures failures (set_next_time next t)]> arr ->
      (Z.to_nat n < length arr)%nat ->
      (rtapi_get_pagefault_count n minflt majflt;;
       rtapi_print_msg lvl "ERROR: Missed scheduling deadline for task") s1
      = Returns tt (set_log (report lvl ++ log s1) s1)).
    { intros lvl s1 arr Harr Hlen. mstep. unfold rtapi_get_pagefault_count. mstep.
      rewrite (load_task_eq _ _ (set_failures failures (set_next_time next t)))
        by (try lia; rewrite Harr; now apply list_lookup_insert_eq).
      cbn [task_minfault_base task_majfault_base set_failures set_next_time].
      subst report. cbv beta.
      destruct ((to_ulong minflt <? task_minfault_base t)
                || (to_ulong majflt <? task_majfault_base t)).
      - mstep. unfold rtapi_print_msg. rewrite !emit_eq. mstep. rewrite emit_eq.
        destruct s1. reflexivity.
      - mstep. unfold rtapi_print_msg. rewrite emit_eq. reflexivity. }
    destruct (failures =? 1).
    + erewrite Hpf; [| cbn [task_array set_task_array set_log]; reflexivity | exact Hlt].
      mstep. destruct s. reflexivity.
    + destruct (failures <? 10).
      * erewrite Hpf; [| cbn [task_array set_task_array set_log]; reflexivity | exact Hlt].
        mstep. destruct s. reflexivity.
      * mstep. reflexivity.
  - mstep. reflexivity.
Qed.

(** X13. rtapi_wait on a thread bound to a live task (deleted = 0) returns
    0 and does exactly this: it sleeps until the old next_time, moves
    next_time on by the task period, and, when the clock reads later than
    the new next_time, counts the miss (failures + 1, as an unsigned int)
    and reports it with falling severity: RTAPI_MSG_ERR on the first miss,
    RTAPI_MSG_WARN on misses 2 to 9, nothing from the tenth on. A report
    comes with the page-fault count, which adds its own error message when
    a sample, converted to unsigned long as the code does, is below its
    baseline. No other field, slot or part of the state changes. *)
Theorem rtapi_wait_report (s : rtapi_state) self n t now minflt majflt :
  task_key s !! self = Some n ->
  0 <= n ->
  task_array s !! Z.to_nat n = Some t ->
  task_deleted t = 0 ->
  exists next,
    advance_time (task_next_time t) (to_ulong (task_period t)) 0 = Some next /\
    let failures := to_uint (task_failures t + 1) in
    let report lvl :=
      Msg lvl "ERROR: Missed scheduling deadline for task"
      :: (if (to_ulong minflt <? task_minfault_base t)
             || (to_ulong majflt <? task_majfault_base t)
          then [Msg RTAPI_MSG_ERR "Got invalid fault counts"] else []) in
    rtapi_wait self now minflt majflt s =
      Returns 0
        (set_log
           ((if timespec_after now next then
               if failures =? 1 then report RTAPI_MSG_ERR
               else if failures <? 10 then report RTAPI_MSG_WARN
               else []
             else [])
            ++ Sleep (negb (task_deadline_scheduling t =? 0)) (task_next_time t) :: log s)
           (set_task_array
              (<[Z.to_nat n :=
                   if timespec_after now next
                   then set_failures failures (set_next_time next t)
                   else set_next_time next t]> (task_array s)) s)).
Proof.
  intros Hkey Hn Ht Hdel.
  destruct (advance_time_total (task_next_time t) (to_ulong (task_period t)) 0)
    as [next Hadv].
  exists next. split; [exact Hadv|].
  apply rtapi_wait_result; assumption.
Qed.

Lemma rtapi_wait_report_witness :
  exists next,
    advance_time {| tv_sec := 10; tv_nsec := 0 |} (to_ulong 1000000) 0 = Some next /\
    rtapi_wait 7 {| tv_sec := 10; tv_nsec := 2000000 |} (-1) 0 linux_waiting
      = Returns 0
          (set_log
             [ Msg RTAPI_MSG_ERR "ERROR: Missed scheduling deadline for task";
               Sleep false {| tv_sec := 10; tv_nsec := 0 |} ]
             (set_task_array
                (<[0%nat :=
                     set_failures 1
                       (set_next_time {| tv_sec := 10; tv_nsec := 1000000 |}
                          (set_next_time {| tv_sec := 10; tv_nsec := 0 |}
                             (set_period 1000000 (set_magic TASK_MAGIC zero_task))))]>
                   (task_array linux_waiting))
                linux_waiting)).
Proof.
  destruct (rtapi_wait_report linux_waiting 7 0
              (set_next_time {| tv_sec := 10; tv_nsec := 0 |}
                 (set_period 1000000 (set_magic TASK_MAGIC zero_task)))
              {| tv_sec := 10; tv_nsec := 2000000 |} (-1) 0)
    as (next & Hadv & Hrun).
  - reflexivity.
  - lia.
  - reflexivity.
  - reflexivity.
  - exists next. split; [exact Hadv|]. cbv zeta in Hrun. rewrite Hrun.
    vm_compute in Hadv. injection Hadv as <-. reflexivity.
Defined.

(** X14. What rtapi_wait can do in a state a program has reached: on a
    thread without a bound task it dereferences the null pointer; on a
    thread whose task has deleted set it ends the thread and changes
    nothing; otherwise it returns 0. The bound task is always a slot of the
    table, so there is no other undefined behaviour in the call. *)
Theorem rtapi_wait_outcomes (s : rtapi_state) self now minflt majflt :
  reachable_inv s ->
  match task_key s !! self with
  | None => rtapi_wait self now minflt majflt s = Faults NullPointerDereference
  | Some n =>
      exists t, task_array s !! Z.to_nat n = Some t /\
        if task_deleted t =? 0
        then returns_with (rtapi_wait self now minflt majflt s) (fun r _ => r = 0)
        else rtapi_wait self now minflt majflt s = ThreadExits s
  end.
Proof.
  intros ([Hlen _] & _ & Hkeys).
  destruct (task_key s !! self) as [n|] eqn:Hkey.
  - pose proof (Hkeys self n Hkey) as Hn.
    destruct (lookup_lt_is_Some_2 (task_array s) (Z.to_nat n)) as [t Ht];
      [rewrite Hlen; lia|].
    exists t. split; [exact Ht|].
    destruct (Z.eqb_spec (task_deleted t) 0) as [Hdel|Hdel].
    + destruct (advance_time_total (task_next_time t) (to_ulong (task_period t)) 0)
        as [next Hadv].
      rewrite (rtapi_wait_result s self n t now minflt majflt next) by (assumption || lia).
      reflexivity.
    + unfold rtapi_wait. mstep. unfold rtapi_this_task. rewrite Hkey. mstep.
      rewrite (load_task_eq _ _ t) by side.
      destruct (Z.eqb_spec (task_deleted t) 0); [contradiction|]. reflexivity.
  - unfold rtapi_wait. mstep. unfold rtapi_this_task. rewrite Hkey. reflexivity.
Qed.

Lemma rtapi_wait_outcomes_witness :
  rtapi_wait 8 {| tv_sec := 10; tv_nsec := 2000000 |} 0 0 linux_waiting
    = Faults NullPointerDereference /\
  exists t, task_array linux_waiting !! Z.to_nat 0 = Some t /\
    if task_deleted t =? 0
    then returns_with
           (rtapi_wait 7 {| tv_sec := 10; tv_nsec := 2000000 |} 0 0 linux_waiting)
           (fun r _ => r = 0)
    else rtapi_wait 7 {| tv_sec := 10; tv_nsec := 2000000 |} 0 0 linux_waiting
         = ThreadExits linux_waiting.
Proof.
  assert (Hinv : reachable_inv linux_waiting).
  { split; [split; reflexivity|]. split; [cbn; unfold INT_MAX; lia|].
    intros self n H. cbn in H.
    destruct (Z.eq_dec self 7) as [->|Hne].
    - rewrite lookup_singleton_eq in H. injection H as <-. unfold MAX_TASKS. lia.
    - rewrite lookup_singleton_ne in H by congruence. discriminate. }
  split.
  - exact (rtapi_wait_outcomes linux_waiting 8 {| tv_sec := 10; tv_nsec := 2000000 |} 0 0
             Hinv).
  - exact (rtapi_wait_outcomes linux_waiting 7 {| tv_sec := 10; tv_nsec := 2000000 |} 0 0
             Hinv).
Defined.

(** X30. A thread that rtapi_task_start reports as started can wait. After
    a return of 0 the created thread is bound to the task and [deleted] is
    0, so rtapi_wait on that thread returns 0: it neither dereferences a
    null task nor ends the thread. After a return of -ENOMEM with the
    thread created (its init phase failed) [deleted] is 1, and rtapi_wait
    on that thread would end it at once. *)
Theorem started_thread_waits h e n p (s : rtapi_state) t now minflt majflt :
  0 <= n < MAX_TASKS ->
  task_array s !! Z.to_nat n = Some t ->
  task_magic t = TASK_MAGIC ->
  0 < period s <= INT_MAX ->
  returns_with (rtapi_task_start h e n p s) (fun r s' =>
    (r = 0 ->
       returns_with (rtapi_wait (created_thread e) now minflt majflt s')
         (fun r' _ => r' = 0)) /\
    (r <> 0 -> create_retval e = 0 ->
       rtapi_wait (created_thread e) now minflt majflt s' = ThreadExits s')).
Proof.
  intros Hn Ht Hm Hp.
  assert (Hlen : (Z.to_nat n < length (task_array s))%nat)
    by (eapply lookup_lt_Some; exact Ht).
  eapply returns_with_weaken; [apply (rtapi_task_start_facts h e n p s t Hn Ht Hm Hp)|].
  intros r s' (t' & (Harr & Hkey & _) & Hr & Hdel & _).
  assert (Ht' : task_array s' !! Z.to_nat n = Some t')
    by (rewrite Harr; now apply list_lookup_insert_eq).
  destruct (Z.eqb_spec (create_retval e) 0) as [Hc|Hc]; cbn [andb] in *.
  - assert (Hbound : task_key s' !! created_thread e = Some n)
      by (rewrite Hkey; apply lookup_insert_eq).
    destruct (thread_comes_up h e t); cbn [negb] in *.
    + split; [|intros Hne; contradiction].
      intros _.
      destruct (advance_time_total (task_next_time t') (to_ulong (task_period t')) 0)
        as [next Hadv].
      rewrite (rtapi_wait_result s' (created_thread e) n t' now minflt majflt next)
        by (assumption || lia).
      reflexivity.
    + split; [intros Hz; rewrite Hr in Hz; vm_compute in Hz; discriminate|].
      intros _ _. unfold rtapi_wait. mstep. unfold rtapi_this_task. rewrite Hbound. mstep.
      rewrite (load_task_eq _ _ t') by (assumption || lia).
      rewrite Hdel. reflexivity.
  - split; [intros Hz; rewrite Hr in Hz; vm_compute in Hz; discriminate|].
    intros _ Hc'. contradiction.
Qed.

Lemma started_thread_waits_witness :
  returns_with (rtapi_task_start example_host example_start_env 0 500000 linux_clocked)
    (fun r s' =>
       r = 0 /\
       returns_with
         (rtapi_wait (created_thread example_start_env) {| tv_sec := 10; tv_nsec := 0 |}
            10 0 s')
         (fun r' _ => r' = 0)).
Proof.
  pose proof (started_thread_waits example_host example_start_env 0 500000 linux_clocked
                (set_next_time {| tv_sec := 10; tv_nsec := 0 |}
                   (set_period 1000000 (set_magic TASK_MAGIC zero_task)))
                {| tv_sec := 10; tv_nsec := 0 |} 10 0
                ltac:(unfold MAX_TASKS; lia) eq_refl eq_refl
                ltac:(cbn; unfold INT_MAX; lia)) as H.
  assert (E : returned
                (rtapi_task_start example_host example_start_env 0 500000 linux_clocked)
              = Some 0) by (vm_compute; reflexivity).
  destruct (rtapi_task_start example_host example_start_env 0 500000 linux_clocked)
    as [r s'| |] eqn:Hrun; try discriminate.
  injection E as ->. cbn [returns_with] in *. split; [reflexivity|].
  apply H. reflexivity.
Defined.

(** ** CPU affinity *)

Lemma last_cpu_range isset n : -1 <= last_cpu isset n < Z.of_nat n.
Proof.
  induction n as [|n IH]; cbn [last_cpu]; [lia|].
  destruct (isset (Z.of_nat n)); lia.
Qed.

Lemma last_cpu_none isset n :
  last_cpu isset n = -1 -> forall i, 0 <= i < Z.of_nat n -> isset i = false.
Proof.
  induction n as [|n IH]; cbn [last_cpu]; intros H i Hi; [lia|].
  destruct (isset (Z.of_nat n)) eqn:E; [lia|].
  destruct (Z.eq_dec i (Z.of_nat n)) as [->|Hne]; [exact E|].
  apply IH; [exact H | lia].
Qed.

Lemma last_cpu_some isset n :
  0 <= last_cpu isset n ->
  isset (last_cpu isset n) = true /\
  forall i, last_cpu isset n < i < Z.of_nat n -> isset i = false.
Proof.
  induction n as [|n IH]; cbn [last_cpu]; intros H; [lia|].
  destruct (isset (Z.of_nat n)) eqn:E.
  - split; [exact E|]. intros i Hi. lia.
  - destruct (IH H) as [Hset Habove]. split; [exact Hset|].
    intros i Hi. destruct (Z.eq_dec i (Z.of_nat n)) as [->|Hne]; [exact E|].
    apply Habove. lia.
Qed.

(** X15. The CPU realtime_set_affinity pins a thread to. A task with a CPU
    set (cpu > -1) is pinned to that CPU, provided it is below CPU_SETSIZE
    and in the affinity set of the thread; a task without one is pinned to
    the highest-numbered CPU of the set. In both cases the CPU asked for
    is in the set the thread had. When no CPU qualifies the call returns
    -EINVAL without asking for anything; otherwise it asks once, for the
    chosen CPU on the thread of the task, and returns 0, or -EINVAL when
    pthread_setaffinity_np fails. The task table is never written. *)
Theorem realtime_set_affinity_result h e n (s : rtapi_state) t :
  0 <= n ->
  task_array s !! Z.to_nat n = Some t ->
  returns_with (realtime_set_affinity h e n s) (fun r s' =>
    task_array s' = task_array s /\ task_key s' = task_key s /\
    period s' = period s /\ heap s' = heap s /\
    match chosen_cpu h e t with
    | Some c =>
        0 <= c < Z.of_nat (CPU_SETSIZE h) /\ affinity e c = true /\
        (if task_cpu t >? -1 then c = task_cpu t
         else forall i, c < i < Z.of_nat (CPU_SETSIZE h) -> affinity e i = false) /\
        r = (if setaffinity_err e =? 0 then 0 else - EINVAL) /\
        exists l, log s' = l ++ log s /\
          List.filter (fun ev => match ev with SetAffinity _ _ => true | _ => false end) l
            = [SetAffinity (task_thread t) c]
    | None =>
        (if task_cpu t >? -1
         then Z.of_nat (CPU_SETSIZE h) <= task_cpu t \/ affinity e (task_cpu t) = false
         else forall i, 0 <= i < Z.of_nat (CPU_SETSIZE h) -> affinity e i = false) /\
        r = - EINVAL /\
        exists text, log s' = Msg RTAPI_MSG_ERR text :: log s
    end).
Proof.
  intros Hn Ht. unfold realtime_set_affinity, chosen_cpu. cbv zeta.
  mstep. rewrite (load_task_eq _ _ t) by side.
  assert (Htail : forall c (s1 : rtapi_state) (Q : Z -> rtapi_state -> Prop),
    (forall l,
       List.filter (fun ev => match ev with SetAffinity _ _ => true | _ => false end) l
         = [SetAffinity (task_thread t) c] ->
       Q (if setaffinity_err e =? 0 then 0 else - EINVAL) (set_log (l ++ log s1) s1)) ->
    returns_with
      ((emit (SetAffinity (task_thread t) c);;
        (if negb (setaffinity_err e =? 0)
         then rtapi_print_msg RTAPI_MSG_ERR "Failed to set CPU affinity";; mret (- EINVAL)
         else rtapi_print_msg RTAPI_MSG_DBG
                "realtime_set_affinity(): task assigned to CPU";; mret 0)) s1) Q).
  { intros c s1 Q HQ. mstep. rewrite emit_eq. mstep.
    destruct (setaffinity_err e =? 0); cbn [negb]; mstep;
      unfold rtapi_print_msg; rewrite emit_eq; mstep; cbn [returns_with log set_log].
    - specialize (HQ [Msg RTAPI_MSG_DBG "realtime_set_affinity(): task assigned to CPU";
                      SetAffinity (task_thread t) c] eq_refl).
      destruct s1. exact HQ.
    - specialize (HQ [Msg RTAPI_MSG_ERR "Failed to set CPU affinity";
                      SetAffinity (task_thread t) c] eq_refl).
      destruct s1. exact HQ. }
  destruct (Z.gtb_spec (task_cpu t) (-1)) as [Hcpu|Hcpu].
  - destruct (CPU_ISSET h (task_cpu t) (affinity e)) eqn:Hset; cbn [negb].
    + mstep. apply Htail. intros l Hl.
      cbn [task_array task_key period heap log set_log].
      unfold CPU_ISSET in Hset.
      apply andb_prop in Hset as [Hset H3]. apply andb_prop in Hset as [H1 H2].
      apply Z.leb_le in H1. apply Z.ltb_lt in H2.
      repeat split; try assumption; try lia. exists l. split; [reflexivity | exact Hl].
    + mstep. unfold rtapi_print_msg. rewrite emit_eq. mstep.
      cbn [returns_with task_array task_key period heap log set_log].
      repeat split; [|eexists; reflexivity].
      unfold CPU_ISSET in Hset.
      destruct (Z.leb_spec 0 (task_cpu t)); [|lia].
      destruct (Z.ltb_spec (task_cpu t) (Z.of_nat (CPU_SETSIZE h))); cbn [andb] in Hset.
      * right. exact Hset.
      * left. lia.
  - pose proof (last_cpu_range (affinity e) (CPU_SETSIZE h)) as Hr.
    destruct (Z.ltb_spec (last_cpu (affinity e) (CPU_SETSIZE h)) 0) as [Hneg|Hpos].
    + mstep. unfold rtapi_print_msg. rewrite emit_eq. mstep.
      cbn [returns_with task_array task_key period heap log set_log].
      repeat split; [|eexists; reflexivity].
      apply last_cpu_none. lia.
    + mstep. unfold rtapi_print_msg at 1. rewrite emit_eq. mstep.
      apply Htail. intros l Hl.
      cbn [task_array task_key period heap log set_log].
      destruct (last_cpu_some (affinity e) (CPU_SETSIZE h) Hpos) as [Hset Habove].
      repeat split; try assumption; try lia.
      exists (l ++ [Msg RTAPI_MSG_DBG "using default CPU"]). split.
      * rewrite <- app_assoc. reflexivity.
      * rewrite List.filter_app, Hl. reflexivity.
Qed.

Lemma realtime_set_affinity_result_witness :
  returns_with (realtime_set_affinity example_host example_start_env 0 linux_waiting)
    (fun r s' => r = 0 /\ exists l,
       log s' = l ++ log linux_waiting /\
       List.filter (fun ev => match ev with SetAffinity _ _ => true | _ => false end) l
         = [SetAffinity 0 0]).
Proof.
  eapply returns_with_weaken.
  - apply (realtime_set_affinity_result example_host example_start_env 0 linux_waiting
             (set_next_time {| tv_sec := 10; tv_nsec := 0 |}
                (set_period 1000000 (set_magic TASK_MAGIC zero_task)))).
    + lia.
    + reflexivity.
  - intros r s' (_ & _ & _ & _ & H).
    assert (E : chosen_cpu example_host example_start_env
                  (set_next_time {| tv_sec := 10; tv_nsec := 0 |}
                     (set_period 1000000 (set_magic TASK_MAGIC zero_task)))
                = Some 0) by (vm_compute; reflexivity).
    rewrite E in H. destruct H as (_ & _ & _ & Hr & Hl). split; [exact Hr | exact Hl].
Defined.

(** ** The SIGXCPU handler *)

Lemma overruns_cons signr signals :
  overruns (signr :: signals)
    = (if SIGXCPU =? signr then 1 else 0) + overruns signals.
Proof.
  unfold overruns. cbn [List.filter]. destruct (SIGXCPU =? signr); cbn [length]; lia.
Qed.

Lemma overruns_nonneg signals : 0 <= overruns signals.
Proof. unfold overruns. lia. Qed.

(** X16. deadline_exception reports an overrun once. Started with the
    counter at [c >= 0] and run on any sequence of signals with fewer than
    INT_MAX - c + 1 SIGXCPU among them, the handler never overflows its
    counter, the counter ends at [c] plus the number of SIGXCPU, the
    overrun message is printed exactly once if [c] was 0 and a SIGXCPU
    came, and not at all otherwise, and the log grows by one message for
    every other signal. At INT_MAX the increment on the next SIGXCPU is a
    signed overflow. *)
Theorem deadline_exception_reports_once signals st :
  0 <= error_printed st ->
  (error_printed st + overruns signals <= INT_MAX ->
   exists st',
     deliver signals st = Some st' /\
     error_printed st' = error_printed st + overruns signals /\
     overrun_reports (handler_log st')
       = (if (error_printed st =? 0) && (0 <? overruns signals)
          then [Msg RTAPI_MSG_ERR
                  "Missed scheduling deadline or overran scheduling runtime!"]
          else [])
         ++ overrun_reports (handler_log st) /\
     Z.of_nat (length (handler_log st'))
       = Z.of_nat (length (handler_log st))
         + (Z.of_nat (length signals) - overruns signals)
         + (if (error_printed st =? 0) && (0 <? overruns signals) then 1 else 0)) /\
  (error_printed st = INT_MAX -> deadline_exception SIGXCPU st = None).
Proof.
  intros Hc. split.
  - revert st Hc. induction signals as [|signr signals IH]; intros st Hc Hmax.
    + exists st. cbn [deliver]. change (overruns []) with 0.
      rewrite andb_false_r. cbn [app length]. repeat split; lia.
    + rewrite overruns_cons in *. pose proof (overruns_nonneg signals) as Hnn.
      cbn [deliver]. unfold deadline_exception.
      destruct (Z.eqb_spec SIGXCPU signr) as [<-|Hne].
      * rewrite Z.eqb_refl. cbn [negb].
        destruct (Z.eqb_spec (error_printed st) INT_MAX) as [E|_]; [lia|].
        match goal with |- context [deliver signals ?x] => set (st1 := x) end.
        destruct (IH st1) as (st' & Hrun & Hcnt & Hrep & Hlen);
          [subst st1; cbn [error_printed]; lia..|].
        exists st'. split; [exact Hrun|].
        subst st1. cbn [error_printed handler_log] in *.
        split; [lia|].
        destruct (Z.eqb_spec (error_printed st) 0) as [E0|E0].
        -- destruct (Z.eqb_spec (error_printed st + 1) 0) as [|_]; [lia|].
           cbn [andb] in *. replace (0 <? 1 + overruns signals) with true
             by (symmetry; apply Z.ltb_lt; lia).
           cbn [overrun_reports List.filter String.eqb app length] in *.
           split; [exact Hrep|]. rewrite Hlen.
           rewrite Nat2Z.inj_succ. cbn [length]. rewrite Nat2Z.inj_succ. lia.
        -- destruct (Z.eqb_spec (error_printed st + 1) 0) as [|_]; [lia|].
           cbn [andb app] in *. split; [exact Hrep|]. rewrite Hlen.
           cbn [length]. rewrite Nat2Z.inj_succ. lia.
      * destruct (Z.eqb_spec signr SIGXCPU) as [E|_]; [congruence|]. cbn [negb].
        match goal with |- context [deliver signals ?x] => set (st1 := x) end.
        destruct (IH st1) as (st' & Hrun & Hcnt & Hrep & Hlen);
          [subst st1; cbn [error_printed]; lia..|].
        exists st'. split; [exact Hrun|].
        subst st1. cbn [error_printed handler_log] in *.
        split; [lia|]. rewrite Z.add_0_l.
        split; [exact Hrep|]. rewrite Hlen. cbn [length].
        rewrite !Nat2Z.inj_succ. lia.
  - intros E. unfold deadline_exception. rewrite Z.eqb_refl. cbn [negb].
    rewrite E, Z.eqb_refl. reflexivity.
Qed.

Lemma deadline_exception_reports_once_witness :
  exists st',
    deliver [SIGXCPU; 10; SIGXCPU; SIGXCPU]
      {| error_printed := 0; handler_log := [] |} = Some st' /\
    error_printed st' = 3 /\
    overrun_reports (handler_log st')
      = [Msg RTAPI_MSG_ERR "Missed scheduling deadline or overran scheduling runtime!"] /\
    length (handler_log st') = 2%nat.
Proof.
  destruct (proj1 (deadline_exception_reports_once [SIGXCPU; 10; SIGXCPU; SIGXCPU]
                     {| error_printed := 0; handler_log := [] |} ltac:(cbn; lia)))
    as (st' & Hrun & Hcnt & Hrep & Hlen).
  - vm_compute. discriminate.
  - exists st'. split; [exact Hrun|]. split; [exact Hcnt|]. split; [exact Hrep|].
    apply Nat2Z.inj. rewrite Hlen. reflexivity.
Defined.

(** ** Reading the clock *)

Lemma long_value_in z :
  -9223372036854775808 <= z <= 9223372036854775807 -> long_value z = Some z.
Proof.
  intros H. unfold long_value.
  destruct (Z.leb_spec (-9223372036854775808) z); [|lia].
  destruct (Z.leb_spec z 9223372036854775807); [|lia]. reflexivity.
Qed.

Lemma rtapi_get_time_value now :
  0 <= tv_sec now <= 9223372035 ->
  0 <= tv_nsec now < 1000000000 ->
  rtapi_get_time now = Some (timespec_ns now).
Proof.
  intros Hs Hn. unfold rtapi_get_time, timespec_ns.
  rewrite long_value_in by lia. cbn [mbind option_bind].
  rewrite long_value_in by lia. cbn [mbind option_bind].
  rewrite long_value_in by lia. cbn [mbind option_bind].
  rewrite long_value_in by lia. f_equal. lia.
Qed.

(** X17. rtapi_get_time and the deadline test of rtapi_wait order clock
    readings alike. For readings as clock_gettime gives them (seconds from
    0 to 9223372035, nanoseconds from 0 to 999999999) rtapi_get_time does
    not overflow and returns seconds * 10^9 + nanoseconds, and the
    comparison written out in rtapi_wait holds of two readings exactly when
    the first has the greater rtapi_get_time. *)
Theorem rtapi_get_time_orders a b :
  0 <= tv_sec a <= 9223372035 -> 0 <= tv_nsec a < 1000000000 ->
  0 <= tv_sec b <= 9223372035 -> 0 <= tv_nsec b < 1000000000 ->
  exists ta tb,
    rtapi_get_time a = Some ta /\ rtapi_get_time b = Some tb /\
    ta = tv_sec a * 1000000000 + tv_nsec a /\
    (timespec_after a b = true <-> tb < ta).
Proof.
  intros Hsa Hna Hsb Hnb.
  exists (timespec_ns a), (timespec_ns b).
  split; [apply rtapi_get_time_value; assumption|].
  split; [apply rtapi_get_time_value; assumption|].
  split; [reflexivity|].
  unfold timespec_after, timespec_ns.
  destruct (Z.gtb_spec (tv_sec a) (tv_sec b)) as [H1|H1]; cbn [orb].
  - split; [intros _; lia | reflexivity].
  - destruct (Z.eqb_spec (tv_sec a) (tv_sec b)) as [H2|H2]; cbn [andb].
    + destruct (Z.gtb_spec (tv_nsec a) (tv_nsec b)) as [H3|H3].
      * split; [intros _; lia | reflexivity].
      * split; [discriminate | intros; lia].
    + split; [discriminate | intros; lia].
Qed.

Lemma rtapi_get_time_orders_witness :
  exists ta tb,
    rtapi_get_time {| tv_sec := 10; tv_nsec := 2000000 |} = Some ta /\
    rtapi_get_time {| tv_sec := 10; tv_nsec := 1000000 |} = Some tb /\
    ta = 10 * 1000000000 + 2000000 /\
    (timespec_after {| tv_sec := 10; tv_nsec := 2000000 |}
       {| tv_sec := 10; tv_nsec := 1000000 |} = true <-> tb < ta).
Proof.
  apply (rtapi_get_time_orders {| tv_sec := 10; tv_nsec := 2000000 |}
           {| tv_sec := 10; tv_nsec := 1000000 |}); cbn; lia.
Defined.

(** ** Module handles *)

(** X18. A module handle given back by rtapi_exit is the one the next
    rtapi_init hands out: with lowest free module slot [j], rtapi_init
    returns [j + MODULE_OFFSET], rtapi_exit of that handle returns 0 and
    leaves the module table as it was but for magic 0 in slot [j], and the
    next rtapi_init returns the same handle. The module name plays no part:
    linux_rtapi.c does not store it. *)
Theorem rtapi_init_exit_round_trip (s : rtapi_state) modname modname' j m :
  wf_state s ->
  0 <= j < MAX_MODULES ->
  (forall i m', 0 <= i < j -> module_array s !! Z.to_nat i = Some m' ->
                module_magic m' = MODULE_MAGIC) ->
  module_array s !! Z.to_nat j = Some m ->
  module_magic m <> MODULE_MAGIC ->
  returns_with (rtapi_init modname s) (fun h1 s1 =>
    h1 = j + MODULE_OFFSET /\
    returns_with (rtapi_exit h1 s1) (fun r s2 =>
      r = 0 /\
      s2 = set_module_array (<[Z.to_nat j := {| module_magic := 0 |}]> (module_array s)) s /\
      returns_with (rtapi_init modname' s2) (fun h2 _ => h2 = h1))).
Proof.
  intros Hwf Hj Hbelow Hm Hfree.
  assert (Hjlen : (Z.to_nat j < length (module_array s))%nat)
    by (eapply lookup_lt_Some; exact Hm).
  rewrite (rtapi_init_first_free s modname j m Hwf Hj Hbelow Hm Hfree).
  cbn [returns_with]. split; [reflexivity|].
  set (s1 := set_module_array _ s).
  assert (Hwf1 : wf_state s1).
  { destruct Hwf as [H1 H2]. split; [exact H1|]. subst s1.
    cbn [module_array set_module_array]. rewrite length_insert. exact H2. }
  destruct (rtapi_exit_result (j + MODULE_OFFSET) s1 Hwf1) as [Hexit _].
  rewrite Hexit by lia. cbn [returns_with]. split; [reflexivity|].
  replace (j + MODULE_OFFSET - MODULE_OFFSET) with j by lia.
  subst s1. cbn [module_array set_module_array]. rewrite list_insert_insert_eq.
  assert (Heq : set_module_array (<[Z.to_nat j := {| module_magic := 0 |}]> (module_array s))
                  (set_module_array
                     (<[Z.to_nat j := {| module_magic := MODULE_MAGIC |}]> (module_array s)) s)
                = set_module_array
                    (<[Z.to_nat j := {| module_magic := 0 |}]> (module_array s)) s)
    by (destruct s; reflexivity).
  rewrite Heq. split; [reflexivity|].
  rewrite (rtapi_init_first_free _ modname' j {| module_magic := 0 |}).
  - reflexivity.
  - destruct Hwf as [H1 H2]. split; [exact H1|].
    cbn [module_array set_module_array]. rewrite length_insert. exact H2.
  - exact Hj.
  - intros i m' Hi Hm'. cbn [module_array set_module_array] in Hm'.
    rewrite list_lookup_insert_ne in Hm' by lia. exact (Hbelow i m' Hi Hm').
  - cbn [module_array set_module_array]. now apply list_lookup_insert_eq.
  - cbn. unfold MODULE_MAGIC. discriminate.
Qed.

Lemma rtapi_init_exit_round_trip_witness :
  returns_with (rtapi_init (Some "hal_lib") initial_state) (fun h1 s1 =>
    h1 = 0 + MODULE_OFFSET /\
    returns_with (rtapi_exit h1 s1) (fun r s2 =>
      r = 0 /\
      s2 = set_module_array
             (<[Z.to_nat 0 := {| module_magic := 0 |}]> (module_array initial_state))
             initial_state /\
      returns_with (rtapi_init None s2) (fun h2 _ => h2 = h1))).
Proof.
  apply (rtapi_init_exit_round_trip initial_state (Some "hal_lib") None 0
           {| module_magic := 0 |}).
  - split; reflexivity.
  - unfold MAX_MODULES. lia.
  - intros i m' Hi. lia.
  - reflexivity.
  - cbn. unfold MODULE_MAGIC. discriminate.
Defined.

(** * More of rt-preempt.c *)

(** ** The task of the calling thread *)

Lemma _rtapi_task_self_hook_result h self (s : RtPreempt.rtapi_state) :
  RtPreempt.wf_state h s ->
  exists r,
    RtPreempt._rtapi_task_self_hook h self s = Returns r s /\
    ((1 <= r <= RTAPI_MAX_TASKS h /\
      (exists x, RtPreempt.extra_task_data s !! Z.to_nat r = Some x /\
                 RtPreempt.thread x = self) /\
      (forall i x, 1 <= i < r -> RtPreempt.extra_task_data s !! Z.to_nat i = Some x ->
                   RtPreempt.thread x <> self))
     \/
     (r = - EINVAL /\
      forall i x, 1 <= i <= RTAPI_MAX_TASKS h ->
                  RtPreempt.extra_task_data s !! Z.to_nat i = Some x ->
                  RtPreempt.thread x <> self)).
Proof.
  intros (Hmm & Hmt & Hlm & Hlt & Hle & Hls).
  unfold RtPreempt._rtapi_task_self_hook. mstep. cbn [get_state]. mstep.
  destruct (scan_spec (fun x => negb (RtPreempt.thread x =? self))
              (RtPreempt.extra_task_data s) (RTAPI_MAX_TASKS h + 1)
              ltac:(rewrite Hle; lia) (S (Z.to_nat (RTAPI_MAX_TASKS h))) 1)
    as (k & Hk & Hk1 & Hkb & Hbelow & Hat); try lia.
  rewrite Hk. cbn [RtPreempt.scan_result]. mstep.
  assert (Hne : forall i x, 1 <= i < k ->
            RtPreempt.extra_task_data s !! Z.to_nat i = Some x ->
            RtPreempt.thread x <> self).
  { intros i x Hi Hx. destruct (Hbelow i Hi) as (a & Ha & Hused).
    rewrite Hx in Ha. injection Ha as <-.
    destruct (Z.eqb_spec (RtPreempt.thread x) self); [discriminate | assumption]. }
  destruct (Z.leb_spec k (RTAPI_MAX_TASKS h)) as [Hle'|Hgt].
  - exists k. split; [reflexivity|]. left. split; [lia|]. split; [|exact Hne].
    destruct Hat as (a & Ha & Hfree); [lia|]. exists a. split; [exact Ha|].
    destruct (Z.eqb_spec (RtPreempt.thread a) self); [assumption | discriminate].
  - exists (- EINVAL). split; [reflexivity|]. right. split; [reflexivity|].
    intros i x Hi. apply Hne. lia.
Qed.

(** X19. _rtapi_task_self_hook returns the lowest task id from 1 to
    RTAPI_MAX_TASKS whose [thread] is the calling thread, and -EINVAL when
    there is none; slot 0 is never looked at, and the state is left as it
    is. *)
Theorem _rtapi_task_self_hook_spec h self (s : RtPreempt.rtapi_state) :
  RtPreempt.wf_state h s ->
  exists r,
    RtPreempt._rtapi_task_self_hook h self s = Returns r s /\
    ((1 <= r <= RTAPI_MAX_TASKS h /\
      (exists x, RtPreempt.extra_task_data s !! Z.to_nat r = Some x /\
                 RtPreempt.thread x = self) /\
      (forall i x, 1 <= i < r -> RtPreempt.extra_task_data s !! Z.to_nat i = Some x ->
                   RtPreempt.thread x <> self))
     \/
     (r = - EINVAL /\
      forall i x, 1 <= i <= RTAPI_MAX_TASKS h ->
                  RtPreempt.extra_task_data s !! Z.to_nat i = Some x ->
                  RtPreempt.thread x <> self)).
Proof. apply _rtapi_task_self_hook_result. Qed.

Lemma preempt_wf_initial : RtPreempt.wf_state example_host (RtPreempt.initial_state example_host).
Proof. repeat split; cbn; lia. Qed.

Lemma preempt_wf_waiting : RtPreempt.wf_state example_host preempt_waiting.
Proof. repeat split; cbn; lia. Qed.

Lemma preempt_wf_running : RtPreempt.wf_state example_host preempt_running.
Proof. repeat split; cbn; lia. Qed.

Lemma _rtapi_task_self_hook_spec_witness :
  RtPreempt._rtapi_task_self_hook example_host 7 preempt_running
    = Returns 1 preempt_running /\
  RtPreempt._rtapi_task_self_hook example_host 9 preempt_running
    = Returns 2 preempt_running /\
  RtPreempt._rtapi_task_self_hook example_host 5 preempt_running
    = Returns (- EINVAL) preempt_running.
Proof.
  split; [|split].
  - destruct (_rtapi_task_self_hook_spec example_host 7 preempt_running preempt_wf_running)
      as (r & Hrun & [(Hrange & (x & Hx & Hthr) & Hlow) | (-> & Hnone)]).
    + rewrite Hrun. f_equal.
      destruct (Z.eq_dec r 1) as [E|E]; [exact E|]. exfalso.
      apply (Hlow 1 (preempt_running_extra 7 4096 1207)); [lia | reflexivity | reflexivity].
    + exfalso.
      apply (Hnone 1 (preempt_running_extra 7 4096 1207));
        [cbn; lia | reflexivity | reflexivity].
  - destruct (_rtapi_task_self_hook_spec example_host 9 preempt_running preempt_wf_running)
      as (r & Hrun & [(Hrange & (x & Hx & Hthr) & Hlow) | (-> & Hnone)]).
    + rewrite Hrun. f_equal.
      destruct (Z.eq_dec r 2) as [E|E]; [exact E|]. exfalso.
      destruct (Z.eq_dec r 1) as [E1|E1].
      * subst r. cbn in Hx. injection Hx as <-. discriminate Hthr.
      * apply (Hlow 2 (preempt_running_extra 9 24576 1209));
          [lia | reflexivity | reflexivity].
    + exfalso.
      apply (Hnone 2 (preempt_running_extra 9 24576 1209));
        [cbn; lia | reflexivity | reflexivity].
  - destruct (_rtapi_task_self_hook_spec example_host 5 preempt_running preempt_wf_running)
      as (r & Hrun & Hr).
    rewrite Hrun. f_equal.
    assert (E : returned (RtPreempt._rtapi_task_self_hook example_host 5 preempt_running)
                = Some (- EINVAL)) by (vm_compute; reflexivity).
    rewrite Hrun in E. injection E as ->. reflexivity.
Defined.

(** ** Statistics *)

Lemma _rtapi_task_update_stats_hook_cases h self ru (s : RtPreempt.rtapi_state) :
  RtPreempt.wf_state h s ->
  exists r,
    RtPreempt._rtapi_task_self_hook h self s = Returns r s /\
    (r < 0 ->
       RtPreempt._rtapi_task_update_stats_hook h self ru s
         = Returns (- ENOENT)
             (RtPreempt.set_log
                (Msg RTAPI_MSG_ERR "_rtapi_task_update_stats_hook: BUG" :: RtPreempt.log s)
                s)) /\
    (0 <= r ->
       match ru with
       | inr errno =>
           RtPreempt._rtapi_task_update_stats_hook h self ru s
             = Returns errno
                 (RtPreempt.set_log
                    (Msg RTAPI_MSG_ERR "getrusage()" :: RtPreempt.log s) s)
       | inl u =>
           exists st,
             RtPreempt.thread_status s !! Z.to_nat r = Some st /\
             RtPreempt._rtapi_task_update_stats_hook h self ru s
               = Returns r
                   (RtPreempt.set_thread_status
                      (<[Z.to_nat r :=
                           {| RtPreempt.utime_sec := fst (RtPreempt.ru_utime u);
                              RtPreempt.utime_usec := snd (RtPreempt.ru_utime u);
                              RtPreempt.stime_sec := fst (RtPreempt.ru_stime u);
                              RtPreempt.stime_usec := snd (RtPreempt.ru_stime u);
                              RtPreempt.st_minflt := RtPreempt.ru_minflt u;
                              RtPreempt.st_majflt := RtPreempt.ru_majflt u;
                              RtPreempt.st_nsignals := RtPreempt.ru_nsignals u;
                              RtPreempt.st_nivcsw := RtPreempt.ru_nivcsw u;
                              RtPreempt.wait_errors := RtPreempt.wait_errors st;
                              RtPreempt.num_updates :=
                                RtPreempt.incr (RtPreempt.num_updates st) |}]>
                         (RtPreempt.thread_status s)) s)
       end).
Proof.
  intros Hwf.
  destruct (_rtapi_task_self_hook_result h self s Hwf) as (r & Hself & Hr).
  destruct Hwf as (Hmm & Hmt & Hlm & Hlt & Hle & Hls).
  exists r. split; [exact Hself|].
  unfold RtPreempt._rtapi_task_update_stats_hook. rewrite bind_eq, Hself. cbv beta iota.
  destruct Hr as [(Hrange & _) | (-> & _)].
  - split; [intros; lia|]. intros _. rewrite range_check_in' by lia.
    destruct ru as [u|errno].
    + destruct (lookup_lt_is_Some_2 (RtPreempt.thread_status s) (Z.to_nat r)) as [st Hst];
        [lia|].
      exists st. split; [exact Hst|]. mstep. unfold RtPreempt.store_status.
      rewrite (preempt_store_eq _ _ _ _ _ st) by side. mstep. reflexivity.
    + reflexivity.
  - split; [|unfold EINVAL; intros; lia]. intros _. reflexivity.
Qed.

(** X20. _rtapi_task_update_stats_hook, by what _rtapi_task_self_hook
    finds for the calling thread. Without a task (-EINVAL) it prints the
    BUG message and returns -ENOENT. With task [r], when getrusage fails
    it prints a message and returns errno itself, a positive number where
    the other failure is negative; when getrusage succeeds it copies the
    sample into thread_status[r], adds one to num_updates, leaves
    wait_errors alone, and returns [r]. Nothing else changes. *)
Theorem _rtapi_task_update_stats_hook_result h self ru (s : RtPreempt.rtapi_state) :
  RtPreempt.wf_state h s ->
  exists r,
    RtPreempt._rtapi_task_self_hook h self s = Returns r s /\
    (r < 0 ->
       RtPreempt._rtapi_task_update_stats_hook h self ru s
         = Returns (- ENOENT)
             (RtPreempt.set_log
                (Msg RTAPI_MSG_ERR "_rtapi_task_update_stats_hook: BUG" :: RtPreempt.log s)
                s)) /\
    (0 <= r ->
       match ru with
       | inr errno =>
           RtPreempt._rtapi_task_update_stats_hook h self ru s
             = Returns errno
                 (RtPreempt.set_log
                    (Msg RTAPI_MSG_ERR "getrusage()" :: RtPreempt.log s) s)
       | inl u =>
           exists st,
             RtPreempt.thread_status s !! Z.to_nat r = Some st /\
             RtPreempt._rtapi_task_update_stats_hook h self ru s
               = Returns r
                   (RtPreempt.set_thread_status
                      (<[Z.to_nat r :=
                           {| RtPreempt.utime_sec := fst (RtPreempt.ru_utime u);
                              RtPreempt.utime_usec := snd (RtPreempt.ru_utime u);
                              RtPreempt.stime_sec := fst (RtPreempt.ru_stime u);
                              RtPreempt.stime_usec := snd (RtPreempt.ru_stime u);
                              RtPreempt.st_minflt := RtPreempt.ru_minflt u;
                              RtPreempt.st_majflt := RtPreempt.ru_majflt u;
                              RtPreempt.st_nsignals := RtPreempt.ru_nsignals u;
                              RtPreempt.st_nivcsw := RtPreempt.ru_nivcsw u;
                              RtPreempt.wait_errors := RtPreempt.wait_errors st;
                              RtPreempt.num_updates :=
                                RtPreempt.incr (RtPreempt.num_updates st) |}]>
                         (RtPreempt.thread_status s)) s)
       end).
Proof. apply _rtapi_task_update_stats_hook_cases. Qed.

Lemma _rtapi_task_update_stats_hook_result_witness :
  RtPreempt._rtapi_task_update_stats_hook example_host 9 (inl example_rusage)
      preempt_running
    = Returns 2
        (RtPreempt.set_thread_status
           (<[2%nat :=
                {| RtPreempt.utime_sec := 3; RtPreempt.utime_usec := 250000;
                   RtPreempt.stime_sec := 1; RtPreempt.stime_usec := 500;
                   RtPreempt.st_minflt := 42; RtPreempt.st_majflt := 1;
                   RtPreempt.st_nsignals := 0; RtPreempt.st_nivcsw := 6;
                   RtPreempt.wait_errors := 0; RtPreempt.num_updates := 1 |}]>
              (RtPreempt.thread_status preempt_running))
           preempt_running) /\
  RtPreempt._rtapi_task_update_stats_hook example_host 7 (inr 14) preempt_running
    = Returns 14
        (RtPreempt.set_log
           (Msg RTAPI_MSG_ERR "getrusage()" :: RtPreempt.log preempt_running)
           preempt_running) /\
  RtPreempt._rtapi_task_update_stats_hook example_host 5 (inr 14) preempt_running
    = Returns (- ENOENT)
        (RtPreempt.set_log
           (Msg RTAPI_MSG_ERR "_rtapi_task_update_stats_hook: BUG"
            :: RtPreempt.log preempt_running) preempt_running).
Proof.
  split; [|split].
  - destruct (_rtapi_task_update_stats_hook_result example_host 9 (inl example_rusage)
                preempt_running preempt_wf_running) as (r & Hself & _ & Hpos).
    assert (E : returned (RtPreempt._rtapi_task_self_hook example_host 9 preempt_running)
                = Some 2) by (vm_compute; reflexivity).
    rewrite Hself in E. injection E as ->.
    destruct (Hpos ltac:(lia)) as (st & Hst & Hrun).
    cbn in Hst. injection Hst as <-. rewrite Hrun. reflexivity.
  - destruct (_rtapi_task_update_stats_hook_result example_host 7 (inr 14)
                preempt_running preempt_wf_running) as (r & Hself & _ & Hpos).
    assert (E : returned (RtPreempt._rtapi_task_self_hook example_host 7 preempt_running)
                = Some 1) by (vm_compute; reflexivity).
    rewrite Hself in E. injection E as ->.
    apply Hpos. lia.
  - destruct (_rtapi_task_update_stats_hook_result example_host 5 (inr 14)
                preempt_running preempt_wf_running) as (r & Hself & Hneg & _).
    apply Hneg.
    assert (E : returned (RtPreempt._rtapi_task_self_hook example_host 5 preempt_running)
                = Some (- EINVAL)) by (vm_compute; reflexivity).
    rewrite Hself in E. injection E as ->. unfold EINVAL. lia.
Defined.

(** ** The periodic wait of rt-preempt.c *)

(** The statistics update writes its own messages to the log and the
    status table only. *)
Lemma _rtapi_task_update_stats_hook_frame h self ru (s : RtPreempt.rtapi_state) :
  RtPreempt.wf_state h s ->
  returns_with (RtPreempt._rtapi_task_update_stats_hook h self ru s) (fun _ s' =>
    RtPreempt.extra_task_data s' = RtPreempt.extra_task_data s /\
    RtPreempt.rt_exception_handler s' = RtPreempt.rt_exception_handler s /\
    length (RtPreempt.thread_status s') = length (RtPreempt.thread_status s) /\
    exists l, RtPreempt.log s' = l ++ RtPreempt.log s /\ handler_calls l = []).
Proof.
  intros Hwf.
  destruct (_rtapi_task_update_stats_hook_cases h self ru s Hwf)
    as (r & _ & Hneg & Hpos).
  destruct (Z.lt_ge_cases r 0) as [Hr|Hr].
  - rewrite (Hneg Hr). cbn. repeat split. eexists [_]. split; reflexivity.
  - specialize (Hpos Hr). destruct ru as [u|errno].
    + destruct Hpos as (st & Hst & ->). cbn. repeat split.
      * apply length_insert.
      * exists []. split; reflexivity.
    + rewrite Hpos. cbn. repeat split. eexists [_]. split; reflexivity.
Qed.

(** X21. _rtapi_wait_hook on a thread bound to task [n]. With [deleted]
    set it ends the thread and changes nothing. Otherwise it returns 0
    after the sleep until the old next_time, and it calls the exception
    handler, once and for task [n], exactly when the clock reads later
    than the advanced next_time, the build is not RTAPI_POSIX and a
    handler is installed; when the deadline is met nothing but the sleep
    is logged. The handler pointer itself is never written. *)
Theorem _rtapi_wait_hook_dispatch h (s : RtPreempt.rtapi_state) self n x task st now ru :
  RtPreempt.wf_state h s ->
  RtPreempt.task_key s !! self = Some n ->
  0 <= n ->
  RtPreempt.extra_task_data s !! Z.to_nat n = Some x ->
  RtPreempt.task_array s !! Z.to_nat n = Some task ->
  RtPreempt.thread_status s !! Z.to_nat n = Some st ->
  (RtPreempt.deleted x <> 0 ->
     RtPreempt._rtapi_wait_hook h self now ru s = ThreadExits s) /\
  (RtPreempt.deleted x = 0 ->
     exists next,
       advance_time (RtPreempt.next_time x) (to_ulong (RtPreempt.task_period task)) 0
         = Some next /\
       returns_with (RtPreempt._rtapi_wait_hook h self now ru s) (fun r s' =>
         r = 0 /\
         RtPreempt.rt_exception_handler s' = RtPreempt.rt_exception_handler s /\
         exists l,
           RtPreempt.log s' = l ++ Sleep false (RtPreempt.next_time x) :: RtPreempt.log s /\
           handler_calls l =
             (if timespec_after now next && negb (RTAPI_POSIX h)
                 && negb (RtPreempt.rt_exception_handler s =? NULL)
              then [ExceptionHandler n] else []) /\
           (timespec_after now next = false -> l = []))).
Proof.
  intros Hwf Hkey Hn Hx Htask Hst. split.
  - intros Hdel. unfold RtPreempt._rtapi_wait_hook. mstep.
    unfold RtPreempt.rtapi_this_task. rewrite Hkey. mstep.
    unfold RtPreempt.load_extra. rewrite (preempt_load_eq _ _ _ x) by side.
    destruct (Z.eqb_spec (RtPreempt.deleted x) 0); [contradiction|]. reflexivity.
  - intros Hdel.
    destruct (advance_time_total (RtPreempt.next_time x)
                (to_ulong (RtPreempt.task_period task)) 0) as [next Hadv].
    exists next. split; [exact Hadv|].
    unfold RtPreempt._rtapi_wait_hook. mstep.
    unfold RtPreempt.rtapi_this_task. rewrite Hkey. mstep.
    unfold RtPreempt.load_extra. rewrite (preempt_load_eq _ _ _ x) by side.
    rewrite Hdel. cbn [Z.eqb negb]. mstep.
    unfold RtPreempt.emit at 1. mstep.
    set (s1 := RtPreempt.set_log _ s).
    rewrite (preempt_load_eq _ _ _ task) by side.
    unfold RtPreempt._rtapi_advance_time. rewrite Hadv. mstep.
    unfold RtPreempt.store_extra.
    rewrite (preempt_store_eq _ _ _ _ _ x) by side.
    set (s2 := RtPreempt.set_extra_task_data _ s1).
    assert (Hwf2 : RtPreempt.wf_state h s2).
    { destruct Hwf as (? & ? & ? & ? & Hle & ?). repeat split; try assumption.
      subst s2. cbn [RtPreempt.extra_task_data RtPreempt.set_extra_task_data].
      rewrite length_insert. exact Hle. }
    mstep. destruct (timespec_after now next); cbn [andb].
    + mstep.
      pose proof (_rtapi_task_update_stats_hook_frame h self ru s2 Hwf2) as Hstats.
      apply returns_with_elim in Hstats
        as (r & s3 & Heq & Hextra & Hhandler & Hlen & l3 & Hlog3 & Hcalls3).
      rewrite Heq. mstep.
      destruct (lookup_lt_is_Some_2 (RtPreempt.thread_status s3) (Z.to_nat n)) as [st3 Hst3].
      { rewrite Hlen. eapply lookup_lt_Some. exact Hst. }
      unfold RtPreempt.store_status. rewrite (preempt_store_eq _ _ _ _ _ st3) by side.
      mstep.
      destruct (RTAPI_POSIX h); cbn [negb andb]; mstep.
      * cbn [returns_with RtPreempt.rt_exception_handler RtPreempt.log
               RtPreempt.set_thread_status].
        split; [reflexivity|]. split; [exact Hhandler|].
        exists l3. split; [exact Hlog3|]. split; [exact Hcalls3 | discriminate].
      * cbn [get_state]. mstep.
        cbn [RtPreempt.rt_exception_handler RtPreempt.set_thread_status].
        rewrite Hhandler.
        change (RtPreempt.rt_exception_handler s2) with (RtPreempt.rt_exception_handler s).
        destruct (negb (RtPreempt.rt_exception_handler s =? NULL)); mstep.
        -- cbn [returns_with RtPreempt.emit RtPreempt.rt_exception_handler RtPreempt.log
                 RtPreempt.set_thread_status RtPreempt.set_log].
           split; [reflexivity|]. split; [exact Hhandler|].
           exists (ExceptionHandler n :: l3). split; [rewrite Hlog3; reflexivity|].
           split; [|discriminate].
           unfold handler_calls in *. cbn [List.filter]. rewrite Hcalls3. reflexivity.
        -- cbn [returns_with RtPreempt.rt_exception_handler RtPreempt.log
                 RtPreempt.set_thread_status].
           split; [reflexivity|]. split; [exact Hhandler|].
           exists l3. split; [exact Hlog3|]. split; [exact Hcalls3 | discriminate].
    + cbn [returns_with]. split; [reflexivity|]. split; [reflexivity|].
      exists []. repeat split.
Qed.

Lemma _rtapi_wait_hook_dispatch_witness :
  returns_with
    (RtPreempt._rtapi_wait_hook example_host 7 {| tv_sec := 10; tv_nsec := 2000000 |}
       (inl example_rusage) preempt_running)
    (fun r s' =>
       r = 0 /\
       RtPreempt.rt_exception_handler s' = 4660 /\
       handler_calls (RtPreempt.log s') = [ExceptionHandler 1]) /\
  returns_with
    (RtPreempt._rtapi_wait_hook example_host 9 {| tv_sec := 10; tv_nsec := 500000 |}
       (inl example_rusage) preempt_running)
    (fun r s' =>
       r = 0 /\ RtPreempt.log s' = [Sleep false {| tv_sec := 10; tv_nsec := 0 |}]).
Proof.
  split.
  - destruct (_rtapi_wait_hook_dispatch example_host preempt_running 7 1
                (preempt_running_extra 7 4096 1207) (preempt_running_task "servo")
                RtPreempt.zero_status {| tv_sec := 10; tv_nsec := 2000000 |}
                (inl example_rusage)
                preempt_wf_running eq_refl ltac:(lia) eq_refl eq_refl eq_refl)
      as [_ Hlive].
    destruct (Hlive eq_refl) as (next & Hadv & Hrun).
    vm_compute in Hadv. injection Hadv as <-.
    eapply returns_with_weaken; [exact Hrun|].
    intros r s' (Hr & Hh & l & Hlog & Hcalls & _).
    split; [exact Hr|]. split; [exact Hh|].
    rewrite Hlog. unfold handler_calls in *. rewrite List.filter_app, Hcalls.
    reflexivity.
  - destruct (_rtapi_wait_hook_dispatch example_host preempt_running 9 2
                (preempt_running_extra 9 24576 1209) (preempt_running_task "spindle")
                RtPreempt.zero_status {| tv_sec := 10; tv_nsec := 500000 |}
                (inl example_rusage)
                preempt_wf_running eq_refl ltac:(lia) eq_refl eq_refl eq_refl)
      as [_ Hlive].
    destruct (Hlive eq_refl) as (next & Hadv & Hrun).
    vm_compute in Hadv. injection Hadv as <-.
    eapply returns_with_weaken; [exact Hrun|].
    intros r s' (Hr & _ & l & Hlog & _ & Hmet).
    split; [exact Hr|]. rewrite Hlog, (Hmet eq_refl). reflexivity.
Defined.

(** ** Module handles of rt-preempt.c *)

Lemma _rtapi_init_result h (s : RtPreempt.rtapi_state) modname j m :
  RtPreempt.wf_state h s ->
  1 <= j <= RTAPI_MAX_MODULES h ->
  (forall i m', 1 <= i < j -> RtPreempt.module_array s !! Z.to_nat i = Some m' ->
                RtPreempt.module_state m' <> RtPreempt.NO_MODULE) ->
  RtPreempt.module_array s !! Z.to_nat j = Some m ->
  RtPreempt.module_state m = RtPreempt.NO_MODULE ->
  returns_with (RtPreempt._rtapi_init h modname s) (fun id s' =>
    id = j + MODULE_OFFSET /\
    RtPreempt.module_array s' =
      <[Z.to_nat j :=
          {| RtPreempt.module_state := RtPreempt.REALTIME;
             RtPreempt.module_name :=
               match modname with
               | Some name => RtPreempt.truncate_name h name
               | None =>
                   RtPreempt.truncate_name h
                     ("ULMOD" +:+ RtPreempt.format_03d (j + MODULE_OFFSET))
               end |}]> (RtPreempt.module_array s) /\
    RtPreempt.ul_module_count s' = RtPreempt.incr (RtPreempt.ul_module_count s) /\
    RtPreempt.task_array s' = RtPreempt.task_array s /\
    RtPreempt.extra_task_data s' = RtPreempt.extra_task_data s /\
    RtPreempt.thread_status s' = RtPreempt.thread_status s /\
    RtPreempt.heap s' = RtPreempt.heap s).
Proof.
  intros (Hmm & _ & Hlen & _) Hj Hbelow Hm Hfree. unfold RtPreempt._rtapi_init. mstep.
  unfold RtPreempt.rtapi_print_msg at 1, RtPreempt.emit at 1. mstep.
  cbn [get_state]. mstep.
  cbn [RtPreempt.module_array RtPreempt.set_log].
  rewrite (scan_first_free RtPreempt.module_in_use (RtPreempt.module_array s)
             (RTAPI_MAX_MODULES h + 1) _ 1 j m); try (rewrite ?Hlen; lia).
  - cbn [RtPreempt.scan_result]. mstep.
    destruct (Z.gtb_spec j (RTAPI_MAX_MODULES h)); [lia|].
    mstep. unfold RtPreempt.store_module.
    rewrite (preempt_store_eq _ _ _ _ _ m) by side. mstep.
    cbn [returns_with]. repeat split.
  - intros i b Hi Hb. unfold RtPreempt.module_in_use.
    specialize (Hbelow i b Hi Hb). destruct (RtPreempt.module_state b); congruence.
  - exact Hm.
  - unfold RtPreempt.module_in_use. now rewrite Hfree.
Qed.

Lemma _rtapi_exit_result h (s : RtPreempt.rtapi_state) id m :
  0 <= id - MODULE_OFFSET < RTAPI_MAX_MODULES h ->
  RtPreempt.module_array s !! Z.to_nat (id - MODULE_OFFSET) = Some m ->
  returns_with (RtPreempt._rtapi_exit h id s) (fun r s' =>
    r = 0 /\
    RtPreempt.module_array s' =
      <[Z.to_nat (id - MODULE_OFFSET) :=
          {| RtPreempt.module_state := RtPreempt.NO_MODULE;
             RtPreempt.module_name := RtPreempt.module_name m |}]>
        (RtPreempt.module_array s) /\
    RtPreempt.ul_module_count s' = RtPreempt.ul_module_count s /\
    RtPreempt.task_array s' = RtPreempt.task_array s /\
    RtPreempt.extra_task_data s' = RtPreempt.extra_task_data s /\
    RtPreempt.thread_status s' = RtPreempt.thread_status s /\
    RtPreempt.heap s' = RtPreempt.heap s).
Proof.
  intros Hid Hm. unfold RtPreempt._rtapi_exit. cbv zeta.
  rewrite range_check_in by exact Hid. mstep.
  unfold RtPreempt.store_module.
  rewrite (preempt_store_eq _ _ _ _ _ m) by side. mstep.
  cbn [returns_with]. repeat split.
Qed.

(** X22. Module slots of rt-preempt.c come back, the module count does
    not. With lowest free slot [j] from 1 on, below RTAPI_MAX_MODULES,
    _rtapi_init returns [j + MODULE_OFFSET], marks the slot REALTIME with
    the name cut to RTAPI_NAME_LEN - 1 characters and adds one to
    ul_module_count; _rtapi_exit of that id returns 0, marks the slot
    NO_MODULE, keeps the name and leaves ul_module_count where it is; the
    next _rtapi_init returns the same id and adds one more: the counter
    counts loads, not loaded modules. *)
Theorem _rtapi_init_exit_round_trip h (s : RtPreempt.rtapi_state) modname modname' j m :
  RtPreempt.wf_state h s ->
  1 <= j < RTAPI_MAX_MODULES h ->
  (forall i m', 1 <= i < j -> RtPreempt.module_array s !! Z.to_nat i = Some m' ->
                RtPreempt.module_state m' <> RtPreempt.NO_MODULE) ->
  RtPreempt.module_array s !! Z.to_nat j = Some m ->
  RtPreempt.module_state m = RtPreempt.NO_MODULE ->
  returns_with (RtPreempt._rtapi_init h (Some modname) s) (fun id s1 =>
    id = j + MODULE_OFFSET /\
    RtPreempt.module_array s1 !! Z.to_nat j
      = Some {| RtPreempt.module_state := RtPreempt.REALTIME;
                RtPreempt.module_name := RtPreempt.truncate_name h modname |} /\
    RtPreempt.ul_module_count s1 = RtPreempt.incr (RtPreempt.ul_module_count s) /\
    returns_with (RtPreempt._rtapi_exit h id s1) (fun r s2 =>
      r = 0 /\
      RtPreempt.module_array s2 =
        <[Z.to_nat j :=
            {| RtPreempt.module_state := RtPreempt.NO_MODULE;
               RtPreempt.module_name := RtPreempt.truncate_name h modname |}]>
          (RtPreempt.module_array s) /\
      RtPreempt.ul_module_count s2 = RtPreempt.incr (RtPreempt.ul_module_count s) /\
      returns_with (RtPreempt._rtapi_init h modname' s2) (fun id' s3 =>
        id' = id /\
        RtPreempt.ul_module_count s3
          = RtPreempt.incr (RtPreempt.incr (RtPreempt.ul_module_count s))))).
Proof.
  intros Hwf Hj Hbelow Hm Hfree.
  assert (Hjlen : (Z.to_nat j < length (RtPreempt.module_array s))%nat)
    by (eapply lookup_lt_Some; exact Hm).
  eapply returns_with_weaken;
    [apply (_rtapi_init_result h s (Some modname) j m Hwf); [lia | assumption..]|].
  intros id s1 (-> & Hmod1 & Hcnt1 & Hta1 & Hex1 & Hst1 & _).
  split; [reflexivity|].
  assert (Hslot1 : RtPreempt.module_array s1 !! Z.to_nat j
                   = Some {| RtPreempt.module_state := RtPreempt.REALTIME;
                             RtPreempt.module_name := RtPreempt.truncate_name h modname |})
    by (rewrite Hmod1; now apply list_lookup_insert_eq).
  split; [exact Hslot1|]. split; [exact Hcnt1|].
  eapply returns_with_weaken.
  { apply (_rtapi_exit_result h s1 (j + MODULE_OFFSET)
             {| RtPreempt.module_state := RtPreempt.REALTIME;
                RtPreempt.module_name := RtPreempt.truncate_name h modname |}); [lia|].
    replace (j + MODULE_OFFSET - MODULE_OFFSET) with j by lia. exact Hslot1. }
  intros r s2 (-> & Hmod2 & Hcnt2 & Hta2 & Hex2 & Hst2 & _).
  replace (j + MODULE_OFFSET - MODULE_OFFSET) with j in Hmod2 by lia.
  rewrite Hmod1, list_insert_insert_eq in Hmod2. cbn [RtPreempt.module_name] in Hmod2.
  split; [reflexivity|]. split; [exact Hmod2|]. split; [congruence|].
  eapply returns_with_weaken.
  { apply (_rtapi_init_result h s2 modname' j
             {| RtPreempt.module_state := RtPreempt.NO_MODULE;
                RtPreempt.module_name := RtPreempt.truncate_name h modname |}).
    - destruct Hwf as (H1 & H2 & H3 & H4 & H5 & H6). repeat split; try assumption.
      + rewrite Hmod2, length_insert. exact H3.
      + congruence.
      + congruence.
      + congruence.
    - lia.
    - intros i m' Hi Hm'. rewrite Hmod2, list_lookup_insert_ne in Hm' by lia.
      exact (Hbelow i m' Hi Hm').
    - rewrite Hmod2. now apply list_lookup_insert_eq.
    - reflexivity. }
  intros id' s3 (-> & _ & Hcnt3 & _). split; [reflexivity|]. congruence.
Qed.

Lemma _rtapi_init_exit_round_trip_witness :
  returns_with
    (RtPreempt._rtapi_init example_host (Some "motmod")
       (RtPreempt.initial_state example_host))
    (fun id s1 =>
       id = 1 + MODULE_OFFSET /\
       returns_with (RtPreempt._rtapi_exit example_host id s1) (fun r s2 =>
         r = 0 /\
         returns_with (RtPreempt._rtapi_init example_host None s2) (fun id' s3 =>
           id' = id /\ RtPreempt.ul_module_count s3 = 2))).
Proof.
  eapply returns_with_weaken.
  - apply (_rtapi_init_exit_round_trip example_host (RtPreempt.initial_state example_host)
             "motmod" None 1
             {| RtPreempt.module_state := RtPreempt.NO_MODULE;
                RtPreempt.module_name := EmptyString |}).
    + exact preempt_wf_initial.
    + cbn. lia.
    + intros i m' Hi. lia.
    + reflexivity.
    + reflexivity.
  - intros id s1 (Hid & _ & _ & Hexit). split; [exact Hid|].
    eapply returns_with_weaken; [exact Hexit|].
    intros r s2 (Hr & _ & _ & Hinit). split; [exact Hr|].
    eapply returns_with_weaken; [exact Hinit|].
    intros id' s3 (Hid' & Hcnt). split; [exact Hid'|]. rewrite Hcnt. reflexivity.
Defined.

(** X28. The last module slot of rt-preempt.c is handed out but never
    taken back. _rtapi_init searches slots 1 to RTAPI_MAX_MODULES, whereas
    _rtapi_exit accepts slots 0 to RTAPI_MAX_MODULES - 1: when slot
    RTAPI_MAX_MODULES is the lowest free one, _rtapi_init returns its id,
    _rtapi_exit answers that id with -1 and changes nothing, and the next
    _rtapi_init finds the table full and returns -EMFILE. *)
Theorem _rtapi_last_module_slot_is_kept h (s : RtPreempt.rtapi_state) modname modname' m :
  RtPreempt.wf_state h s ->
  1 <= RTAPI_MAX_MODULES h ->
  (forall i m', 1 <= i < RTAPI_MAX_MODULES h ->
                RtPreempt.module_array s !! Z.to_nat i = Some m' ->
                RtPreempt.module_state m' <> RtPreempt.NO_MODULE) ->
  RtPreempt.module_array s !! Z.to_nat (RTAPI_MAX_MODULES h) = Some m ->
  RtPreempt.module_state m = RtPreempt.NO_MODULE ->
  returns_with (RtPreempt._rtapi_init h modname s) (fun id s1 =>
    id = RTAPI_MAX_MODULES h + MODULE_OFFSET /\
    RtPreempt._rtapi_exit h id s1 = Returns (-1) s1 /\
    returns_with (RtPreempt._rtapi_init h modname' s1) (fun id' _ => id' = - EMFILE)).
Proof.
  intros Hwf Hmax Hbelow Hm Hfree.
  assert (Hlen : (Z.to_nat (RTAPI_MAX_MODULES h) < length (RtPreempt.module_array s))%nat)
    by (eapply lookup_lt_Some; exact Hm).
  eapply returns_with_weaken;
    [apply (_rtapi_init_result h s modname (RTAPI_MAX_MODULES h) m Hwf);
       [lia | assumption..]|].
  intros id s1 (-> & Hmod1 & Hcnt1 & Hta1 & Hex1 & Hst1 & _).
  split; [reflexivity|]. split; [apply _rtapi_exit_refuses_last_slot|].
  eapply returns_with_weaken.
  { apply (_rtapi_init_full h s1 modname').
    - destruct Hwf as (H1 & H2 & H3 & H4 & H5 & H6). repeat split; try assumption.
      + rewrite Hmod1, length_insert. exact H3.
      + congruence.
      + congruence.
      + congruence.
    - intros i m' Hi Hm'. rewrite Hmod1 in Hm'.
      destruct (Z.eq_dec i (RTAPI_MAX_MODULES h)) as [->|Hne].
      + rewrite list_lookup_insert_eq in Hm' by exact Hlen. injection Hm' as <-.
        discriminate.
      + rewrite list_lookup_insert_ne in Hm' by lia. apply (Hbelow i m'); [lia | exact Hm']. }
  intros id' s2 [Hid _]. exact Hid.
Qed.

Lemma _rtapi_last_module_slot_is_kept_witness :
  returns_with (RtPreempt._rtapi_init example_host (Some "motmod") preempt_last_module_free)
    (fun id s1 =>
       id = RTAPI_MAX_MODULES example_host + MODULE_OFFSET /\
       RtPreempt._rtapi_exit example_host id s1 = Returns (-1) s1 /\
       returns_with (RtPreempt._rtapi_init example_host None s1)
         (fun id' _ => id' = - EMFILE)).
Proof.
  apply (_rtapi_last_module_slot_is_kept example_host preempt_last_module_free
           (Some "motmod") None
           {| RtPreempt.module_state := RtPreempt.NO_MODULE;
              RtPreempt.module_name := EmptyString |}).
  - repeat split; cbn; lia.
  - cbn. lia.
  - intros i m' Hi Hm'.
    cbn [RtPreempt.module_array preempt_last_module_free RtPreempt.set_module_array] in Hm'.
    rewrite list_lookup_insert_ne in Hm' by (cbn in Hi |- *; lia).
    cbn [RtPreempt.module_array preempt_modules_full RtPreempt.set_module_array] in Hm'.
    apply lookup_replicate in Hm' as [-> _]. discriminate.
  - reflexivity.
  - reflexivity.
Defined.

(** ** Task hooks of rt-preempt.c *)

Lemma preempt_store_extra_after_insert n f (s : RtPreempt.rtapi_state) arr x :
  0 <= n -> (Z.to_nat n < length arr)%nat ->
  RtPreempt.extra_task_data s = <[Z.to_nat n := x]> arr ->
  RtPreempt.store_extra n f s
    = Returns tt (RtPreempt.set_extra_task_data (<[Z.to_nat n := f x]> arr) s).
Proof.
  intros Hn Hlen Harr. unfold RtPreempt.store_extra.
  rewrite (preempt_store_eq _ _ n f s x Hn)
    by (rewrite Harr; now apply list_lookup_insert_eq).
  rewrite Harr, list_insert_insert_eq. reflexivity.
Qed.

Lemma _rtapi_task_new_hook_result ma n (s : RtPreempt.rtapi_state) x task :
  0 <= n ->
  RtPreempt.extra_task_data s !! Z.to_nat n = Some x ->
  RtPreempt.task_array s !! Z.to_nat n = Some task ->
  RtPreempt._rtapi_task_new_hook ma n s =
    if ma =? NULL then
      Returns (- ENOMEM)
        (RtPreempt.set_log
           (Msg RTAPI_MSG_ERR "Failed to allocate realtime thread stack" :: RtPreempt.log s)
           s)
    else
      Returns n
        (RtPreempt.set_extra_task_data
           (<[Z.to_nat n := RtPreempt.set_destroyed 0 (RtPreempt.set_stackaddr ma x)]>
              (RtPreempt.extra_task_data s))
           (RtPreempt.set_heap ({[ma]} ∪ RtPreempt.heap s) s)).
Proof.
  intros Hn Hx Htask.
  assert (Hlen : (Z.to_nat n < length (RtPreempt.extra_task_data s))%nat)
    by (eapply lookup_lt_Some; exact Hx).
  unfold RtPreempt._rtapi_task_new_hook. mstep.
  rewrite (preempt_load_eq _ _ _ task) by side. mstep.
  unfold RtPreempt.malloc. destruct (Z.eqb_spec ma NULL) as [->|Hma].
  - mstep. reflexivity.
  - mstep. destruct (Z.eqb_spec ma NULL) as [|_]; [contradiction|]. mstep.
    unfold RtPreempt.store_extra at 1.
    rewrite (preempt_store_eq _ _ _ _ _ x) by side. mstep.
    erewrite preempt_store_extra_after_insert;
      [| lia | exact Hlen
       | cbn [RtPreempt.extra_task_data RtPreempt.set_extra_task_data RtPreempt.set_heap];
         reflexivity].
    mstep. reflexivity.
Qed.

Lemma _rtapi_task_delete_hook_result join_err n (s : RtPreempt.rtapi_state) x :
  0 <= n ->
  RtPreempt.extra_task_data s !! Z.to_nat n = Some x ->
  RtPreempt.stackaddr x = NULL \/ RtPreempt.stackaddr x ∈ RtPreempt.heap s ->
  returns_with (RtPreempt._rtapi_task_delete_hook join_err n s) (fun _ s' =>
    RtPreempt.extra_task_data s' =
      <[Z.to_nat n :=
          RtPreempt.set_stackaddr NULL
            (if RtPreempt.deleted x =? 0 then RtPreempt.set_deleted 1 x else x)]>
        (RtPreempt.extra_task_data s) /\
    RtPreempt.heap s' =
      (if RtPreempt.stackaddr x =? NULL then RtPreempt.heap s
       else RtPreempt.heap s ∖ {[RtPreempt.stackaddr x]}) /\
    RtPreempt.log s' =
      (if RtPreempt.deleted x =? 0 then
         if join_err =? 0 then [Join (RtPreempt.thread x)]
         else [Msg RTAPI_MSG_ERR "pthread_join() on realtime thread failed";
               Join (RtPreempt.thread x)]
       else []) ++ RtPreempt.log s /\
    RtPreempt.task_array s' = RtPreempt.task_array s /\
    RtPreempt.module_array s' = RtPreempt.module_array s /\
    RtPreempt.thread_status s' = RtPreempt.thread_status s).
Proof.
  intros Hn Hx Hstack.
  assert (Hlen : (Z.to_nat n < length (RtPreempt.extra_task_data s))%nat)
    by (eapply lookup_lt_Some; exact Hx).
  unfold RtPreempt._rtapi_task_delete_hook. mstep.
  unfold RtPreempt.load_extra. rewrite (preempt_load_eq _ _ _ x) by side. mstep.
  set (x1 := if RtPreempt.deleted x =? 0 then RtPreempt.set_deleted 1 x else x).
  set (l1 := (if RtPreempt.deleted x =? 0 then
                if join_err =? 0 then [Join (RtPreempt.thread x)]
                else [Msg RTAPI_MSG_ERR "pthread_join() on realtime thread failed";
                      Join (RtPreempt.thread x)]
              else []) ++ RtPreempt.log s).
  assert (Hfirst :
    (if RtPreempt.deleted x =? 0
     then RtPreempt.store_extra n (RtPreempt.set_deleted 1);;
          RtPreempt.emit (Join (RtPreempt.thread x));;
          (if negb (join_err =? 0)
           then RtPreempt.rtapi_print_msg RTAPI_MSG_ERR
                  "pthread_join() on realtime thread failed"
           else mret tt)
     else mret tt) s
    = Returns tt
        (RtPreempt.set_log l1
           (RtPreempt.set_extra_task_data
              (<[Z.to_nat n := x1]> (RtPreempt.extra_task_data s)) s))).
  { subst x1 l1. destruct (RtPreempt.deleted x =? 0).
    - mstep. unfold RtPreempt.store_extra.
      rewrite (preempt_store_eq _ _ _ _ _ x) by side. mstep.
      unfold RtPreempt.emit at 1. mstep.
      destruct (join_err =? 0); cbn [negb]; mstep; reflexivity.
    - mstep. rewrite list_insert_id by exact Hx. destruct s. reflexivity. }
  rewrite Hfirst. mstep.
  unfold RtPreempt.free.
  cbn [RtPreempt.heap RtPreempt.set_log RtPreempt.set_extra_task_data].
  destruct (Z.eqb_spec (RtPreempt.stackaddr x) NULL) as [Hnull|Hnn].
  - mstep.
    erewrite preempt_store_extra_after_insert;
      [| lia | exact Hlen
       | cbn [RtPreempt.extra_task_data RtPreempt.set_extra_task_data RtPreempt.set_log];
         reflexivity].
    cbn [returns_with]. repeat split.
  - destruct Hstack as [Hnull|Hin]; [contradiction|].
    destruct (decide (RtPreempt.stackaddr x ∈ RtPreempt.heap s)); [|contradiction].
    mstep.
    erewrite preempt_store_extra_after_insert;
      [| lia | exact Hlen
       | cbn [RtPreempt.extra_task_data RtPreempt.set_extra_task_data RtPreempt.set_log
              RtPreempt.set_heap];
         reflexivity].
    cbn [returns_with]. repeat split.
Qed.

(** X23. The task hooks of rt-preempt.c own the stack. _rtapi_task_new_hook
    returns -ENOMEM and only prints a message when malloc has no stack;
    otherwise it returns the task id with the stack recorded and
    destroyed = 0. _rtapi_task_delete_hook after it gives the stack back
    (the heap is what it was before the new hook), leaves a NULL stack
    address, sets [deleted] and joins the thread only if [deleted] was 0.
    Neither hook resets [deleted], so after a delete the flag stays 1
    through the next new hook. *)
Theorem _rtapi_task_hooks_round_trip ma join_err n (s : RtPreempt.rtapi_state) x task :
  0 <= n ->
  RtPreempt.extra_task_data s !! Z.to_nat n = Some x ->
  RtPreempt.task_array s !! Z.to_nat n = Some task ->
  RtPreempt._rtapi_task_new_hook NULL n s
    = Returns (- ENOMEM)
        (RtPreempt.set_log
           (Msg RTAPI_MSG_ERR "Failed to allocate realtime thread stack" :: RtPreempt.log s)
           s) /\
  (ma <> NULL -> ma ∉ RtPreempt.heap s ->
   returns_with (RtPreempt._rtapi_task_new_hook ma n s) (fun r s1 =>
     r = n /\
     RtPreempt.extra_task_data s1 =
       <[Z.to_nat n := RtPreempt.set_destroyed 0 (RtPreempt.set_stackaddr ma x)]>
         (RtPreempt.extra_task_data s) /\
     RtPreempt.heap s1 = {[ma]} ∪ RtPreempt.heap s /\
     returns_with (RtPreempt._rtapi_task_delete_hook join_err n s1) (fun _ s2 =>
       RtPreempt.heap s2 = RtPreempt.heap s /\
       exists x2,
         RtPreempt.extra_task_data s2 = <[Z.to_nat n := x2]> (RtPreempt.extra_task_data s) /\
         RtPreempt.stackaddr x2 = NULL /\
         RtPreempt.deleted x2 = (if RtPreempt.deleted x =? 0 then 1 else RtPreempt.deleted x) /\
         RtPreempt.thread x2 = RtPreempt.thread x /\
         (Join (RtPreempt.thread x) ∈ RtPreempt.log s2 <->
            RtPreempt.deleted x = 0 \/ Join (RtPreempt.thread x) ∈ RtPreempt.log s)))).
Proof.
  intros Hn Hx Htask.
  assert (Hlen : (Z.to_nat n < length (RtPreempt.extra_task_data s))%nat)
    by (eapply lookup_lt_Some; exact Hx).
  split.
  - rewrite (_rtapi_task_new_hook_result NULL n s x task Hn Hx Htask). reflexivity.
  - intros Hma Hfresh.
    rewrite (_rtapi_task_new_hook_result ma n s x task Hn Hx Htask).
    destruct (Z.eqb_spec ma NULL) as [|_]; [contradiction|].
    cbn [returns_with RtPreempt.extra_task_data RtPreempt.heap RtPreempt.set_heap
         RtPreempt.set_extra_task_data].
    split; [reflexivity|]. split; [reflexivity|]. split; [reflexivity|].
    eapply returns_with_weaken.
    { apply (_rtapi_task_delete_hook_result join_err n _
               (RtPreempt.set_destroyed 0 (RtPreempt.set_stackaddr ma x)) Hn).
      - cbn [RtPreempt.extra_task_data RtPreempt.set_extra_task_data].
        now apply list_lookup_insert_eq.
      - right. cbn. apply elem_of_union. left. now apply elem_of_singleton. }
    intros [] s2 (Hex & Hheap & Hlog & _).
    cbn [RtPreempt.extra_task_data RtPreempt.heap RtPreempt.log RtPreempt.set_heap
         RtPreempt.set_extra_task_data RtPreempt.stackaddr RtPreempt.deleted
         RtPreempt.thread RtPreempt.set_destroyed RtPreempt.set_stackaddr] in *.
    split.
    + rewrite Hheap. destruct (Z.eqb_spec ma NULL) as [|_]; [contradiction|].
      apply set_eq. intros y.
      rewrite elem_of_difference, elem_of_union, elem_of_singleton. split.
      * intros [[->|Hy] Hne]; [contradiction | exact Hy].
      * intros Hy. split; [right; exact Hy | intros ->; contradiction].
    + rewrite list_insert_insert_eq in Hex.
      eexists. split; [exact Hex|].
      destruct (Z.eqb_spec (RtPreempt.deleted x) 0) as [Hd|Hd];
        cbn [RtPreempt.stackaddr RtPreempt.deleted RtPreempt.thread RtPreempt.set_deleted
             RtPreempt.set_destroyed RtPreempt.set_stackaddr];
        (split; [reflexivity|]); (split; [reflexivity|]); (split; [reflexivity|]);
        rewrite Hlog.
      * split; [intros _; left; exact Hd|]. intros _.
        destruct (join_err =? 0); cbn [app].
        -- apply list_elem_of_here.
        -- apply list_elem_of_further, list_elem_of_here.
      * cbn [app]. split; [intros H; right; exact H | intros [H|H]; [contradiction | exact H]].
Qed.

Lemma _rtapi_task_hooks_round_trip_witness :
  returns_with (RtPreempt._rtapi_task_new_hook 4096 1 preempt_waiting) (fun r s1 =>
    r = 1 /\
    returns_with (RtPreempt._rtapi_task_delete_hook 0 1 s1) (fun _ s2 =>
      RtPreempt.heap s2 = RtPreempt.heap preempt_waiting)).
Proof.
  destruct (_rtapi_task_hooks_round_trip 4096 0 1 preempt_waiting
              (RtPreempt.set_next_time {| tv_sec := 10; tv_nsec := 0 |} RtPreempt.zero_extra)
              {| RtPreempt.task_name := "servo"; RtPreempt.task_stacksize := 16384;
                 RtPreempt.task_period := 1000000; RtPreempt.task_ratio := 1;
                 RtPreempt.task_prio := 50; RtPreempt.task_cpu := -1;
                 RtPreempt.task_taskcode := 0; RtPreempt.task_arg := 0 |}
              ltac:(lia) eq_refl eq_refl) as [_ H].
  eapply returns_with_weaken.
  - apply H; [discriminate | apply not_elem_of_empty].
  - intros r s1 (Hr & _ & _ & Hdel). split; [exact Hr|].
    eapply returns_with_weaken; [exact Hdel|].
    intros ? s2 (Hheap & _). exact Hheap.
Defined.

(** ** The realtime thread after the barrier *)

(** X24. The first deadline of a task is one period after the clock
    reading the new thread takes behind the barrier: realtime_thread stores
    that reading in next_time, advances it by the task period, and calls
    the task function with the task argument; for a reading with
    nanoseconds up to 10^9 and a non-negative period the stored next_time
    is worth exactly [now + period] nanoseconds. No other field, slot or
    part of the state changes. *)
Theorem realtime_thread_run_first_deadline now n (s : rtapi_state) t :
  0 <= n ->
  task_array s !! Z.to_nat n = Some t ->
  0 <= tv_sec now < 4611686018427387904 ->
  0 <= tv_nsec now <= 1000000000 ->
  0 <= task_period t < 4611686018427387904 ->
  exists next,
    timespec_ns next = timespec_ns now + task_period t /\
    0 <= tv_nsec next <= 1000000000 /\
    realtime_thread_run now n s =
      Returns tt
        (set_log (RunTask (task_taskcode t) (task_arg t) :: log s)
           (set_task_array (<[Z.to_nat n := set_next_time next t]> (task_array s)) s)).
Proof.
  intros Hn Ht Hsec Hnsec Hper.
  assert (Hlen : (Z.to_nat n < length (task_array s))%nat)
    by (eapply lookup_lt_Some; exact Ht).
  destruct (advance_time_value now (task_period t) Hsec Hnsec Hper)
    as (next & Hadv & Hval & Hrange & _).
  exists next. split; [exact Hval|]. split; [exact Hrange|].
  unfold realtime_thread_run. mstep.
  rewrite (store_task_eq _ _ _ t) by side. mstep.
  rewrite (load_task_eq _ _ (set_next_time now t))
    by (try lia; cbn [task_array set_task_array]; now apply list_lookup_insert_eq).
  cbn [task_next_time task_period set_next_time].
  unfold rtapi_advance_time. rewrite to_ulong_small by lia. rewrite Hadv. mstep.
  erewrite store_task_after_insert;
    [| lia | exact Hlen | cbn [task_array set_task_array]; reflexivity].
  mstep. rewrite emit_eq. cbn [task_taskcode task_arg set_next_time]. reflexivity.
Qed.

Lemma realtime_thread_run_first_deadline_witness :
  exists next,
    timespec_ns next = timespec_ns {| tv_sec := 20; tv_nsec := 999999999 |} + 1000000 /\
    0 <= tv_nsec next <= 1000000000 /\
    returned (realtime_thread_run {| tv_sec := 20; tv_nsec := 999999999 |} 0 linux_waiting)
      = Some tt.
Proof.
  destruct (realtime_thread_run_first_deadline {| tv_sec := 20; tv_nsec := 999999999 |} 0
              linux_waiting
              (set_next_time {| tv_sec := 10; tv_nsec := 0 |}
                 (set_period 1000000 (set_magic TASK_MAGIC zero_task))))
    as (next & Hval & Hrange & Hrun).
  - lia.
  - reflexivity.
  - cbn. lia.
  - cbn. lia.
  - cbn. lia.
  - exists next. split; [exact Hval|]. split; [exact Hrange|]. rewrite Hrun. reflexivity.
Defined.

(** X25. When the task function returns, realtime_thread prints an error
    and sets [deleted]; from then on rtapi_wait on that thread ends the
    thread, and rtapi_task_delete of the task returns 0 and frees the stack
    without calling pthread_join: the thread that ran off the end of its
    task function is never joined. *)
Theorem realtime_thread_end_skips_join join_err self now minflt majflt n (s : rtapi_state) t :
  0 <= n < MAX_TASKS ->
  task_array s !! Z.to_nat n = Some t ->
  task_magic t = TASK_MAGIC ->
  task_stackaddr t = NULL \/ task_stackaddr t ∈ heap s ->
  task_key s !! self = Some n ->
  exists s1,
    realtime_thread_end n s = Returns tt s1 /\
    task_array s1 = <[Z.to_nat n := set_deleted 1 t]> (task_array s) /\
    log s1 = Msg RTAPI_MSG_ERR "ERROR: reached end of realtime thread" :: log s /\
    rtapi_wait self now minflt majflt s1 = ThreadExits s1 /\
    returns_with (rtapi_task_delete join_err n s1) (fun r s2 =>
      r = 0 /\ log s2 = log s1 /\
      heap s2 = (if task_stackaddr t =? NULL then heap s
                 else heap s ∖ {[task_stackaddr t]})).
Proof.
  intros Hn Ht Hm Hstack Hkey.
  assert (Hlen : (Z.to_nat n < length (task_array s))%nat)
    by (eapply lookup_lt_Some; exact Ht).
  eexists. split.
  { unfold realtime_thread_end. mstep. unfold rtapi_print_msg. rewrite emit_eq. mstep.
    rewrite (store_task_eq _ _ _ t) by side. reflexivity. }
  cbn [task_array log set_task_array set_log].
  split; [reflexivity|]. split; [reflexivity|]. split.
  - unfold rtapi_wait. mstep. unfold rtapi_this_task.
    cbn [task_key set_task_array set_log]. rewrite Hkey. mstep.
    rewrite (load_task_eq _ _ (set_deleted 1 t))
      by (try lia; cbn [task_array set_task_array]; now apply list_lookup_insert_eq).
    reflexivity.
  - eapply returns_with_weaken.
    { apply (rtapi_task_delete_result join_err n _ (set_deleted 1 t) Hn).
      - cbn [task_array set_task_array]. now apply list_lookup_insert_eq.
      - exact Hm.
      - exact Hstack. }
    intros r s2 (Hr & _ & Hheap & _ & _ & _ & Hlog).
    split; [exact Hr|]. split; [exact Hlog | exact Hheap].
Qed.

Lemma realtime_thread_end_skips_join_witness :
  exists s1,
    realtime_thread_end 0 linux_waiting = Returns tt s1 /\
    rtapi_wait 7 {| tv_sec := 30; tv_nsec := 0 |} 0 0 s1 = ThreadExits s1 /\
    returns_with (rtapi_task_delete 0 0 s1) (fun r s2 => r = 0 /\ log s2 = log s1).
Proof.
  destruct (realtime_thread_end_skips_join 0 7 {| tv_sec := 30; tv_nsec := 0 |} 0 0 0
              linux_waiting
              (set_next_time {| tv_sec := 10; tv_nsec := 0 |}
                 (set_period 1000000 (set_magic TASK_MAGIC zero_task))))
    as (s1 & Hend & _ & _ & Hwait & Hdel).
  - unfold MAX_TASKS. lia.
  - reflexivity.
  - reflexivity.
  - left. reflexivity.
  - reflexivity.
  - exists s1. split; [exact Hend|]. split; [exact Hwait|].
    eapply returns_with_weaken; [exact Hdel|].
    intros r s2 (Hr & Hlog & _). split; assumption.
Defined.

(** * Stack ownership in linux_rtapi.c *)

(** ** Calls that leave the stacks alone *)

Lemma preserves_stacks_store (A : list Z) (Hp : gset Z) n f :
  (forall t, task_stackaddr (f t) = task_stackaddr t) ->
  preserves (fun s => stack_addrs s = A /\ heap s = Hp) (store_task n f).
Proof.
  intros Hf s [HA HH]. unfold store_task. destruct (n <? 0); [exact I|].
  destruct (task_array s !! Z.to_nat n) as [t|] eqn:Ht; [|exact I].
  cbn [holds_after]. split; [|exact HH]. rewrite <- HA. unfold stack_addrs.
  cbn [task_array set_task_array].
  rewrite list_fmap_insert, Hf. apply list_insert_id.
  rewrite list_lookup_fmap, Ht. reflexivity.
Qed.

(** A walk through a function body that writes no stack address and does
    not call malloc or free. *)
Ltac stacks_walk :=
  cbv zeta;
  repeat lazymatch goal with
    | |- preserves _ (mret _) => apply preserves_ret
    | |- preserves _ (raise _) => apply preserves_raise
    | |- preserves _ pthread_exit => apply preserves_pthread_exit
    | |- preserves _ (load_task _) => apply preserves_load_task
    | |- preserves _ (scan_result _) => apply preserves_scan_result
    | |- preserves _ (rtapi_this_task _) => apply preserves_rtapi_this_task
    | |- preserves _ (rtapi_advance_time _ _ _) => apply preserves_rtapi_advance_time
    | |- preserves _ (int_div _ _) => apply preserves_int_div
    | |- preserves _ (emit _) => apply preserves_emit; intros; assumption
    | |- preserves _ (rtapi_print_msg _ _) =>
        apply preserves_rtapi_print_msg; intros; assumption
    | |- preserves _ (store_module _ _) =>
        apply preserves_store_module; intros; assumption
    | |- preserves _ (rtapi_set_task _ _) =>
        apply preserves_rtapi_set_task with (bindable := fun _ => True);
          [intros; assumption | exact I]
    | |- preserves _ (put_state (set_clock_period _ _)) =>
        apply preserves_set_clock_period; [intros; assumption | assumption]
    | |- preserves _ (store_task _ _) =>
        apply preserves_stacks_store; intros ?; reflexivity
    | |- preserves _ (rtapi_reset_pagefault_count _ _ _) =>
        unfold rtapi_reset_pagefault_count
    | |- preserves _ (rtapi_get_pagefault_count _ _ _) =>
        unfold rtapi_get_pagefault_count
    | |- preserves _ (realtime_set_affinity _ _ _) => unfold realtime_set_affinity; cbv zeta
    | |- preserves _ (realtime_set_priority _ _) => unfold realtime_set_priority
    | |- preserves _ (realtime_thread_init _ _ _ _) => unfold realtime_thread_init
    | |- preserves _ (get_state ≫= _) => apply preserves_get_state; intros ? ?
    | |- preserves _ (_ ≫= _) => apply preserves_bind; [|intros ?]
    | |- preserves _ (if ?b then _ else _) => destruct b
    | |- preserves _ (match ?x with _ => _ end) => destruct x
    end.

Lemma run_preserves_stacks_view h c (A : list Z) (Hp : gset Z) :
  (forall ma taskcode arg prio owner stacksize uses_fp name cpu_id,
     c <> CallTaskNew ma taskcode arg prio owner stacksize uses_fp name cpu_id) ->
  (forall join_err id, c <> CallTaskDelete join_err id) ->
  preserves (fun s => stack_addrs s = A /\ heap s = Hp) (run h c).
Proof.
  intros Hnew Hdel. destruct c; cbn [run].
  - unfold rtapi_init. stacks_walk.
  - unfold rtapi_exit. stacks_walk.
  - unfold rtapi_clock_set_period. stacks_walk.
  - destruct (Hnew malloc_answer taskcode arg prio owner stacksize uses_fp name cpu_id).
    reflexivity.
  - destruct (Hdel join_err id). reflexivity.
  - unfold rtapi_task_start. stacks_walk.
  - unfold rtapi_task_stop. stacks_walk.
  - unfold rtapi_task_pause. stacks_walk.
  - unfold rtapi_task_resume. stacks_walk.
  - unfold rtapi_task_set_period. stacks_walk.
  - unfold rtapi_wait. stacks_walk.
  - unfold realtime_thread_run. stacks_walk.
  - unfold realtime_thread_end. stacks_walk.
Qed.

Lemma stacks_owned_view (s s' : rtapi_state) :
  stack_addrs s' = stack_addrs s -> heap s' = heap s ->
  stacks_owned s -> stacks_owned s'.
Proof. unfold stacks_owned. intros -> ->. auto. Qed.

Lemma stack_addrs_insert (s : rtapi_state) n t t' :
  task_array s !! n = Some t ->
  <[n := task_stackaddr t']> (stack_addrs s)
    = task_stackaddr <$> <[n := t']> (task_array s).
Proof. intros _. unfold stack_addrs. now rewrite list_fmap_insert. Qed.

Lemma stack_addrs_insert_same (s : rtapi_state) n t t' :
  task_array s !! n = Some t ->
  task_stackaddr t' = task_stackaddr t ->
  task_stackaddr <$> <[n := t']> (task_array s) = stack_addrs s.
Proof.
  intros Ht Heq. unfold stack_addrs. rewrite list_fmap_insert, Heq.
  apply list_insert_id. rewrite list_lookup_fmap, Ht. reflexivity.
Qed.

(** ** rtapi_task_new and rtapi_task_delete *)

Lemma stacks_owned_alloc (s : rtapi_state) (A : list Z) (Hp : gset Z) n ma :
  stacks_owned s ->
  ma <> NULL -> ma ∉ heap s ->
  (n < length (stack_addrs s))%nat ->
  A = <[n := ma]> (stack_addrs s) -> Hp = {[ma]} ∪ heap s ->
  (forall i a, A !! i = Some a -> a = NULL \/ a ∈ Hp) /\
  (forall i j a, i <> j -> A !! i = Some a -> A !! j = Some a -> a = NULL).
Proof.
  intros [Hlive Huniq] Hma Hfresh Hlen -> ->. split.
  - intros i a Hi. destruct (Nat.eq_dec i n) as [->|Hne].
    + rewrite list_lookup_insert_eq in Hi by exact Hlen. injection Hi as <-.
      right. apply elem_of_union. left. now apply elem_of_singleton.
    + rewrite list_lookup_insert_ne in Hi by congruence.
      destruct (Hlive i a Hi) as [?|Hin]; [now left|].
      right. apply elem_of_union. now right.
  - intros i j a Hij Hi Hj.
    destruct (Nat.eq_dec i n) as [->|Hni]; destruct (Nat.eq_dec j n) as [->|Hnj];
      try congruence.
    + rewrite list_lookup_insert_eq in Hi by exact Hlen. injection Hi as <-.
      rewrite list_lookup_insert_ne in Hj by congruence.
      destruct (Hlive j ma Hj) as [?|Hin]; [assumption | contradiction].
    + rewrite list_lookup_insert_eq in Hj by exact Hlen. injection Hj as <-.
      rewrite list_lookup_insert_ne in Hi by congruence.
      destruct (Hlive i ma Hi) as [?|Hin]; [assumption | contradiction].
    + rewrite list_lookup_insert_ne in Hi by congruence.
      rewrite list_lookup_insert_ne in Hj by congruence.
      exact (Huniq i j a Hij Hi Hj).
Qed.

Lemma rtapi_task_new_stacks h ma taskcode arg prio owner stacksize uses_fp name cpu_id
    (s : rtapi_state) :
  wf_state s -> stacks_owned s ->
  ma = NULL \/ ma ∉ heap s ->
  holds_after
    (rtapi_task_new h ma taskcode arg prio owner stacksize uses_fp name cpu_id s)
    stacks_owned.
Proof.
  intros Hwf Hown Hfresh.
  destruct (Z.eq_dec ma NULL) as [->|Hma].
  { cbn. exact Hown. }
  destruct Hfresh as [?|Hfresh]; [contradiction|].
  pose proof Hwf as [Hlen _].
  destruct (scan_spec task_in_use (task_array s) MAX_TASKS
              ltac:(rewrite Hlen; lia) (S (Z.to_nat MAX_TASKS)) 0)
    as (k & Hk & Hk0 & Hkb & Hused & Hat); [lia | lia | unfold MAX_TASKS; lia |].
  assert (Hbelow : forall i b, 0 <= i < k -> task_array s !! Z.to_nat i = Some b ->
                               task_magic b = TASK_MAGIC).
  { intros i b Hi Hb. destruct (Hused i Hi) as (a & Ha & Hin).
    rewrite Hb in Ha. injection Ha as <-. unfold task_in_use in Hin.
    now apply Z.eqb_eq in Hin. }
  destruct (Z.eq_dec k MAX_TASKS) as [->|Hne].
  - rewrite (rtapi_task_new_table_full h ma taskcode arg prio owner stacksize uses_fp name
               cpu_id s Hwf Hma Hfresh Hbelow).
    exact Hown.
  - assert (Hkr : 0 <= k < MAX_TASKS) by (unfold MAX_TASKS in *; lia).
    destruct Hat as (t & Ht & Hfree); [lia|].
    assert (Hmagic : task_magic t <> TASK_MAGIC).
    { unfold task_in_use in Hfree. now apply Z.eqb_neq in Hfree. }
    destruct (Z_lt_dec prio (rtapi_prio_lowest h)) as [Hlo|Hlo];
      [|destruct (Z_lt_dec (rtapi_prio_highest h) prio) as [Hhi|Hhi]].
    + pose proof (rtapi_task_new_bad_priority h ma taskcode arg prio owner stacksize uses_fp
                    name cpu_id s k t Hwf Hma Hfresh Hkr Hbelow Ht Hmagic (or_introl Hlo))
        as Hres.
      destruct (rtapi_task_new _ _ _ _ _ _ _ _ _ _ s) as [r s'| |];
        cbn [returns_with holds_after] in *; try contradiction.
      destruct Hres as (_ & Hheap & Harr).
      apply (stacks_owned_view s s'); [|exact Hheap|exact Hown].
      unfold stack_addrs at 1. rewrite Harr.
      apply (stack_addrs_insert_same s _ t); [exact Ht | reflexivity].
    + pose proof (rtapi_task_new_bad_priority h ma taskcode arg prio owner stacksize uses_fp
                    name cpu_id s k t Hwf Hma Hfresh Hkr Hbelow Ht Hmagic (or_intror Hhi))
        as Hres.
      destruct (rtapi_task_new _ _ _ _ _ _ _ _ _ _ s) as [r s'| |];
        cbn [returns_with holds_after] in *; try contradiction.
      destruct Hres as (_ & Hheap & Harr).
      apply (stacks_owned_view s s'); [|exact Hheap|exact Hown].
      unfold stack_addrs at 1. rewrite Harr.
      apply (stack_addrs_insert_same s _ t); [exact Ht | reflexivity].
    + pose proof (rtapi_task_new_first_free h ma taskcode arg prio owner stacksize uses_fp
                    name cpu_id s k t Hwf Hma Hkr Hbelow Ht Hmagic ltac:(lia)) as Hres.
      destruct (rtapi_task_new _ _ _ _ _ _ _ _ _ _ s) as [r s'| |];
        cbn [returns_with holds_after] in *; try contradiction.
      destruct Hres as (_ & Harr & Hheap & _).
      apply (stacks_owned_alloc s (stack_addrs s') (heap s') (Z.to_nat k) ma Hown Hma Hfresh).
      * unfold stack_addrs. rewrite length_fmap. eapply lookup_lt_Some. exact Ht.
      * unfold stack_addrs at 1. rewrite Harr.
        rewrite <- (stack_addrs_insert s (Z.to_nat k) t) by exact Ht. reflexivity.
      * exact Hheap.
Qed.

(** rtapi_task_delete in a state where the stacks are owned: it turns the
    id down, or frees a live block (or NULL) and returns 0. *)
Lemma rtapi_task_delete_owned join_err id (s : rtapi_state) :
  wf_state s -> stacks_owned s ->
  exists r s', rtapi_task_delete join_err id s = Returns r s' /\ stacks_owned s'.
Proof.
  intros [Hlen _] Hown.
  destruct ((id <? 0) || (id >=? MAX_TASKS)) eqn:Hrange.
  { exists (- EINVAL), s. unfold rtapi_task_delete. rewrite Hrange. split; [reflexivity|].
    exact Hown. }
  assert (Hid : 0 <= id < MAX_TASKS).
  { destruct (Z.ltb_spec id 0); [discriminate|].
    destruct (Z.geb_spec id MAX_TASKS); [discriminate|]. lia. }
  destruct (lookup_lt_is_Some_2 (task_array s) (Z.to_nat id)) as [t Ht];
    [rewrite Hlen; lia|].
  destruct (Z.eq_dec (task_magic t) TASK_MAGIC) as [Hm|Hm].
  - pose proof Hown as [Hlive Huniq].
    assert (Hst : stack_addrs s !! Z.to_nat id = Some (task_stackaddr t))
      by (unfold stack_addrs; rewrite list_lookup_fmap, Ht; reflexivity).
    pose proof (rtapi_task_delete_result join_err id s t Hid Ht Hm (Hlive _ _ Hst)) as Hres.
    apply returns_with_elim in Hres as (r & s' & Hrun & _ & Harr & Hheap & _).
    exists r, s'. split; [exact Hrun|].
    assert (HA : stack_addrs s' = <[Z.to_nat id := NULL]> (stack_addrs s)).
    { unfold stack_addrs. rewrite Harr, list_fmap_insert. reflexivity. }
    assert (Hidlen : (Z.to_nat id < length (stack_addrs s))%nat)
      by (eapply lookup_lt_Some; exact Hst).
    split.
    + intros i a Hi. rewrite HA in Hi.
      destruct (Nat.eq_dec i (Z.to_nat id)) as [->|Hne].
      * rewrite list_lookup_insert_eq in Hi by exact Hidlen. injection Hi as <-. now left.
      * rewrite list_lookup_insert_ne in Hi by congruence.
        destruct (Hlive i a Hi) as [?|Hin]; [now left|].
        destruct (Z.eq_dec a NULL) as [?|Hnn]; [now left|]. right.
        rewrite Hheap. destruct (Z.eqb_spec (task_stackaddr t) NULL); [exact Hin|].
        apply elem_of_difference. split; [exact Hin|].
        rewrite elem_of_singleton. intros ->.
        apply Hnn. exact (Huniq i (Z.to_nat id) _ Hne Hi Hst).
    + intros i j a Hij Hi Hj. rewrite HA in Hi, Hj.
      destruct (Nat.eq_dec i (Z.to_nat id)) as [->|Hni].
      * rewrite list_lookup_insert_eq in Hi by exact Hidlen. now injection Hi as <-.
      * destruct (Nat.eq_dec j (Z.to_nat id)) as [->|Hnj].
        -- rewrite list_lookup_insert_eq in Hj by exact Hidlen. now injection Hj as <-.
        -- rewrite list_lookup_insert_ne in Hi by congruence.
           rewrite list_lookup_insert_ne in Hj by congruence.
           exact (Huniq i j a Hij Hi Hj).
  - exists (- EINVAL), s. split; [|exact Hown].
    unfold rtapi_task_delete. rewrite Hrange. mstep.
    rewrite (load_task_eq _ _ t) by side.
    destruct (Z.eqb_spec (task_magic t) TASK_MAGIC); [contradiction|]. reflexivity.
Qed.

Lemma run_preserves_stacks_owned h c (s : rtapi_state) :
  wf_state s -> stacks_owned s -> fresh_alloc c s ->
  holds_after (run h c s) stacks_owned.
Proof.
  intros Hwf Hown Hfresh.
  destruct (match c with CallTaskNew _ _ _ _ _ _ _ _ _ => true
                       | CallTaskDelete _ _ => true | _ => false end) eqn:Hc.
  - destruct c; try discriminate; cbn [run].
    + apply rtapi_task_new_stacks; assumption.
    + destruct (rtapi_task_delete_owned join_err id s Hwf Hown) as (r & s' & -> & Hs').
      exact Hs'.
  - assert (Hview : holds_after (run h c s)
                      (fun s' => stack_addrs s' = stack_addrs s /\ heap s' = heap s)).
    { apply (run_preserves_stacks_view h c (stack_addrs s) (heap s)).
      - intros. intros ->. discriminate.
      - intros. intros ->. discriminate.
      - split; reflexivity. }
    eapply holds_after_weaken; [|exact Hview].
    intros s' [HA HH]. exact (stacks_owned_view s s' HA HH Hown).
Qed.

(** X26. No stack is freed twice. If in the state a run starts from every
    recorded stack address is NULL or a live block and no two slots record
    the same live block (true of the initial state), and malloc answers
    each rtapi_task_new of the run with NULL or a block that is not live,
    then the same holds in the state the run reaches, and rtapi_task_delete
    there always returns, for any id: it never hands free a block that is
    not live. This covers the slot that the priority error of
    rtapi_task_new leaves reserved, whose stack address is stale. *)
Theorem stacks_stay_owned h cs (s s' : rtapi_state) :
  wf_state s -> stacks_owned s ->
  fresh_allocs h cs s ->
  run_steps h cs s = Some s' ->
  stacks_owned s' /\
  forall join_err id,
    exists r s2, rtapi_task_delete join_err id s' = Returns r s2 /\ stacks_owned s2.
Proof.
  revert s. induction cs as [|c cs IH]; intros s Hwf Hown Hfresh Hrun.
  - cbn [run_steps] in Hrun. injection Hrun as <-. split; [exact Hown|].
    intros join_err id. apply rtapi_task_delete_owned; assumption.
  - cbn [run_steps fresh_allocs] in Hrun, Hfresh. destruct Hfresh as [Hc Hrest].
    pose proof (run_preserves_stacks_owned h c s Hwf Hown Hc) as Hown'.
    pose proof (run_preserves_wf_state h c s Hwf) as Hwf'.
    destruct (run h c s) as [r s1|s1|f]; cbn [holds_after] in *; [| |discriminate].
    + exact (IH s1 Hwf' Hown' Hrest Hrun).
    + exact (IH s1 Hwf' Hown' Hrest Hrun).
Qed.

Lemma stacks_owned_initial : stacks_owned initial_state.
Proof.
  split.
  - intros i a Hi. left. unfold stack_addrs in Hi. cbn [task_array initial_state] in Hi.
    rewrite list_lookup_fmap in Hi.
    destruct (replicate (Z.to_nat MAX_TASKS) zero_task !! i) as [t|] eqn:Ht;
      [|discriminate].
    apply lookup_replicate in Ht as [-> _]. now injection Hi as <-.
  - intros i j a _ Hi _. unfold stack_addrs in Hi. cbn [task_array initial_state] in Hi.
    rewrite list_lookup_fmap in Hi.
    destruct (replicate (Z.to_nat MAX_TASKS) zero_task !! i) as [t|] eqn:Ht;
      [|discriminate].
    apply lookup_replicate in Ht as [-> _]. now injection Hi as <-.
Qed.

Lemma stacks_stay_owned_witness :
  match run_steps example_host
          [ CallTaskNew 4096 7 0 0 32768 16384 0 "servo" (-1); CallTaskDelete 0 0 ]
          initial_state
  with
  | Some s' =>
      stacks_owned s' /\
      exists r s2, rtapi_task_delete 0 0 s' = Returns r s2 /\ stacks_owned s2
  | None => False
  end.
Proof.
  assert (E : is_Some
                (run_steps example_host
                   [ CallTaskNew 4096 7 0 0 32768 16384 0 "servo" (-1); CallTaskDelete 0 0 ]
                   initial_state)) by (vm_compute; eauto).
  destruct (run_steps example_host
              [ CallTaskNew 4096 7 0 0 32768 16384 0 "servo" (-1); CallTaskDelete 0 0 ]
              initial_state) as [s'|] eqn:Hrun; [|destruct E; discriminate].
  destruct (stacks_stay_owned example_host
              [ CallTaskNew 4096 7 0 0 32768 16384 0 "servo" (-1); CallTaskDelete 0 0 ]
              initial_state s') as [Hown Hdel].
  - split; reflexivity.
  - exact stacks_owned_initial.
  - cbn [fresh_allocs fresh_alloc]. split; [right; apply not_elem_of_empty|].
    destruct (run example_host (CallTaskNew 4096 7 0 0 32768 16384 0 "servo" (-1))
                initial_state) as [r s1|s1|f]; [| |exact I].
    + split; [exact I|]. destruct (run example_host (CallTaskDelete 0 0) s1); exact I.
    + split; [exact I|]. destruct (run example_host (CallTaskDelete 0 0) s1); exact I.
  - exact Hrun.
  - split; [exact Hown | exact (Hdel 0 0)].
Defined.

(** * The two files side by side *)

(** X27. realtime_set_affinity and realtime_set_priority of rt-preempt.c
    answer as those of linux_rtapi.c do. On tasks with the same CPU
    setting and the same thread, the two realtime_set_affinity return the
    same value after the same messages and the same request to
    pthread_setaffinity_np, and neither changes anything else. On tasks
    with the same priority the two realtime_set_priority return the same
    value after the same request to sched_setscheduler; the one of
    linux_rtapi.c also clears deadline_scheduling, which rt-preempt.c does
    not have. *)
Theorem realtime_setup_agrees h e n (sl : rtapi_state) (sp : RtPreempt.rtapi_state)
    tl tp x :
  0 <= n ->
  task_array sl !! Z.to_nat n = Some tl ->
  RtPreempt.task_array sp !! Z.to_nat n = Some tp ->
  RtPreempt.extra_task_data sp !! Z.to_nat n = Some x ->
  (task_cpu tl = RtPreempt.task_cpu tp -> task_thread tl = RtPreempt.thread x ->
   exists r l,
     realtime_set_affinity h e n sl = Returns r (set_log (l ++ log sl) sl) /\
     RtPreemptThread.realtime_set_affinity h e n sp
       = Returns r (RtPreempt.set_log (l ++ RtPreempt.log sp) sp)) /\
  (task_prio tl = RtPreempt.task_prio tp ->
   exists r l,
     realtime_set_priority e n sl
       = Returns r
           (set_log (l ++ log sl)
              (set_task_array
                 (<[Z.to_nat n := set_deadline_scheduling 0 tl]> (task_array sl)) sl)) /\
     RtPreemptThread.realtime_set_priority e n sp
       = Returns r (RtPreempt.set_log (l ++ RtPreempt.log sp) sp)).
Proof.
  intros Hn Htl Htp Hx. split.
  - intros Hcpu Hthread.
    unfold realtime_set_affinity, RtPreemptThread.realtime_set_affinity. cbv zeta.
    mstep. unfold RtPreempt.load_extra.
    rewrite (load_task_eq _ _ tl) by side.
    rewrite (preempt_load_eq _ _ _ x) by side. mstep.
    rewrite (preempt_load_eq _ _ _ tp) by side.
    rewrite <- Hcpu, <- Hthread.
    destruct (task_cpu tl >? -1).
    + destruct (CPU_ISSET h (task_cpu tl) (affinity e)); cbn [negb]; mstep.
      * destruct (setaffinity_err e =? 0); cbn [negb]; mstep.
        -- exists 0, [Msg RTAPI_MSG_DBG "realtime_set_affinity(): task assigned to CPU";
                      SetAffinity (task_thread tl) (task_cpu tl)].
           split; reflexivity.
        -- exists (- EINVAL), [Msg RTAPI_MSG_ERR "Failed to set CPU affinity";
                               SetAffinity (task_thread tl) (task_cpu tl)].
           split; reflexivity.
      * exists (- EINVAL), [Msg RTAPI_MSG_ERR "realtime_set_affinity: CPU not available"].
        split; reflexivity.
    + destruct (last_cpu (affinity e) (CPU_SETSIZE h) <? 0); mstep.
      * exists (- EINVAL), [Msg RTAPI_MSG_ERR "Unable to get ID of the last CPU"].
        split; reflexivity.
      * destruct (setaffinity_err e =? 0); cbn [negb]; mstep.
        -- exists 0, [Msg RTAPI_MSG_DBG "realtime_set_affinity(): task assigned to CPU";
                      SetAffinity (task_thread tl) (last_cpu (affinity e) (CPU_SETSIZE h));
                      Msg RTAPI_MSG_DBG "using default CPU"].
           split; reflexivity.
        -- exists (- EINVAL), [Msg RTAPI_MSG_ERR "Failed to set CPU affinity";
                               SetAffinity (task_thread tl)
                                 (last_cpu (affinity e) (CPU_SETSIZE h));
                               Msg RTAPI_MSG_DBG "using default CPU"].
           split; reflexivity.
  - intros Hprio.
    unfold realtime_set_priority, RtPreemptThread.realtime_set_priority.
    mstep. rewrite (store_task_eq _ _ _ tl) by side. mstep.
    rewrite (load_task_eq _ _ (set_deadline_scheduling 0 tl))
      by (try lia; cbn [task_array set_task_array]; apply list_lookup_insert_eq;
          eapply lookup_lt_Some; exact Htl).
    rewrite (preempt_load_eq _ _ _ tp) by side. mstep.
    cbn [task_prio set_deadline_scheduling]. rewrite <- Hprio.
    destruct (setscheduler_err e =? 0); cbn [negb]; mstep.
    + exists 0, [SetScheduler (task_prio tl)]. split; reflexivity.
    + exists 1, [Msg RTAPI_MSG_ERR "Unable to set FIFO scheduling policy";
                 SetScheduler (task_prio tl)].
      split; reflexivity.
Qed.

Lemma realtime_setup_agrees_witness :
  (exists r l,
     realtime_set_affinity example_host example_start_env 1 linux_running
       = Returns r (set_log (l ++ log linux_running) linux_running) /\
     RtPreemptThread.realtime_set_affinity example_host example_start_env 1 preempt_running
       = Returns r (RtPreempt.set_log (l ++ RtPreempt.log preempt_running)
                      preempt_running)) /\
  (exists r l,
     realtime_set_priority example_start_env 1 linux_running
       = Returns r
           (set_log (l ++ log linux_running)
              (set_task_array
                 (<[Z.to_nat 1 := set_deadline_scheduling 0 linux_running_task]>
                    (task_array linux_running)) linux_running)) /\
     RtPreemptThread.realtime_set_priority example_start_env 1 preempt_running
       = Returns r (RtPreempt.set_log (l ++ RtPreempt.log preempt_running)
                      preempt_running)).
Proof.
  destruct (realtime_setup_agrees example_host example_start_env 1 linux_running
              preempt_running linux_running_task (preempt_running_task "servo")
              (preempt_running_extra 7 4096 1207)
              ltac:(lia) eq_refl eq_refl eq_refl) as [Haff Hprio].
  split; [apply Haff; reflexivity | apply Hprio; reflexivity].
Defined.
